(** * Todo calendar: the date-indexed todo collection and its storage-backed hook

    A shallow embedding of [src/utils/todoUtils.js], [src/utils/dateUtils.js]
    ([formatDateKey]), [src/utils/errorUtils.js] ([StorageError],
    [handleStorageOperation]), [src/hooks/useLocalStorage.js] ([setValue])
    and [src/hooks/useTodos.js], followed by the properties established
    about them.

    Conventions of the embedding.
    - JavaScript strings are [string]s whose characters are the code units
      0..255 (the Latin-1 range); [trim] and [toLowerCase] are the standard
      ones restricted to that range.
    - The numbers held by todos and dates are the integers and [NaN]; the
      numbers [getTodoStats] computes are IEEE 754 doubles, the binary64
      [spec_float]s of the Standard Library.
    - A plain object is the list of its own properties in enumeration
      order; property values are primitives.  A collection is the object
      whose keys are day keys and whose values are arrays of plain objects.
      Enumeration ([for ... in]) follows creation order for keys that are
      not array indices; every key produced by [formatDateKey] or accepted
      by [validateTodo] contains a dash and is such a key.  Where the code
      creates a property under a key of any other origin
      ([updateTodoInCollection]), an array index takes its place among the
      array indices, which come first, and a name that the object inherits
      from [Object.prototype] is read as the inherited member.
    - A thrown exception is the [Throw] case of [Result]; the message of the
      exception is kept verbatim.
    - The clock reading ([new Date().toISOString()]) is an explicit argument
      of the pure functions, and a field of the host for the hooks. *)

From Stdlib Require Import List String Ascii Bool Arith ZArith Lia.
From Stdlib Require Import DecimalString SpecFloat.
From Stdlib Require DecimalZ DecimalPos.
Import ListNotations.

Local Open Scope string_scope.
Local Open Scope list_scope.
Local Open Scope nat_scope.

Set Implicit Arguments.

(* ================================================================== *)
(** ** JavaScript strings *)

Module JsString.

(** White space of ECMAScript in the code-unit range 0..255: TAB, LF, VT,
    FF, CR, SP and NBSP. *)
Definition isWhiteSpace (c : ascii) : bool :=
  let n := nat_of_ascii c in
  ((9 <=? n) && (n <=? 13)) || (n =? 32) || (n =? 160).

Fixpoint trimStart (s : string) : string :=
  match s with
  | EmptyString => EmptyString
  | String c s' => if isWhiteSpace c then trimStart s' else s
  end.

Fixpoint trimEnd (s : string) : string :=
  match s with
  | EmptyString => EmptyString
  | String c s' =>
      match trimEnd s' with
      | EmptyString => if isWhiteSpace c then EmptyString else String c EmptyString
      | t => String c t
      end
  end.

(** [String.prototype.trim] *)
Definition trim (s : string) : string := trimEnd (trimStart s).

(** Lower-casing of one code unit: A-Z, and the Latin-1 capitals
    U+00C0..U+00DE except the multiplication sign U+00D7. *)
Definition toLowerChar (c : ascii) : ascii :=
  let n := nat_of_ascii c in
  if ((65 <=? n) && (n <=? 90))
     || ((192 <=? n) && (n <=? 222) && negb (n =? 215))
  then ascii_of_nat (n + 32) else c.

(** [String.prototype.toLowerCase] *)
Fixpoint toLowerCase (s : string) : string :=
  match s with
  | EmptyString => EmptyString
  | String c s' => String (toLowerChar c) (toLowerCase s')
  end.

Fixpoint startsWith (s p : string) : bool :=
  match p, s with
  | EmptyString, _ => true
  | String _ _, EmptyString => false
  | String a p', String b s' => Ascii.eqb a b && startsWith s' p'
  end.

(** [String.prototype.includes] *)
Fixpoint includes (s term : string) : bool :=
  startsWith s term ||
  match s with
  | EmptyString => false
  | String _ s' => includes s' term
  end.

(** [String.prototype.padStart] with a one-character filler. *)
Definition padStart (targetLength : nat) (fill : ascii) (s : string) : string :=
  (string_of_list_ascii (repeat fill (targetLength - String.length s)) ++ s)%string.

(** [Array.prototype.join] on an array of strings. *)
Fixpoint join (sep : string) (l : list string) : string :=
  match l with
  | [] => ""
  | [x] => x
  | x :: rest => (x ++ sep ++ join sep rest)%string
  end.

Definition isDigit (c : ascii) : bool :=
  let n := nat_of_ascii c in (48 <=? n) && (n <=? 57).

(** The test of the regular expression [/^\d{4}-\d{2}-\d{2}$/]. *)
Definition isDateKeyFormat (s : string) : bool :=
  match list_ascii_of_string s with
  | [y1; y2; y3; y4; d1; m1; m2; d2; a1; a2] =>
      isDigit y1 && isDigit y2 && isDigit y3 && isDigit y4
      && Ascii.eqb d1 "-"%char && isDigit m1 && isDigit m2
      && Ascii.eqb d2 "-"%char && isDigit a1 && isDigit a2
  | _ => false
  end.

End JsString.
Import JsString.

(* ================================================================== *)
(** ** JavaScript values *)

Inductive JsNumber :=
| Int (z : Z)
| NaN.

Inductive Prim :=
| JUndefined
| JNull
| JBool (b : bool)
| JNum (n : JsNumber)
| JStr (s : string).

(** A [Date] object, seen through [getFullYear], [getMonth] (0..11) and
    [getDate]; [InvalidDate] is the date whose time value is NaN. *)
Inductive Date :=
| MkDate (year month day : Z)
| InvalidDate.

(** A plain object: its own properties, in creation order. *)
Definition Obj := list (string * Prim).

Inductive Value :=
| VPrim (p : Prim)
| VDate (d : Date)
| VObj (o : Obj).

Inductive JsType := t_undefined | t_object | t_boolean | t_number | t_string.

Definition JsType_eqb (a b : JsType) : bool :=
  match a, b with
  | t_undefined, t_undefined | t_object, t_object | t_boolean, t_boolean
  | t_number, t_number | t_string, t_string => true
  | _, _ => false
  end.

Definition typeofPrim (p : Prim) : JsType :=
  match p with
  | JUndefined => t_undefined
  | JNull => t_object
  | JBool _ => t_boolean
  | JNum _ => t_number
  | JStr _ => t_string
  end.

Definition typeof (v : Value) : JsType :=
  match v with
  | VPrim p => typeofPrim p
  | VDate _ | VObj _ => t_object
  end.

(** [ToBoolean] *)
Definition truthyPrim (p : Prim) : bool :=
  match p with
  | JUndefined | JNull => false
  | JBool b => b
  | JNum (Int z) => negb (Z.eqb z 0)
  | JNum NaN => false
  | JStr s => negb (String.length s =? 0)
  end.

Definition truthy (v : Value) : bool :=
  match v with
  | VPrim p => truthyPrim p
  | VDate _ | VObj _ => true
  end.

Definition isUndefined (v : Value) : bool :=
  match v with
  | VPrim JUndefined => true
  | _ => false
  end.

(** The string held by a value whose [typeof] is ['string']. *)
Definition strOfPrim (p : Prim) : string :=
  match p with
  | JStr s => s
  | _ => ""
  end.

Definition strOf (v : Value) : string :=
  match v with
  | VPrim p => strOfPrim p
  | _ => ""
  end.

Definition numberToString (n : JsNumber) : string :=
  match n with
  | Int z => NilZero.string_of_int (Z.to_int z)
  | NaN => "NaN"
  end.

(** [ToString] on primitives: template literals and computed property keys. *)
Definition toString (p : Prim) : string :=
  match p with
  | JUndefined => "undefined"
  | JNull => "null"
  | JBool true => "true"
  | JBool false => "false"
  | JNum n => numberToString n
  | JStr s => s
  end.

(** Strict equality [===] on primitives. *)
Definition strictEq (a b : Prim) : bool :=
  match a, b with
  | JUndefined, JUndefined => true
  | JNull, JNull => true
  | JBool x, JBool y => Bool.eqb x y
  | JNum (Int x), JNum (Int y) => Z.eqb x y
  | JStr x, JStr y => String.eqb x y
  | _, _ => false
  end.

(* ================================================================== *)
(** ** Objects as property lists *)

Module JsObject.

(** The names that a plain object inherits from [Object.prototype].  On an
    object with no own property of that name, reading one of them gives
    the inherited member (a function, or the prototype itself for
    [__proto__]): a value that is truthy and is not iterable. *)
Definition objectPrototypeNames : list string :=
  [ "constructor"; "__defineGetter__"; "__defineSetter__"; "hasOwnProperty";
    "__lookupGetter__"; "__lookupSetter__"; "isPrototypeOf";
    "propertyIsEnumerable"; "toString"; "valueOf"; "__proto__"; "toLocaleString" ].

Definition inheritedName (k : string) : bool :=
  existsb (String.eqb k) objectPrototypeNames.

(** The number that a string of decimal digits writes. *)
Definition digitsValue (s : string) : N :=
  fold_left (fun acc ch => (acc * 10 + (N_of_ascii ch - 48))%N)
    (list_ascii_of_string s) 0%N.

(** An array index: the canonical numeral of an integer from 0 to
    2^32 - 2. *)
Definition isArrayIndex (k : string) : bool :=
  match k with
  | EmptyString => false
  | String c rest =>
      forallb isDigit (list_ascii_of_string k)
      && (negb (Ascii.eqb c "0"%char) || (String.length rest =? 0))
      && (digitsValue k <=? 4294967294)%N
  end.

Section Props.
Variable V : Type.

Fixpoint lookup (k : string) (o : list (string * V)) : option V :=
  match o with
  | [] => None
  | (k', v) :: rest => if String.eqb k' k then Some v else lookup k rest
  end.

(** [k in o] for an own property. *)
Definition hasOwn (k : string) (o : list (string * V)) : bool :=
  match lookup k o with
  | Some _ => true
  | None => false
  end.

(** [o[k] = v] on a fresh copy: an existing property keeps its place, a
    new one goes last. *)
Fixpoint assign (k : string) (v : V) (o : list (string * V)) : list (string * V) :=
  match o with
  | [] => [(k, v)]
  | (k', v') :: rest =>
      if String.eqb k' k then (k', v) :: rest else (k', v') :: assign k v rest
  end.

(** The place of a new array index [k]: before the first key that is not
    an array index or is a greater one. *)
Fixpoint insertIndex (k : string) (v : V) (o : list (string * V)) : list (string * V) :=
  match o with
  | [] => [(k, v)]
  | (k', v') :: rest =>
      if isArrayIndex k' && (digitsValue k' <? digitsValue k)%N
      then (k', v') :: insertIndex k v rest
      else (k, v) :: o
  end.

(** [o[k] = v] for a key [k] that [o] has no own property of, whatever the
    key: the array indices are enumerated first, in ascending order, and
    the other keys after them, in creation order. *)
Definition create (k : string) (v : V) (o : list (string * V)) : list (string * V) :=
  if isArrayIndex k then insertIndex k v o else o ++ [(k, v)].

(** [delete o[k]] on a fresh copy. *)
Definition delete (k : string) (o : list (string * V)) : list (string * V) :=
  filter (fun kv => negb (String.eqb (fst kv) k)) o.

(** The keys in enumeration order. *)
Definition keys (o : list (string * V)) : list string := map fst o.
End Props.
End JsObject.
Import JsObject.

(** [o.k] on a plain object: the own property, or [undefined]. *)
Definition get (o : Obj) (k : string) : Prim :=
  match lookup k o with
  | Some v => v
  | None => JUndefined
  end.

(** The own enumerable properties of a value (what [{...v}] copies and what
    [k in v] and [v.k] see for the field names used here). *)
Definition ownProps (v : Value) : Obj :=
  match v with
  | VObj o => o
  | _ => []
  end.

(* ================================================================== *)
(** ** Exceptions *)

Inductive Exn :=
| Error (message : string)
| TypeError (message : string)
| StorageError (message operation : string).

Definition message (e : Exn) : string :=
  match e with
  | Error m | TypeError m | StorageError m _ => m
  end.

Inductive Result (A : Type) :=
| Ret (a : A)
| Throw (e : Exn).
Arguments Ret {A} a.
Arguments Throw {A} e.

Definition bindR {A B} (r : Result A) (k : A -> Result B) : Result B :=
  match r with
  | Ret a => k a
  | Throw e => Throw e
  end.

Declare Scope result_scope.
Delimit Scope result_scope with result.
Notation "x <- r ;; k" := (bindR r (fun x => k))
  (at level 100, r at next level, right associativity) : result_scope.

(* ================================================================== *)
(** ** dateUtils.js *)

Definition getFullYear (d : Date) : JsNumber :=
  match d with MkDate y _ _ => Int y | InvalidDate => NaN end.
Definition getMonth (d : Date) : JsNumber :=
  match d with MkDate _ m _ => Int m | InvalidDate => NaN end.
Definition getDate (d : Date) : JsNumber :=
  match d with MkDate _ _ a => Int a | InvalidDate => NaN end.

Definition numAdd1 (n : JsNumber) : JsNumber :=
  match n with Int z => Int (z + 1) | NaN => NaN end.

Definition formatDateKey (date : Date) : string :=
  let year := getFullYear date in
  let month := padStart 2 "0"%char (numberToString (numAdd1 (getMonth date))) in
  let day := padStart 2 "0"%char (numberToString (getDate date)) in
  (numberToString year ++ "-" ++ month ++ "-" ++ day)%string.


(* ================================================================== *)
(** ** todoUtils.js: the todo model *)

(** The [updates] argument of [updateTodo]: the four properties it reads.
    A property that is absent reads as [undefined]. *)
Record Updates := {
  upd_title : Value;
  upd_description : Value;
  upd_completed : Value;
  upd_date : Value
}.

Definition undef : Value := VPrim JUndefined.

Definition noUpdates : Updates :=
  {| upd_title := undef; upd_description := undef; upd_completed := undef; upd_date := undef |}.

(** [createTodo]; [id] is what [generateTodoId()] returned and [now] what
    [new Date().toISOString()] returned during the call. *)
Definition createTodo (id now : string) (title : Value) (description : string) (date : Date)
  : Result Obj :=
  if negb (truthy title)
     || negb (JsType_eqb (typeof title) t_string)
     || (String.length (trim (strOf title)) =? 0)
  then Throw (Error "Todo title is required and must be a non-empty string")
  else
    let dateKey := formatDateKey date in
    Ret [ ("id", JStr id);
          ("title", JStr (trim (strOf title)));
          ("description", JStr (trim description));
          ("completed", JBool false);
          ("dateKey", JStr dateKey);
          ("createdAt", JStr now);
          ("updatedAt", JStr now) ].

Definition updateTodo (now : string) (existingTodo : Value) (updates : Updates) : Result Obj :=
  (if negb (truthy existingTodo) || negb (JsType_eqb (typeof existingTodo) t_object)
   then Throw (Error "Existing todo must be a valid object")
   else
   if negb (truthyPrim (get (ownProps existingTodo) "id"))
   then Throw (Error "Existing todo must have an id")
   else
   let updatedTodo := ownProps existingTodo in
   (* Update title if provided *)
   updatedTodo <-
     (if negb (isUndefined (upd_title updates)) then
        if negb (JsType_eqb (typeof (upd_title updates)) t_string)
           || (String.length (trim (strOf (upd_title updates))) =? 0)
        then Throw (Error "Todo title must be a non-empty string")
        else Ret (assign "title" (JStr (trim (strOf (upd_title updates)))) updatedTodo)
      else Ret updatedTodo) ;;
   (* Update description if provided *)
   let updatedTodo :=
     if negb (isUndefined (upd_description updates)) then
       assign "description"
         (JStr (if JsType_eqb (typeof (upd_description updates)) t_string
                then trim (strOf (upd_description updates)) else ""))
         updatedTodo
     else updatedTodo in
   (* Update completed status if provided *)
   let updatedTodo :=
     if negb (isUndefined (upd_completed updates)) then
       assign "completed" (JBool (truthy (upd_completed updates))) updatedTodo
     else updatedTodo in
   (* Update date if provided *)
   updatedTodo <-
     (if negb (isUndefined (upd_date updates)) then
        match upd_date updates with
        | VDate d => Ret (assign "dateKey" (JStr (formatDateKey d)) updatedTodo)
        | _ => Throw (Error "Date must be a valid Date object")
        end
      else Ret updatedTodo) ;;
   (* Always update the updatedAt timestamp *)
   Ret (assign "updatedAt" (JStr now) updatedTodo))%result.

Definition toggleTodoComplete (now : string) (todo : Obj) : Result Obj :=
  updateTodo now (VObj todo)
    {| upd_title := undef; upd_description := undef;
       upd_completed := VPrim (JBool (negb (truthyPrim (get todo "completed"))));
       upd_date := undef |}.

Definition requiredFields : list string :=
  ["id"; "title"; "completed"; "dateKey"; "createdAt"; "updatedAt"].

Definition validateTodo (todo : Value) : Result bool :=
  if negb (truthy todo) || negb (JsType_eqb (typeof todo) t_object)
  then Throw (Error "Todo must be an object")
  else
  let o := ownProps todo in
  let missingFields := filter (fun field => negb (hasOwn field o)) requiredFields in
  if 0 <? List.length missingFields
  then Throw (Error ("Todo is missing required fields: " ++ join ", " missingFields))
  else
  if negb (JsType_eqb (typeofPrim (get o "id")) t_string)
     || (String.length (strOfPrim (get o "id")) =? 0)
  then Throw (Error "Todo id must be a non-empty string")
  else
  if negb (JsType_eqb (typeofPrim (get o "title")) t_string)
     || (String.length (trim (strOfPrim (get o "title"))) =? 0)
  then Throw (Error "Todo title must be a non-empty string")
  else
  if negb (JsType_eqb (typeofPrim (get o "completed")) t_boolean)
  then Throw (Error "Todo completed must be a boolean")
  else
  if negb (JsType_eqb (typeofPrim (get o "dateKey")) t_string)
     || negb (isDateKeyFormat (strOfPrim (get o "dateKey")))
  then Throw (Error "Todo dateKey must be in YYYY-MM-DD format")
  else
  if negb (JsType_eqb (typeofPrim (get o "description")) t_string)
  then Throw (Error "Todo description must be a string")
  else Ret true.

(* ================================================================== *)
(** ** todoUtils.js: the collection *)

(** Todos organised by date key. *)
Definition Collection := list (string * list Obj).

(** [t => t.id === todoId] *)
Definition hasId (todoId : Prim) (t : Obj) : bool := strictEq (get t "id") todoId.

(** [Array.prototype.findIndex]; [None] stands for [-1]. *)
Fixpoint findIndex (A : Type) (p : A -> bool) (l : list A) : option nat :=
  match l with
  | [] => None
  | x :: rest =>
      if p x then Some 0
      else match findIndex p rest with
           | Some i => Some (S i)
           | None => None
           end
  end.

(** [todos[i]] *)
Definition at_ (todos : list Obj) (i : nat) : Value :=
  match nth_error todos i with
  | Some o => VObj o
  | None => undef
  end.

(** [collection[dateKey] || []] *)
Definition bucket (collection : Collection) (dateKey : string) : list Obj :=
  match lookup dateKey collection with
  | Some todos => todos
  | None => []
  end.

Definition addTodoToCollection (todosCollection : Collection) (todo : Obj) : Result Collection :=
  (_ <- validateTodo (VObj todo) ;;
   let updatedCollection := todosCollection in
   let dateKey := toString (get todo "dateKey") in
   let updatedCollection :=
     if negb (hasOwn dateKey updatedCollection)
     then assign dateKey [] updatedCollection
     else updatedCollection in
   (* Check if todo with same ID already exists *)
   let existingIndex := findIndex (hasId (get todo "id")) (bucket updatedCollection dateKey) in
   match existingIndex with
   | Some _ =>
       Throw (Error ("Todo with id " ++ toString (get todo "id")
                     ++ " already exists for date " ++ dateKey))
   | None =>
       Ret (assign dateKey (bucket updatedCollection dateKey ++ [todo]) updatedCollection)
   end)%result.

(** The [for ... in] loop shared by [updateTodoInCollection] and
    [removeTodoFromCollection]: [entries] are the properties still to be
    visited, [updatedCollection] the copy being rebuilt.  The loop stops at
    the first day whose array holds [todoId]; [onFound] is what the caller
    computes from the todo found before the todo is filtered out. *)
Fixpoint scan (A : Type) (todoId : string) (onFound : Value -> Result A)
    (entries : Collection) (updatedCollection : Collection)
  : Result (option (A * Collection)) :=
  match entries with
  | [] => Ret None
  | (dateKey, todos) :: rest =>
      match findIndex (hasId (JStr todoId)) todos with
      | Some todoIndex =>
          (found <- onFound (at_ todos todoIndex) ;;
           let remaining := filter (fun t => negb (hasId (JStr todoId) t)) todos in
           let updatedCollection := assign dateKey remaining updatedCollection in
           (* Clean up empty arrays *)
           let updatedCollection :=
             if List.length remaining =? 0
             then delete dateKey updatedCollection
             else updatedCollection in
           Ret (Some (found, updatedCollection)))%result
      | None => scan todoId onFound rest updatedCollection
      end
  end.

Definition updateTodoInCollection (now : string) (todosCollection : Collection)
    (todoId : string) (updates : Updates) : Result Collection :=
  (found <- scan todoId (fun existingTodo => updateTodo now existingTodo updates)
              todosCollection todosCollection ;;
   match found with
   | None => Throw (Error ("Todo with id " ++ todoId ++ " not found"))
   | Some (updatedTodo, updatedCollection) =>
       (* Add to new date (might be same as old date) *)
       let newDateKey := toString (get updatedTodo "dateKey") in
       let own := hasOwn newDateKey updatedCollection in
       let inherited := negb own && inheritedName newDateKey in
       (* [!updatedCollection[newDateKey]]: an array of the collection and a
          member of [Object.prototype] are both truthy *)
       let updatedCollection :=
         if negb own && negb inherited
         then create newDateKey [] updatedCollection
         else updatedCollection in
       (* [[...updatedCollection[newDateKey], updatedTodo]] *)
       if inherited
       then Throw (TypeError "updatedCollection[newDateKey] is not iterable")
       else Ret (assign newDateKey (bucket updatedCollection newDateKey ++ [updatedTodo])
                   updatedCollection)
   end)%result.

Definition removeTodoFromCollection (todosCollection : Collection) (todoId : string)
  : Result Collection :=
  (found <- scan todoId (fun _ => Ret tt) todosCollection todosCollection ;;
   match found with
   | None => Throw (Error ("Todo with id " ++ todoId ++ " not found"))
   | Some (_, updatedCollection) => Ret updatedCollection
   end)%result.

(** The [date] argument of [getTodosForDate]: a [Date] or a day string. *)
Inductive DateArg :=
| DayString (s : string)
| DayDate (d : Date).

(** [todosCollection[dateKey] || []], read as the own property of the
    collection or, when it has none, as the empty array.  This is what the
    code returns for every key but the names of the members of
    [Object.prototype] ([inheritedName]) that the collection does not own:
    for those the code returns the inherited member, which is no array.
    Every statement on [getTodosForDate] is on keys of the first kind; no
    key that [formatDateKey] prints is of the second. *)
Definition getTodosForDate (todosCollection : Collection) (date : DateArg) : list Obj :=
  let dateKey := match date with
                 | DayString s => s
                 | DayDate d => formatDateKey d
                 end in
  bucket todosCollection dateKey.

Definition getAllTodos (todosCollection : Collection) : list Obj :=
  flat_map snd todosCollection.

(** The numbers of [getTodoStats]: IEEE 754 doubles, with the division and
    the multiplication of binary64 (round to nearest, ties to even).  An
    array length is an integer below 2^32, which a double holds exactly. *)
Definition JsDouble : Type := spec_float.

Definition numberOfNat (n : nat) : JsDouble :=
  binary_normalize 53 1024 (Z.of_nat n) 0 false.

Definition numDiv (x y : JsDouble) : JsDouble := SFdiv 53 1024 x y.
Definition numMul (x y : JsDouble) : JsDouble := SFmul 53 1024 x y.

Record Stats := {
  total : nat;
  completed : nat;
  pending : nat;
  completionRate : JsDouble
}.

Definition getTodoStats (todosCollection : Collection) : Stats :=
  let allTodos := getAllTodos todosCollection in
  let completed := filter (fun todo => truthyPrim (get todo "completed")) allTodos in
  let pending := filter (fun todo => negb (truthyPrim (get todo "completed"))) allTodos in
  {| total := List.length allTodos;
     completed := List.length completed;
     pending := List.length pending;
     completionRate :=
       if 0 <? List.length allTodos
       then numMul (numDiv (numberOfNat (List.length completed))
                      (numberOfNat (List.length allTodos)))
              (numberOfNat 100)
       else S754_zero false |}.

(** [p.toLowerCase()] for a property value [p]; the messages of the
    [TypeError]s are those of V8. *)
Definition toLowerCaseOf (field : string) (p : Prim) : Result string :=
  match p with
  | JStr s => Ret (toLowerCase s)
  | JUndefined =>
      Throw (TypeError "Cannot read properties of undefined (reading 'toLowerCase')")
  | JNull =>
      Throw (TypeError "Cannot read properties of null (reading 'toLowerCase')")
  | _ => Throw (TypeError ("todo." ++ field ++ ".toLowerCase is not a function"))
  end.

(** [Array.prototype.filter] with a callback that may throw. *)
Fixpoint filterR (A : Type) (p : A -> Result bool) (l : list A) : Result (list A) :=
  match l with
  | [] => Ret []
  | x :: rest =>
      (keep <- p x ;;
       rest' <- filterR p rest ;;
       Ret (if keep then x :: rest' else rest'))%result
  end.

(** The callback of [searchTodos]; [||] evaluates its right operand only when
    the left one is false. *)
Definition matchesTerm (term : string) (todo : Obj) : Result bool :=
  (title <- toLowerCaseOf "title" (get todo "title") ;;
   if includes title term then Ret true
   else
     description <- toLowerCaseOf "description" (get todo "description") ;;
     Ret (includes description term))%result.

Fixpoint searchLoop (term : string) (entries : Collection) (results : list Obj)
  : Result (list Obj) :=
  match entries with
  | [] => Ret results
  | (dateKey, todos) :: rest =>
      (matchingTodos <- filterR (matchesTerm term) todos ;;
       let results :=
         results ++ map (fun todo => assign "dateKey" (JStr dateKey) todo) matchingTodos in
       searchLoop term rest results)%result
  end.

Definition searchTodos (todosCollection : Collection) (searchTerm : Value)
  : Result (list Obj) :=
  if negb (truthy searchTerm) || negb (JsType_eqb (typeof searchTerm) t_string)
  then Ret []
  else
    let term := trim (toLowerCase (strOf searchTerm)) in
    searchLoop term todosCollection [].

(* ================================================================== *)
(** ** todoUtils.js and dateUtils.js: the other queries *)



Definition isSameDay (date1 date2 : Date) : bool :=
  String.eqb (formatDateKey date1) (formatDateKey date2).

(* ================================================================== *)
(** ** errorUtils.js *)

(** [handleStorageOperation(operation, operationName)]; [operation] is the
    outcome of running the callback. *)
Definition handleStorageOperation (A : Type) (operation : Result A) (operationName : string)
  : Result A :=
  match operation with
  | Ret a => Ret a
  | Throw error =>
      Throw (StorageError
               (if negb (String.length (message error) =? 0)
                then message error else "Storage operation failed")
               operationName)
  end.

Definition isStorageError (e : Exn) : bool :=
  match e with
  | StorageError _ _ => true
  | _ => false
  end.

(* ================================================================== *)
(** ** The host of the hooks *)

(** What the browser contributes: the states of [window.localStorage] and
    its [setItem] (which may throw, for instance when the quota is
    exceeded), [JSON.stringify] on collections, and the readings of the
    environment at the n-th instant: the clock ([new Date()],
    [toISOString()]) and [generateTodoId()]. *)
Record Host := {
  Storage : Type;
  hasWindow : bool;
  stringify : Collection -> string;
  setItem : Storage -> string -> string -> Result Storage;
  today : nat -> Date;
  toISOString : nat -> string;
  generateTodoId : nat -> string
}.

Record Status := {
  loading : bool;
  error : option Exn;
  lastUpdated : option string
}.

Section Hooks.
Variable host : Host.

(** The state of a mounted [useTodos]: the two pieces of React state of
    [useLocalStorage], the storage behind them, and how many instants
    have passed. *)
Record World := {
  storedValue : Collection;
  status : Status;
  localStorage : Storage host;
  instant : nat
}.

Definition M (A : Type) : Type := World -> Result A * World.

Definition ret (A : Type) (a : A) : M A := fun w => (Ret a, w).
Definition throw (A : Type) (e : Exn) : M A := fun w => (Throw e, w).
Definition bind (A B : Type) (m : M A) (k : A -> M B) : M B :=
  fun w =>
    match m w with
    | (Ret a, w') => k a w'
    | (Throw e, w') => (Throw e, w')
    end.
(** [try { m } catch (error) { handler(error) }] *)
Definition tryCatch (A : Type) (m : M A) (handler : Exn -> M A) : M A :=
  fun w =>
    match m w with
    | (Ret a, w') => (Ret a, w')
    | (Throw e, w') => handler e w'
    end.
Definition liftR (A : Type) (r : Result A) : M A := fun w => (r, w).
Arguments throw {A} e.

Declare Scope hook_scope.
Delimit Scope hook_scope with hook.
Notation "x <- m ;; k" := (bind m (fun x => k))
  (at level 100, m at next level, right associativity) : hook_scope.

(** One reading of the environment; the next reading is a later one. *)
Definition tick : M nat :=
  fun w => (Ret (instant w),
            {| storedValue := storedValue w; status := status w;
               localStorage := localStorage w; instant := S (instant w) |}).

Definition setStatus (s : Status) : M unit :=
  fun w => (Ret tt,
            {| storedValue := storedValue w; status := s;
               localStorage := localStorage w; instant := instant w |}).

Definition setStoredValue (v : Collection) : M unit :=
  fun w => (Ret tt,
            {| storedValue := v; status := status w;
               localStorage := localStorage w; instant := instant w |}).

(** [window.localStorage.setItem(key, JSON.stringify(valueToStore))]
    under [handleStorageOperation]. *)
Definition writeItem (key : string) (valueToStore : Collection) : M unit :=
  fun w =>
    match handleStorageOperation
            (setItem host (localStorage w) key (stringify host valueToStore))
            ("setItem:" ++ key) with
    | Ret st =>
        (Ret tt, {| storedValue := storedValue w; status := status w;
                    localStorage := st; instant := instant w |})
    | Throw e => (Throw e, w)
    end.

(** ** useLocalStorage.js *)

(** The argument of [setValue]: a value, or a function of the stored one. *)
Inductive SetArg :=
| NewValue (v : Collection)
| Updater (f : Collection -> Collection).

Definition setValue (key : string) (value : SetArg) : M bool :=
  tryCatch
    (_ <- setStatus {| loading := true; error := None; lastUpdated := None |} ;;
     current <- (fun w => (Ret (storedValue w), w)) ;;
     let valueToStore := match value with
                         | Updater f => f current
                         | NewValue v => v
                         end in
     (* Save to local storage first *)
     _ <- (if hasWindow host then writeItem key valueToStore else ret tt) ;;
     (* Only update state if localStorage operation succeeded *)
     _ <- setStoredValue valueToStore ;;
     n <- tick ;;
     _ <- setStatus {| loading := false; error := None;
                       lastUpdated := Some (toISOString host n) |} ;;
     ret true)%hook
    (fun error =>
       (_ <- setStatus
               {| loading := false;
                  error := Some (if isStorageError error then error
                                 else StorageError (message error) ("setValue:" ++ key));
                  lastUpdated := None |} ;;
        ret false)%hook).

(** ** useTodos.js; [currentTodos] reads the [todos] of
    [useLocalStorage('todos', {})], and [setTodos] is its setter. *)

Definition currentTodos : M Collection := fun w => (Ret (storedValue w), w).
Definition setTodos (v : Collection) : M bool := setValue "todos" (NewValue v).

(** [catch (error) { throw new Error(`${prefix}: ${error.message}`) }] *)
Definition rethrow (A : Type) (prefix : string) (error : Exn) : M A :=
  throw (Error (prefix ++ ": " ++ message error)).
Arguments rethrow {A} prefix error.

Definition addTodo (title : Value) (description : string) (date : option Date) : M Obj :=
  tryCatch
    (current <- currentTodos ;;
     n <- tick ;;
     let date := match date with Some d => d | None => today host n end in
     newTodo <- liftR (createTodo (generateTodoId host n) (toISOString host n)
                         title description date) ;;
     updatedTodos <- liftR (addTodoToCollection current newTodo) ;;
     _ <- setTodos updatedTodos ;;
     ret newTodo)%hook
    (rethrow "Failed to add todo").

Definition updateTodoById (todoId : string) (updates : Updates) : M (option Obj) :=
  tryCatch
    (current <- currentTodos ;;
     n <- tick ;;
     updatedTodos <- liftR (updateTodoInCollection (toISOString host n)
                              current todoId updates) ;;
     _ <- setTodos updatedTodos ;;
     (* Find and return the updated todo *)
     let allUpdatedTodos := getAllTodos updatedTodos in
     ret (find (hasId (JStr todoId)) allUpdatedTodos))%hook
    (rethrow "Failed to update todo").

Definition deleteTodo (todoId : string) : M bool :=
  tryCatch
    (current <- currentTodos ;;
     updatedTodos <- liftR (removeTodoFromCollection current todoId) ;;
     _ <- setTodos updatedTodos ;;
     ret true)%hook
    (rethrow "Failed to delete todo").

Definition toggleTodoCompleteById (todoId : string) : M Obj :=
  tryCatch
    (current <- currentTodos ;;
     (* Find the current todo *)
     let allCurrentTodos := getAllTodos current in
     match find (hasId (JStr todoId)) allCurrentTodos with
     | None => throw (Error ("Todo with id " ++ todoId ++ " not found"))
     | Some currentTodo =>
         n <- tick ;;
         toggledTodo <- liftR (toggleTodoComplete (toISOString host n) currentTodo) ;;
         n' <- tick ;;
         updatedTodos <-
           liftR (updateTodoInCollection (toISOString host n') current todoId
                    {| upd_title := undef; upd_description := undef;
                       upd_completed := VPrim (get toggledTodo "completed");
                       upd_date := undef |}) ;;
         _ <- setTodos updatedTodos ;;
         ret toggledTodo
     end)%hook
    (rethrow "Failed to toggle todo completion").

Definition clearAllTodos : M bool :=
  tryCatch
    (_ <- setTodos [] ;;
     ret true)%hook
    (rethrow "Failed to clear todos").

Definition clearTodosForDate (date : DateArg) : M bool :=
  tryCatch
    (current <- currentTodos ;;
     let dateKey := match date with
                    | DayString s => s
                    | DayDate d => formatDateKey d
                    end in
     let updatedTodos := delete dateKey current in
     _ <- setTodos updatedTodos ;;
     ret true)%hook
    (rethrow "Failed to clear todos for date").

(** The [for ... of] loop of [bulkUpdateTodos]. *)
Fixpoint bulkUpdateLoop (todoIds : list string) (updates : Updates)
    (updatedTodos : Collection) (updatedTodosList : list Obj)
  : M (Collection * list Obj) :=
  match todoIds with
  | [] => ret (updatedTodos, updatedTodosList)
  | todoId :: rest =>
      (n <- tick ;;
       updatedTodos <- liftR (updateTodoInCollection (toISOString host n)
                                updatedTodos todoId updates) ;;
       let allUpdated := getAllTodos updatedTodos in
       let updatedTodosList :=
         match find (hasId (JStr todoId)) allUpdated with
         | Some updatedTodo => updatedTodosList ++ [updatedTodo]
         | None => updatedTodosList
         end in
       bulkUpdateLoop rest updates updatedTodos updatedTodosList)%hook
  end.

Definition bulkUpdateTodos (todoIds : list string) (updates : Updates) : M (list Obj) :=
  tryCatch
    (current <- currentTodos ;;
     r <- bulkUpdateLoop todoIds updates current [] ;;
     _ <- setTodos (fst r) ;;
     ret (snd r))%hook
    (rethrow "Failed to bulk update todos").

(** The [for ... of] loop of [bulkDeleteTodos]. *)
Fixpoint bulkDeleteLoop (todoIds : list string) (updatedTodos : Collection)
  : M Collection :=
  match todoIds with
  | [] => ret updatedTodos
  | todoId :: rest =>
      (updatedTodos <- liftR (removeTodoFromCollection updatedTodos todoId) ;;
       bulkDeleteLoop rest updatedTodos)%hook
  end.

Definition bulkDeleteTodos (todoIds : list string) : M bool :=
  tryCatch
    (current <- currentTodos ;;
     updatedTodos <- bulkDeleteLoop todoIds current ;;
     _ <- setTodos updatedTodos ;;
     ret true)%hook
    (rethrow "Failed to bulk delete todos").

End Hooks.

Arguments ret {host A} a.
Arguments throw {host A} e.
Arguments rethrow {host A} prefix error.

(* ================================================================== *)
(** ** useTodos.js: the queries, as functions of the [todos] they close over *)

(** The queries on a date read the day through [getTodosForDate]; what is
    stated of them is stated on the keys where [getTodosForDate] returns
    an array. *)

(** [allTodos.find(todo => todo.id === todoId) || null]; [None] is [null]. *)
Definition getTodoById (todosOfHook : Collection) (todoId : string) : option Obj :=
  let allTodos := getAllTodos todosOfHook in
  find (hasId (JStr todoId)) allTodos.

Definition hasDateTodos (todosOfHook : Collection) (date : DateArg) : bool :=
  let dateTodos := getTodosForDate todosOfHook date in
  0 <? List.length dateTodos.

Definition getTodoCountForDate (todosOfHook : Collection) (date : DateArg) : nat :=
  let dateTodos := getTodosForDate todosOfHook date in
  List.length dateTodos.

Definition getCompletedCountForDate (todosOfHook : Collection) (date : DateArg) : nat :=
  let dateTodos := getTodosForDate todosOfHook date in
  List.length (filter (fun todo => truthyPrim (get todo "completed")) dateTodos).

Definition getPendingCountForDate (todosOfHook : Collection) (date : DateArg) : nat :=
  let dateTodos := getTodosForDate todosOfHook date in
  List.length (filter (fun todo => negb (truthyPrim (get todo "completed"))) dateTodos).

(** [dateKey >= startKey && dateKey <= endKey] compares strings code unit by
    code unit. *)
Definition getTodosForDateRange (todosOfHook : Collection) (startDate endDate : Date)
  : list Obj :=
  let startKey := formatDateKey startDate in
  let endKey := formatDateKey endDate in
  flat_map (fun kv =>
              if String.leb startKey (fst kv) && String.leb (fst kv) endKey
              then snd kv else [])
    todosOfHook.

(* ================================================================== *)
(** * Vocabulary of the statements *)

(** Whether some todo of the collection carries [todoId], and how many do. *)
Definition present (todoId : string) (c : Collection) : bool :=
  existsb (hasId (JStr todoId)) (getAllTodos c).

Definition cnt (p : Obj -> bool) (c : Collection) : nat :=
  List.length (filter p (getAllTodos c)).

Definition copies (todoId : string) (c : Collection) : nat :=
  cnt (hasId (JStr todoId)) c.

(** The first day, in enumeration order, whose array holds [todoId], with
    that array; and the first todo of that array that carries [todoId]. *)
Fixpoint locateDay (todoId : string) (c : Collection) : option (string * list Obj) :=
  match c with
  | [] => None
  | (dateKey, todos) :: rest =>
      if existsb (hasId (JStr todoId)) todos then Some (dateKey, todos)
      else locateDay todoId rest
  end.

Definition locate (todoId : string) (c : Collection) : option (string * Obj) :=
  match locateDay todoId c with
  | Some (dateKey, todos) =>
      match find (hasId (JStr todoId)) todos with
      | Some existingTodo => Some (dateKey, existingTodo)
      | None => None
      end
  | None => None
  end.

(** An array without the todos that carry [todoId]. *)
Definition without (todoId : string) (todos : list Obj) : list Obj :=
  filter (fun t => negb (hasId (JStr todoId) t)) todos.

(** The collection once [todos], the array of [dateKey], has lost the todos
    that carry [todoId]: the day goes when nothing is left of its array. *)
Definition prune (todoId dateKey : string) (todos : list Obj) (c : Collection)
  : Collection :=
  if List.length (without todoId todos) =? 0
  then delete dateKey c
  else assign dateKey (without todoId todos) c.

(** The collection an update returns: the day found loses the todo, and
    the updated todo goes last under its own day, which is created when
    the collection has no such day. *)
Definition moved (todoId dateKey : string) (items : list Obj) (u : Obj) (c : Collection)
  : Collection :=
  let newDateKey := toString (get u "dateKey") in
  let c1 := prune todoId dateKey items c in
  if hasOwn newDateKey c1
  then assign newDateKey (bucket c1 newDateKey ++ [u]) c1
  else create newDateKey [u] c1.

(** The double of a positive integer below 2^53: the integer itself, with
    its mantissa shifted to 53 bits. *)
Definition normalised (p : positive) : JsDouble :=
  match (53 - Zpos (digits2_pos p))%Z with
  | Zpos k => S754_finite false (Pos.iter xO p k) (Zpos (digits2_pos p) - 53)
  | _ => S754_finite false p 0
  end.

(** What [getTodoStats] computes for [completed] todos out of [total]. *)
Definition rateOf (completed total : nat) : JsDouble :=
  numMul (numDiv (numberOfNat completed) (numberOfNat total)) (numberOfNat 100).

(** The key names a member of [Object.prototype] and no day of the
    collection: what the collection has under it is not iterable. *)
Definition notIterable (dateKey : string) (c : Collection) : bool :=
  negb (hasOwn dateKey c) && inheritedName dateKey.

(** The error of spreading what is not iterable in [updateTodoInCollection]. *)
Definition notIterableError : Exn :=
  TypeError "updatedCollection[newDateKey] is not iterable".

(** The keys of an object are pairwise distinct. *)
Fixpoint distinct (l : list string) : bool :=
  match l with
  | [] => true
  | k :: rest => negb (existsb (String.eqb k) rest) && distinct rest
  end.

Definition distinctKeys (c : Collection) : bool := distinct (keys c).

(** The day key that [getTodosForDate] reads. *)
Definition dayKeyOf (date : DateArg) : string :=
  match date with
  | DayString s => s
  | DayDate d => formatDateKey d
  end.

(** No day maps to an empty array. *)
Definition noEmptyBucket (c : Collection) : bool :=
  forallb (fun kv => negb (List.length (snd kv) =? 0)) c.

(** Every todo of the collection, each with [dateKey] set to its day. *)
Definition tagged (c : Collection) : list Obj :=
  flat_map (fun kv => map (assign "dateKey" (JStr (fst kv))) (snd kv)) c.

Definition isBlank (s : string) : bool :=
  forallb isWhiteSpace (list_ascii_of_string s).

Definition hasStringTitle (todo : Obj) : bool :=
  JsType_eqb (typeofPrim (get todo "title")) t_string.

(** The number of todos, day by day. *)
Definition countTodos (c : Collection) : nat :=
  list_sum (map (fun kv => List.length (snd kv)) c).

(** The checks of [validateTodo] on the fields that are present, one per
    field, and the message of each. *)
Definition fieldOk (o : Obj) (field : string) : bool :=
  if String.eqb field "id" then
    match get o "id" with JStr s => negb (String.length s =? 0) | _ => false end
  else if String.eqb field "title" then
    match get o "title" with JStr s => negb (String.length (trim s) =? 0) | _ => false end
  else if String.eqb field "completed" then
    match get o "completed" with JBool _ => true | _ => false end
  else if String.eqb field "dateKey" then
    match get o "dateKey" with JStr s => isDateKeyFormat s | _ => false end
  else if String.eqb field "description" then
    match get o "description" with JStr _ => true | _ => false end
  else true.

Definition fieldMessage (field : string) : string :=
  if String.eqb field "id" then "Todo id must be a non-empty string"
  else if String.eqb field "title" then "Todo title must be a non-empty string"
  else if String.eqb field "completed" then "Todo completed must be a boolean"
  else if String.eqb field "dateKey" then "Todo dateKey must be in YYYY-MM-DD format"
  else "Todo description must be a string".

Definition checkedFields : list string :=
  ["id"; "title"; "completed"; "dateKey"; "description"].

Definition missingFieldsOf (o : Obj) : list string :=
  filter (fun field => negb (hasOwn field o)) requiredFields.

(** The operations on a collection, and a history of them: an operation
    that throws leaves the caller with the collection it had. *)
Inductive Op :=
| Insert (todo : Obj)
| Remove (todoId : string)
| Update (now : string) (todoId : string) (updates : Updates).

Definition applyOp (c : Collection) (op : Op) : Result Collection :=
  match op with
  | Insert todo => addTodoToCollection c todo
  | Remove todoId => removeTodoFromCollection c todoId
  | Update now todoId updates => updateTodoInCollection now c todoId updates
  end.

Fixpoint runOps (c : Collection) (ops : list Op) : Collection :=
  match ops with
  | [] => c
  | op :: rest =>
      match applyOp c op with
      | Ret c' => runOps c' rest
      | Throw _ => runOps c rest
      end
  end.

(** [updateTodoInCollection] applied to each id in turn, the n-th call
    reading the clock at the n-th instant from [n]. *)
Fixpoint applyUpdates (clock : nat -> string) (n : nat) (c : Collection)
    (todoIds : list string) (updates : Updates) : Result Collection :=
  match todoIds with
  | [] => Ret c
  | todoId :: rest =>
      match updateTodoInCollection (clock n) c todoId updates with
      | Ret c' => applyUpdates clock (S n) c' rest updates
      | Throw e => Throw e
      end
  end.

(** Every id of the list is in the collection. *)
Definition present_all (c : Collection) (todoIds : list string) : bool :=
  forallb (fun todoId => present todoId c) todoIds.

(** The error of an update or removal that does not find its todo. *)
Definition notFound (todoId : string) : Exn :=
  Error ("Todo with id " ++ todoId ++ " not found").

(** What claim C4 asks of a bulk update that lacks one of its ids: the
    not-found error, as [bulkUpdateTodos] rethrows it. *)
Definition failsWithNotFound (A : Type) (r : Result A) : Prop :=
  exists todoId,
    r = Throw (Error ("Failed to bulk update todos: " ++ message (notFound todoId))).

(** The ids before the first id of the list that the collection lacks, and
    that id. *)
Fixpoint firstMissing (c : Collection) (todoIds : list string)
  : option (list string * string) :=
  match todoIds with
  | [] => None
  | todoId :: rest =>
      if present todoId c then
        match firstMissing c rest with
        | Some (before, missing) => Some (todoId :: before, missing)
        | None => None
        end
      else Some ([], todoId)
  end.

(** The visible part of the state of the hook: what the caller sees of the
    collection, of the status and of the storage. *)
Definition sameVisible (host : Host) (w w' : World host) : Prop :=
  storedValue w' = storedValue w
  /\ status w' = status w
  /\ localStorage w' = localStorage w.

(** What claim C6 asks of a failure of [validateTodo] on an object with no
    field missing: that its message mention every field whose check fails. *)
Definition reportsEveryInvalidField (o : Obj) : Prop :=
  forall msg,
    validateTodo (VObj o) = Throw (Error msg) ->
    forall field,
      In field checkedFields -> fieldOk o field = false -> includes msg field = true.

(** The [title] and [date] of an update pass the checks of [updateTodo]. *)
Definition titleApplies (updates : Updates) : bool :=
  isUndefined (upd_title updates)
  || (JsType_eqb (typeof (upd_title updates)) t_string
      && negb (String.length (trim (strOf (upd_title updates))) =? 0)).

Definition dateApplies (updates : Updates) : bool :=
  isUndefined (upd_date updates)
  || match upd_date updates with
     | VDate _ => true
     | _ => false
     end.

(** The mutating calls of [useTodos], and a call run for its effect. *)
Inductive Call :=
| CallAddTodo (title : Value) (description : string) (date : option Date)
| CallUpdateTodo (todoId : string) (updates : Updates)
| CallDeleteTodo (todoId : string)
| CallToggleTodoComplete (todoId : string)
| CallClearAllTodos
| CallClearTodosForDate (date : DateArg)
| CallBulkUpdateTodos (todoIds : list string) (updates : Updates)
| CallBulkDeleteTodos (todoIds : list string).

Definition void (host : Host) (A : Type) (m : M host A) : M host unit :=
  fun w =>
    match m w with
    | (Ret _, w') => (Ret tt, w')
    | (Throw e, w') => (Throw e, w')
    end.

Definition perform (host : Host) (call : Call) : M host unit :=
  match call with
  | CallAddTodo title description date => void (@addTodo host title description date)
  | CallUpdateTodo todoId updates => void (@updateTodoById host todoId updates)
  | CallDeleteTodo todoId => void (@deleteTodo host todoId)
  | CallToggleTodoComplete todoId => void (@toggleTodoCompleteById host todoId)
  | CallClearAllTodos => void (@clearAllTodos host)
  | CallClearTodosForDate date => void (@clearTodosForDate host date)
  | CallBulkUpdateTodos todoIds updates => void (@bulkUpdateTodos host todoIds updates)
  | CallBulkDeleteTodos todoIds => void (@bulkDeleteTodos host todoIds)
  end.

(** The storage accepts, in the state it is in, whatever is written under
    [key]. *)
Definition writeAccepted (host : Host) (w : World host) (key : string) : Prop :=
  forall v, exists st, setItem host (localStorage w) key v = Ret st.

(** What [setValue] stores when it is given [value]: the value itself, or
    what the function makes of the stored one. *)
Definition valueToStore (host : Host) (value : SetArg) (w : World host) : Collection :=
  match value with
  | Updater f => f (storedValue w)
  | NewValue v => v
  end.


(** What claim C3 asks of a call whose write fails: that it throw a
    [StorageError]. *)
Definition raisesStorageError (A : Type) (r : Result A) : Prop :=
  exists msg op, r = Throw (StorageError msg op).

(** The status [setValue] leaves after a failed write. *)
Definition failedWrite (msg key : string) : Status :=
  {| loading := false;
     error := Some (StorageError msg ("setItem:" ++ key));
     lastUpdated := None |}.

(** A call in two steps: a computation on the current collection that
    leaves the visible state alone and, when it has not thrown, [setTodos]
    on the collection computed. *)
Definition Persisting (host : Host) (A : Type) (m : M host A) : Prop :=
  forall w,
    (sameVisible w (snd (m w)) /\ exists msg, fst (m w) = Throw (Error msg))
    \/ (exists v w1 a,
           sameVisible w w1
           /\ snd (m w) = snd (setTodos v w1)
           /\ fst (m w) = Ret a).

(** The fields of a [Date] are those of a calendar day: a month from 0 to
    11 and a day of the month from 1 to 31. *)
Definition calendarDay (date : Date) : bool :=
  match date with
  | MkDate _ m d => (0 <=? m)%Z && (m <=? 11)%Z && (1 <=? d)%Z && (d <=? 31)%Z
  | InvalidDate => false
  end.

(** The year of the date has four digits. *)
Definition fourDigitYear (date : Date) : bool :=
  match date with
  | MkDate y _ _ => (1000 <=? y)%Z && (y <=? 9999)%Z
  | InvalidDate => false
  end.

(** The year of the date is from 0 to 999. *)
Definition yearBelow1000 (date : Date) : bool :=
  match date with
  | MkDate y _ _ => (0 <=? y)%Z && (y <=? 999)%Z
  | InvalidDate => false
  end.

(** What [createTodo] asks of a title. *)
Definition titleAccepted (title : Value) : bool :=
  match title with
  | VPrim (JStr s) => negb (String.length (trim s) =? 0)
  | _ => false
  end.

(** A string of exactly [n] decimal digits. *)
Definition digitString (n : nat) (s : string) : bool :=
  (String.length s =? n) && forallb isDigit (list_ascii_of_string s).

(** The three numbers [formatDateKey] prints, as it prints them. *)
Definition yearString (y : Z) : string := numberToString (Int y).
Definition monthString (m : Z) : string :=
  padStart 2 "0"%char (numberToString (numAdd1 (Int m))).
Definition dayString (d : Z) : string :=
  padStart 2 "0"%char (numberToString (Int d)).

(** The fields [updateTodo] may write. *)
Definition writtenByUpdate : list string :=
  ["title"; "description"; "completed"; "dateKey"; "updatedAt"].

(** The error of [updateTodo] on an object, from the checks that fail. *)
Definition updateError (existing : Obj) (updates : Updates) : Exn :=
  if negb (truthyPrim (get existing "id")) then Error "Existing todo must have an id"
  else if negb (titleApplies updates) then Error "Todo title must be a non-empty string"
  else Error "Date must be a valid Date object".

(** No id is carried by two todos of the collection. *)
Definition uniqueIds (c : Collection) : Prop :=
  forall todoId, copies todoId c <= 1.

(** An insertion is of a todo whose id is carried by no todo of the
    collection; the other operations are as they come. *)
Definition freshInsert (c : Collection) (op : Op) : bool :=
  match op with
  | Insert todo => negb (existsb (hasId (get todo "id")) (getAllTodos c))
  | _ => true
  end.

(** The same, as a check: the id of each todo is carried by one todo. *)
Definition uniqueIdsCheck (c : Collection) : bool :=
  forallb (fun todo => cnt (hasId (get todo "id")) c <=? 1) (getAllTodos c).



(** The title and the description of the todo are strings. *)
Definition hasStringTexts (todo : Obj) : bool :=
  JsType_eqb (typeofPrim (get todo "title")) t_string
  && JsType_eqb (typeofPrim (get todo "description")) t_string.

(** The lower-cased title or description of the todo includes the term. *)
Definition mentions (term : string) (todo : Obj) : bool :=
  includes (toLowerCase (strOfPrim (get todo "title"))) term
  || includes (toLowerCase (strOfPrim (get todo "description"))) term.

(** Day by day, the todos that pass [p]; the days left with none are
    dropped. *)
Definition keepTodos (p : Obj -> bool) (c : Collection) : Collection :=
  filter (fun kv => 0 <? List.length (snd kv))
    (map (fun kv => (fst kv, filter p (snd kv))) c).

(** The character of a decimal digit. *)
Definition digitChar (z : Z) : ascii := ascii_of_nat (48 + Z.to_nat z).

(** The first day is the second one or an earlier one of the calendar. *)
Definition dayLeb (date1 date2 : Date) : bool :=
  match date1, date2 with
  | MkDate y1 m1 d1, MkDate y2 m2 d2 =>
      ((y1 <? y2) || ((y1 =? y2) && ((m1 <? m2) || ((m1 =? m2) && (d1 <=? d2)))))%Z
  | _, _ => false
  end.

(** The collection in which each array is filed under the key of its
    day. *)
Definition filedUnder (days : list (Date * list Obj)) : Collection :=
  map (fun day => (formatDateKey (fst day), snd day)) days.

(** The date of the update, when it gives one, is a day of the calendar
    with a year from 0 to 9999. *)
Definition dateInRange (updates : Updates) : bool :=
  match upd_date updates with
  | VDate d => calendarDay d && (fourDigitYear d || yearBelow1000 d)
  | _ => true
  end.

(** The date of the update, when it gives one, has a four-digit year. *)
Definition dateHasFourDigitYear (updates : Updates) : bool :=
  match upd_date updates with
  | VDate d => fourDigitYear d
  | _ => true
  end.

(** Every todo is filed under the day key that its own [dateKey] prints
    as. *)
Definition ownDay (kv : string * list Obj) : bool :=
  forallb (fun todo => String.eqb (toString (get todo "dateKey")) (fst kv)) (snd kv).

Definition filedUnderOwnDay (c : Collection) : bool := forallb ownDay c.

(** The [dateKey] of every todo is the key of the day it is filed under,
    as a string. *)
Definition keyedByOwnDay (c : Collection) : bool :=
  forallb (fun kv =>
             forallb (fun todo => strictEq (get todo "dateKey") (JStr (fst kv))) (snd kv))
    c.

(* ------------------------------------------------------------------ *)
(** ** Sample data *)

Definition sampleTodo : Obj :=
  [ ("id", JStr "test-id-1"); ("title", JStr "Test Todo");
    ("description", JStr "Test Description"); ("completed", JBool false);
    ("dateKey", JStr "2024-01-15");
    ("createdAt", JStr "2024-01-15T10:00:00.000Z");
    ("updatedAt", JStr "2024-01-15T10:00:00.000Z") ].

Definition anotherTodo : Obj :=
  [ ("id", JStr "test-id-2"); ("title", JStr "Another Todo");
    ("description", JStr "Another Description"); ("completed", JBool true);
    ("dateKey", JStr "2024-01-16");
    ("createdAt", JStr "2024-01-16T10:00:00.000Z");
    ("updatedAt", JStr "2024-01-16T10:00:00.000Z") ].

Definition todosCollection : Collection :=
  [ ("2024-01-15", [sampleTodo]); ("2024-01-16", [anotherTodo]) ].

(** A second todo of January 15, and a day with two todos. *)
Definition secondTodo : Obj :=
  [ ("id", JStr "test-id-3"); ("title", JStr "Second Todo");
    ("description", JStr ""); ("completed", JBool false);
    ("dateKey", JStr "2024-01-15");
    ("createdAt", JStr "2024-01-15T11:00:00.000Z");
    ("updatedAt", JStr "2024-01-15T11:00:00.000Z") ].

Definition twoOnOneDay : Collection :=
  [ ("2024-01-15", [sampleTodo; secondTodo]); ("2024-01-16", [anotherTodo]) ].

(** [sampleTodo] with its day changed: same id, another day. *)
Definition sampleTodoNextDay : Obj := assign "dateKey" (JStr "2024-01-16") sampleTodo.

(** Every required field present, [id] and [title] both empty. *)
Definition twoInvalidFields : Obj :=
  assign "title" (JStr "") (assign "id" (JStr "") sampleTodo).

(** A stored todo without a title, and a collection that holds it. *)
Definition untitledTodo : Obj :=
  [ ("id", JStr "test-id-4"); ("description", JStr "No title");
    ("completed", JBool false); ("dateKey", JStr "2024-01-16") ].

Definition withUntitled : Collection :=
  [ ("2024-01-15", [sampleTodo]); ("2024-01-16", [anotherTodo; untitledTodo]) ].

Definition moveToYear999 : Updates :=
  {| upd_title := undef; upd_description := undef;
     upd_completed := undef; upd_date := VDate (MkDate 999 0 20) |}.

(** A todo whose [dateKey] is not a day, as a storage edited by hand may
    hold it, alone under that key. *)
Definition strayTodo : Obj :=
  [ ("id", JStr "test-id-5"); ("title", JStr "Stray"); ("description", JStr "");
    ("completed", JBool false); ("dateKey", JStr "toString");
    ("createdAt", JStr "2024-01-15T10:00:00.000Z");
    ("updatedAt", JStr "2024-01-15T10:00:00.000Z") ].

Definition strayDay : Collection := [ ("toString", [strayTodo]) ].

(** What [addTodoToCollection] makes of [todosCollection] and
    [sampleTodoNextDay]: one id under two days. *)
Definition sameIdTwoDays : Collection :=
  [ ("2024-01-15", [sampleTodo]); ("2024-01-16", [anotherTodo; sampleTodoNextDay]) ].

Definition completedYes : Updates :=
  {| upd_title := undef; upd_description := VPrim (JNum (Int 5));
     upd_completed := VPrim (JStr "yes"); upd_date := undef |}.

Definition emptyTitle : Updates :=
  {| upd_title := VPrim (JStr ""); upd_description := undef;
     upd_completed := undef; upd_date := undef |}.

Definition markDone : Updates :=
  {| upd_title := undef; upd_description := undef;
     upd_completed := VPrim (JBool true); upd_date := undef |}.

Definition moveToJan20 : Updates :=
  {| upd_title := undef; upd_description := undef;
     upd_completed := undef; upd_date := VDate (MkDate 2024 0 20) |}.

(** A browser whose storage is full: every [setItem] throws. *)
Definition fullStorage : Host :=
  {| Storage := unit;
     hasWindow := true;
     stringify := fun _ => "{}";
     setItem := fun _ _ _ => Throw (Error "QuotaExceededError");
     today := fun _ => MkDate 2024 0 15;
     toISOString := fun _ => "2024-01-15T12:00:00.000Z";
     generateTodoId := fun _ => "todo_1705320000000_abc123xyz" |}.

(** A browser whose storage keeps the last string written. *)
Definition workingStorage : Host :=
  {| Storage := string;
     hasWindow := true;
     stringify := fun c => if 0 <? List.length c then "{...}" else "{}";
     setItem := fun _ _ v => Ret v;
     today := fun _ => MkDate 2024 0 15;
     toISOString := fun _ => "2024-01-15T12:00:00.000Z";
     generateTodoId := fun _ => "todo_1705320000000_abc123xyz" |}.

Definition idle : Status := {| loading := false; error := None; lastUpdated := None |}.

Definition mounted (host : Host) (st : Storage host) : World host :=
  {| storedValue := todosCollection; status := idle; localStorage := st; instant := 0 |}.
(* ================================================================== *)
(** * Properties *)

(** ** Objects as property lists *)

Section PropsFacts.
Variable V : Type.
Implicit Types (o : list (string * V)) (k : string) (v : V).

Lemma lookup_assign_same : forall o k v, lookup k (assign k v o) = Some v.
Proof.
  induction o as [|[k' v'] o IH]; intros k v; simpl.
  - now rewrite String.eqb_refl.
  - destruct (String.eqb k' k) eqn:E; simpl; rewrite E; auto.
Qed.

Lemma lookup_assign_other : forall o k k' v,
    k' <> k -> lookup k' (assign k v o) = lookup k' o.
Proof.
  induction o as [|[k0 v0] o IH]; intros k k' v Hne; simpl.
  - destruct (String.eqb k k') eqn:E; auto.
    apply String.eqb_eq in E. congruence.
  - destruct (String.eqb k0 k) eqn:E; simpl.
    + apply String.eqb_eq in E. subst k0.
      destruct (String.eqb k k') eqn:E'; auto.
      apply String.eqb_eq in E'. congruence.
    + destruct (String.eqb k0 k'); auto.
Qed.

Lemma lookup_delete_same : forall o k, lookup k (delete k o) = None.
Proof.
  induction o as [|[k0 v0] o IH]; intros k; simpl; auto.
  destruct (String.eqb k0 k) eqn:E; simpl; auto.
  rewrite E. apply IH.
Qed.

Lemma lookup_delete_other : forall o k k',
    k' <> k -> lookup k' (delete k o) = lookup k' o.
Proof.
  induction o as [|[k0 v0] o IH]; intros k k' Hne; simpl; auto.
  destruct (String.eqb k0 k) eqn:E; simpl.
  - apply String.eqb_eq in E. subst k0.
    destruct (String.eqb k k') eqn:E'; auto.
    apply String.eqb_eq in E'. congruence.
  - destruct (String.eqb k0 k'); auto.
Qed.

Lemma hasOwn_false : forall o k, hasOwn k o = false <-> lookup k o = None.
Proof.
  intros o k. unfold hasOwn. destruct (lookup k o); split; congruence.
Qed.

Lemma lookup_None_notin : forall o k, lookup k o = None <-> ~ In k (keys o).
Proof.
  induction o as [|[k0 v0] o IH]; intros k; simpl.
  - tauto.
  - destruct (String.eqb k0 k) eqn:E.
    + apply String.eqb_eq in E. split; [discriminate | intros H; exfalso; auto].
    + apply String.eqb_neq in E. rewrite IH. tauto.
Qed.

(** A new property goes last. *)
Lemma assign_fresh : forall o k v,
    lookup k o = None -> assign k v o = o ++ [(k, v)].
Proof.
  induction o as [|[k0 v0] o IH]; intros k v H; simpl in *; auto.
  destruct (String.eqb k0 k); [discriminate|].
  now rewrite IH.
Qed.

Lemma assign_assign : forall o k v v',
    assign k v (assign k v' o) = assign k v o.
Proof.
  induction o as [|[k0 v0] o IH]; intros k v v'; simpl.
  - now rewrite String.eqb_refl.
  - destruct (String.eqb k0 k) eqn:E; simpl; rewrite E; auto.
    now rewrite IH.
Qed.

Lemma keys_delete : forall o k,
    keys (delete k o) = filter (fun k' => negb (String.eqb k' k)) (keys o).
Proof.
  induction o as [|[k0 v0] o IH]; intros k; simpl; auto.
  destruct (String.eqb k0 k); simpl; now rewrite IH.
Qed.

(** A property created is put somewhere among the others, which keep
    their order. *)
Lemma create_split : forall o k v,
    exists l1 l2, o = l1 ++ l2 /\ create k v o = l1 ++ (k, v) :: l2.
Proof.
  intros o k v. unfold create. destruct (isArrayIndex k).
  - induction o as [|[k0 v0] o IH]; cbn [insertIndex].
    + exists [], []. auto.
    + destruct (isArrayIndex k0 && (digitsValue k0 <? digitsValue k)%N).
      * destruct IH as (l1 & l2 & E1 & E2). exists ((k0, v0) :: l1), l2.
        cbn [app]. rewrite E2. split; congruence.
      * exists [], ((k0, v0) :: o). auto.
  - exists o, []. rewrite app_nil_r. auto.
Qed.

Lemma lookup_app : forall (l1 l2 : list (string * V)) k,
    lookup k (l1 ++ l2) = match lookup k l1 with
                          | Some v => Some v
                          | None => lookup k l2
                          end.
Proof.
  induction l1 as [|[k0 v0] l1 IH]; intros l2 k; cbn [app lookup]; auto.
  destruct (String.eqb k0 k); auto.
Qed.

Lemma lookup_create_same : forall o k v,
    lookup k o = None -> lookup k (create k v o) = Some v.
Proof.
  intros o k v H. destruct (create_split o k v) as (l1 & l2 & E1 & E2).
  rewrite E2. subst o. rewrite lookup_app in *.
  destruct (lookup k l1); [discriminate H|].
  cbn [lookup]. now rewrite String.eqb_refl.
Qed.

Lemma lookup_create_other : forall o k k' v,
    k' <> k -> lookup k' (create k v o) = lookup k' o.
Proof.
  intros o k k' v H. destruct (create_split o k v) as (l1 & l2 & E1 & E2).
  rewrite E2. subst o. rewrite !lookup_app.
  destruct (lookup k' l1); auto.
  cbn [lookup]. destruct (String.eqb k k') eqn:E; auto.
  apply String.eqb_eq in E. congruence.
Qed.

Lemma assign_create : forall o k v v',
    lookup k o = None -> assign k v' (create k v o) = create k v' o.
Proof.
  intros o k v v' H. unfold create. destruct (isArrayIndex k).
  - induction o as [|[k0 v0] o IH]; cbn [insertIndex assign].
    + now rewrite String.eqb_refl.
    + cbn [lookup] in H. destruct (String.eqb k0 k) eqn:E; [discriminate H|].
      destruct (isArrayIndex k0 && (digitsValue k0 <? digitsValue k)%N); cbn [assign].
      * rewrite E. now rewrite (IH H).
      * now rewrite String.eqb_refl.
  - rewrite <- (assign_fresh o k v H), assign_assign. now apply assign_fresh.
Qed.

Lemma keys_create : forall o k v,
    exists l1 l2, keys o = l1 ++ l2 /\ keys (create k v o) = l1 ++ k :: l2.
Proof.
  intros o k v. destruct (create_split o k v) as (l1 & l2 & E1 & E2).
  exists (keys l1), (keys l2). rewrite E2. subst o. unfold keys.
  rewrite !map_app. auto.
Qed.

Lemma NoDup_keys_create : forall o k v,
    NoDup (keys o) -> lookup k o = None -> NoDup (keys (create k v o)).
Proof.
  intros o k v Hnd Hk. apply lookup_None_notin in Hk.
  destruct (keys_create o k v) as (l1 & l2 & E1 & E2).
  rewrite E2. rewrite E1 in *.
  apply (NoDup_Add (Add_app k l1 l2)). split; assumption.
Qed.
End PropsFacts.

Lemma get_assign_same : forall (o : Obj) k v, get (assign k v o) k = v.
Proof. intros. unfold get. now rewrite lookup_assign_same. Qed.

Lemma get_assign_other : forall (o : Obj) k k' v,
    k' <> k -> get (assign k v o) k' = get o k'.
Proof. intros. unfold get. now rewrite lookup_assign_other. Qed.

Lemma bucket_assign_same : forall (c : Collection) k v, bucket (assign k v c) k = v.
Proof. intros. unfold bucket. now rewrite lookup_assign_same. Qed.

Lemma bucket_assign_other : forall (c : Collection) k k' v,
    k' <> k -> bucket (assign k v c) k' = bucket c k'.
Proof. intros. unfold bucket. now rewrite lookup_assign_other. Qed.

Lemma bucket_delete_same : forall (c : Collection) k, bucket (delete k c) k = [].
Proof. intros. unfold bucket. now rewrite lookup_delete_same. Qed.

Lemma bucket_delete_other : forall (c : Collection) k k',
    k' <> k -> bucket (delete k c) k' = bucket c k'.
Proof. intros. unfold bucket. now rewrite lookup_delete_other. Qed.

(* ------------------------------------------------------------------ *)
(** ** Day keys *)

Example formatDateKey_jan15 : formatDateKey (MkDate 2024 0 15) = "2024-01-15".
Proof. reflexivity. Qed.

Example formatDateKey_invalid : formatDateKey InvalidDate = "NaN-NaN-NaN".
Proof. reflexivity. Qed.

(* ------------------------------------------------------------------ *)
(** ** Statistics *)

Lemma length_getAllTodos : forall c : Collection,
    List.length (getAllTodos c) = countTodos c.
Proof.
  induction c as [|[k todos] c IH]; simpl; auto.
  unfold getAllTodos, countTodos in *. simpl.
  now rewrite length_app, IH.
Qed.

Lemma filter_split_length : forall (A : Type) (p : A -> bool) (l : list A),
    List.length (filter p l) + List.length (filter (fun x => negb (p x)) l)
    = List.length l.
Proof.
  induction l as [|x l IH]; simpl; auto.
  destruct (p x); simpl; lia.
Qed.

(** *** Doubles of lengths *)

Lemma pow2_succ : forall d : Z, (1 <= d)%Z -> (2 ^ d = 2 * 2 ^ (d - 1))%Z.
Proof.
  intros d Hd. rewrite <- Z.pow_succ_r by lia. f_equal. lia.
Qed.

Lemma digits2_pos_bounds : forall p : positive,
    (2 ^ (Zpos (digits2_pos p) - 1) <= Zpos p < 2 ^ Zpos (digits2_pos p))%Z.
Proof.
  induction p as [p IH|p IH|]; cbn [digits2_pos].
  - rewrite Pos2Z.inj_succ.
    rewrite (@pow2_succ (Z.succ (Z.pos (digits2_pos p)))) by lia.
    replace (Z.succ (Z.pos (digits2_pos p)) - 1)%Z with (Z.pos (digits2_pos p)) by lia.
    rewrite (@pow2_succ (Z.pos (digits2_pos p))) in * by lia. lia.
  - rewrite Pos2Z.inj_succ.
    rewrite (@pow2_succ (Z.succ (Z.pos (digits2_pos p)))) by lia.
    replace (Z.succ (Z.pos (digits2_pos p)) - 1)%Z with (Z.pos (digits2_pos p)) by lia.
    rewrite (@pow2_succ (Z.pos (digits2_pos p))) in * by lia. lia.
  - cbn. lia.
Qed.

Lemma digits2_pos_iter_xO : forall (k p : positive),
    digits2_pos (Pos.iter xO p k) = (digits2_pos p + k)%positive.
Proof.
  intros k p. revert p. induction k as [|k IH] using Pos.peano_ind; intros p.
  - cbn. lia.
  - rewrite Pos.iter_succ. cbn [digits2_pos]. rewrite IH. lia.
Qed.

Lemma digits2_pos_le_53 : forall p : positive,
    (Zpos p < 2 ^ 53)%Z -> (Zpos (digits2_pos p) <= 53)%Z.
Proof.
  intros p Hp. pose proof (digits2_pos_bounds p) as [Hlo Hhi].
  destruct (Z.le_gt_cases (Zpos (digits2_pos p)) 53) as [H|H]; auto.
  assert (2 ^ 53 <= 2 ^ (Zpos (digits2_pos p) - 1))%Z by (apply Z.pow_le_mono_r; lia).
  lia.
Qed.

(** A mantissa of 53 bits with an exponent in range is not rounded. *)
Lemma binary_round_aux_exact : forall (m : positive) (e : Z),
    digits2_pos m = 53%positive -> (-1074 <= e <= 971)%Z ->
    binary_round_aux 53 1024 false (Zpos m) e loc_Exact = S754_finite false m e.
Proof.
  intros m e Hm He.
  assert (fexp 53 1024 (Z.pos 53 + e) - e = 0)%Z as Hf by (unfold fexp, emin; lia).
  unfold binary_round_aux, shr_fexp. cbn [Zdigits2]. rewrite Hm, Hf.
  cbn [shr shr_record_of_loc shr_m loc_of_shr_record round_nearest_even Zdigits2].
  rewrite Hm, Hf. cbn [shr shr_record_of_loc shr_m].
  destruct (Z.leb_spec e (1024 - 53)); [reflexivity | lia].
Qed.

Lemma numberOfNat_pos : forall (n : nat) (p : positive),
    Z.of_nat n = Zpos p -> (Zpos p < 2 ^ 53)%Z -> numberOfNat n = normalised p.
Proof.
  intros n p Hn Hp. pose proof (@digits2_pos_le_53 p Hp) as Hd.
  unfold numberOfNat. rewrite Hn.
  unfold binary_normalize, binary_round, normalised, shl_align.
  assert (fexp 53 1024 (Z.pos (digits2_pos p) + 0) = Z.pos (digits2_pos p) - 53)%Z as ->
      by (unfold fexp, emin; lia).
  replace (Z.pos (digits2_pos p) - 53 - 0)%Z with (- (53 - Z.pos (digits2_pos p)))%Z by lia.
  destruct (53 - Z.pos (digits2_pos p))%Z as [|k|k] eqn:Ek; cbn [Z.opp].
  - apply binary_round_aux_exact; lia.
  - apply binary_round_aux_exact; [rewrite digits2_pos_iter_xO; lia | lia].
  - lia.
Qed.

Lemma normalised_shape : forall p : positive,
    (Zpos p < 2 ^ 53)%Z ->
    exists m e, normalised p = S754_finite false m e
                /\ digits2_pos m = 53%positive /\ (-52 <= e <= 0)%Z.
Proof.
  intros p Hp. pose proof (@digits2_pos_le_53 p Hp) as Hd. unfold normalised.
  destruct (53 - Z.pos (digits2_pos p))%Z as [|k|k] eqn:Ek.
  - exists p, 0%Z. repeat split; lia.
  - eexists _, _. split; [reflexivity|]. rewrite digits2_pos_iter_xO. lia.
  - lia.
Qed.

(** A double divided by itself is 1. *)
Lemma numDiv_same : forall (m : positive) (e : Z),
    digits2_pos m = 53%positive -> (-52 <= e <= 0)%Z ->
    numDiv (S754_finite false m e) (S754_finite false m e)
    = S754_finite false (2 ^ 52) (-52).
Proof.
  intros m e Hm He. unfold numDiv, SFdiv, SFdiv_core_binary. cbn [Zdigits2 xorb]. rewrite Hm.
  replace (Z.pos 53 + e - (Z.pos 53 + e))%Z with 0%Z by lia.
  replace (e - e)%Z with 0%Z by lia.
  change (Z.min (fexp 53 1024 0) 0) with (-53)%Z.
  change (0 - -53)%Z with 53%Z. cbv iota.
  assert (Z.div_eucl (Z.shiftl (Z.pos m) 53) (Z.pos m) = (2 ^ 53, 0)%Z) as ->.
  { rewrite Z.shiftl_mul_pow2 by lia.
    pose proof (Z_div_mod (Z.pos m * 2 ^ 53) (Z.pos m) ltac:(lia)) as H.
    destruct (Z.div_eucl (Z.pos m * 2 ^ 53) (Z.pos m)) as [q r]. destruct H as [Heq Hr].
    assert (q = 2 ^ 53)%Z by nia. subst q. f_equal. lia. }
  assert (new_location (Z.pos m) 0 = loc_Exact) as ->.
  { unfold new_location, new_location_even, new_location_odd.
    destruct (Z.even (Z.pos m)); reflexivity. }
  vm_compute. reflexivity.
Qed.

Lemma rateOf_all : forall n : nat,
    0 < n -> (Z.of_nat n < 2 ^ 53)%Z -> rateOf n n = numberOfNat 100.
Proof.
  intros n Hn Hb. unfold rateOf.
  destruct (Z.of_nat n) as [|p|p] eqn:E; try lia.
  rewrite (@numberOfNat_pos n p E Hb).
  destruct (@normalised_shape p Hb) as (m & e & -> & Hm & He).
  rewrite (@numDiv_same m e Hm He). vm_compute. reflexivity.
Qed.

Lemma rateOf_none : forall n : nat,
    0 < n -> (Z.of_nat n < 2 ^ 53)%Z -> rateOf 0 n = S754_zero false.
Proof.
  intros n Hn Hb. unfold rateOf.
  destruct (Z.of_nat n) as [|p|p] eqn:E; try lia.
  rewrite (@numberOfNat_pos n p E Hb).
  destruct (@normalised_shape p Hb) as (m & e & -> & Hm & He).
  reflexivity.
Qed.

(** One todo completed out of three: the double nearest to the product of
    100 and the double nearest to a third, which prints as
    33.33333333333333; one out of two gives 50. *)
Example rateOf_one_of_three :
  rateOf 1 3 = S754_finite false 4691249611844266 (-47).
Proof. vm_compute. reflexivity. Qed.

Example rateOf_one_of_two : rateOf 1 2 = numberOfNat 50.
Proof. vm_compute. reflexivity. Qed.

(** C8.  The statistics of a collection: [total] is the number of todos
    over all days; [completed + pending = total]; [completionRate] is the
    number [0] for a collection without todos and otherwise the double
    that dividing [completed] by [total] and multiplying by 100 gives, in
    the arithmetic of the code.  For the lengths that arrays can have, it
    is [0] when no todo is completed and [100] when every todo is. *)
Theorem getTodoStats_correct : forall c : Collection,
    let s := getTodoStats c in
    total s = countTodos c
    /\ completed s + pending s = total s
    /\ completionRate s
       = (if total s =? 0 then S754_zero false else rateOf (completed s) (total s))
    /\ ((Z.of_nat (total s) < 2 ^ 32)%Z ->
        (completed s = 0 -> completionRate s = S754_zero false)
        /\ (0 < total s -> pending s = 0 -> completionRate s = numberOfNat 100)).
Proof.
  intros c s. subst s. unfold getTodoStats. cbn [total completed pending completionRate].
  pose proof (filter_split_length (fun todo => truthyPrim (get todo "completed"))
                (getAllTodos c)) as Hsplit.
  split; [apply length_getAllTodos|].
  split; [exact Hsplit|].
  fold (rateOf (List.length (filter (fun todo => truthyPrim (get todo "completed"))
                               (getAllTodos c)))
          (List.length (getAllTodos c))).
  destruct (List.length (getAllTodos c)) as [|n] eqn:Hlen.
  - cbn [Nat.ltb Nat.leb Nat.eqb]. split; [reflexivity|]. intros _. split; [reflexivity|].
    intros H. inversion H.
  - replace (0 <? S n) with true by (symmetry; apply Nat.ltb_lt; lia).
    cbn [Nat.eqb]. split; [reflexivity|]. intros Hb.
    assert (Z.of_nat (S n) < 2 ^ 53)%Z as Hb53.
    { eapply Z.lt_trans; [exact Hb|]. reflexivity. }
    split.
    + intros ->. apply rateOf_none; [lia | exact Hb53].
    + intros _ Hp.
      assert (List.length (filter (fun todo => truthyPrim (get todo "completed"))
                             (getAllTodos c)) = S n) as -> by lia.
      apply rateOf_all; [lia | exact Hb53].
Qed.

Lemma getTodoStats_correct_witness :
  let s := getTodoStats twoOnOneDay in
  total s = 3
  /\ completed s + pending s = 3
  /\ completionRate s = S754_finite false 4691249611844266 (-47).
Proof.
  destruct (getTodoStats_correct twoOnOneDay) as (Htotal & Hsum & Hrate & _).
  split; [exact Htotal | split; [exact Hsum | exact Hrate]].
Defined.

(* ------------------------------------------------------------------ *)
(** ** Validation *)

Ltac split_get o f :=
  let E := fresh "E" in
  destruct (get o f) as [ | | ? | ? | ? ] eqn:E; cbn -[trim isDateKeyFormat];
  try reflexivity; try discriminate.

Lemma validateTodo_checks : forall o : Obj,
    missingFieldsOf o = [] ->
    validateTodo (VObj o) =
    match find (fun field => negb (fieldOk o field)) checkedFields with
    | Some field => Throw (Error (fieldMessage field))
    | None => Ret true
    end.
Proof.
  intros o Hmiss. unfold validateTodo. cbn [truthy typeof ownProps JsType_eqb negb orb].
  fold (missingFieldsOf o). rewrite Hmiss. cbn [List.length Nat.ltb Nat.leb].
  unfold checkedFields, fieldOk. cbn [find String.eqb Ascii.eqb Bool.eqb].
  split_get o "id".
  destruct (String.length s =? 0); cbn -[trim isDateKeyFormat]; [reflexivity|].
  split_get o "title".
  destruct (String.length (trim s0) =? 0); cbn -[trim isDateKeyFormat]; [reflexivity|].
  split_get o "completed".
  split_get o "dateKey".
  destruct (isDateKeyFormat s1); cbn -[trim isDateKeyFormat]; [|reflexivity].
  split_get o "description".
Qed.

Lemma validateTodo_Ret : forall o : Obj,
    validateTodo (VObj o) = Ret true ->
    exists i t b k d,
      get o "id" = JStr i /\ (String.length i =? 0) = false
      /\ get o "title" = JStr t /\ (String.length (trim t) =? 0) = false
      /\ get o "completed" = JBool b
      /\ get o "dateKey" = JStr k /\ isDateKeyFormat k = true
      /\ get o "description" = JStr d.
Proof.
  intros o. unfold validateTodo. cbn [truthy typeof ownProps JsType_eqb negb orb].
  destruct (0 <? _); [discriminate|].
  destruct (get o "id") as [ | | ? | ? | i ]; cbn -[trim isDateKeyFormat]; try discriminate.
  destruct (String.length i =? 0) eqn:Ei; cbn -[trim isDateKeyFormat]; [discriminate|].
  destruct (get o "title") as [ | | ? | ? | t ]; cbn -[trim isDateKeyFormat]; try discriminate.
  destruct (String.length (trim t) =? 0) eqn:Et; cbn -[trim isDateKeyFormat]; [discriminate|].
  destruct (get o "completed") as [ | | b | ? | ? ]; cbn -[trim isDateKeyFormat]; try discriminate.
  destruct (get o "dateKey") as [ | | ? | ? | k ]; cbn -[trim isDateKeyFormat]; try discriminate.
  destruct (isDateKeyFormat k) eqn:Ek; cbn -[trim isDateKeyFormat]; [|discriminate].
  destruct (get o "description") as [ | | ? | ? | d ]; cbn -[trim isDateKeyFormat]; try discriminate.
  intros _. exists i, t, b, k, d. repeat split; auto.
Qed.

(** C6, as the code has it.  [validateTodo] returns [true] or throws one
    error.  A value that is not an object is reported as such; when required
    fields are missing the message lists every one of them; otherwise the
    message is that of the first field, in the order id, title, completed,
    dateKey, description, whose check fails, and [true] is returned when no
    check fails: the value is then an object with no required field missing
    and every check passed. *)
Theorem validateTodo_outcome : forall todo : Value,
    validateTodo todo =
    (if negb (truthy todo) || negb (JsType_eqb (typeof todo) t_object)
     then Throw (Error "Todo must be an object")
     else
       match missingFieldsOf (ownProps todo) with
       | _ :: _ =>
           Throw (Error ("Todo is missing required fields: "
                         ++ join ", " (missingFieldsOf (ownProps todo))))
       | [] =>
           match find (fun field => negb (fieldOk (ownProps todo) field)) checkedFields with
           | Some field => Throw (Error (fieldMessage field))
           | None => Ret true
           end
       end)
    /\ ((exists msg, validateTodo todo = Throw (Error msg))
        \/ (validateTodo todo = Ret true
            /\ typeof todo = t_object
            /\ missingFieldsOf (ownProps todo) = []
            /\ forallb (fieldOk (ownProps todo)) checkedFields = true)).
Proof.
  intros todo.
  assert (validateTodo todo =
          (if negb (truthy todo) || negb (JsType_eqb (typeof todo) t_object)
           then Throw (Error "Todo must be an object")
           else
             match missingFieldsOf (ownProps todo) with
             | _ :: _ =>
                 Throw (Error ("Todo is missing required fields: "
                               ++ join ", " (missingFieldsOf (ownProps todo))))
             | [] =>
                 match find (fun field => negb (fieldOk (ownProps todo) field))
                         checkedFields with
                 | Some field => Throw (Error (fieldMessage field))
                 | None => Ret true
                 end
             end)) as Heq.
  { destruct (negb (truthy todo) || negb (JsType_eqb (typeof todo) t_object)) eqn:Hobj.
    - unfold validateTodo. now rewrite Hobj.
    - destruct (missingFieldsOf (ownProps todo)) as [|f fs] eqn:Hmiss.
      + destruct todo as [p | d | o].
        * destruct p; discriminate.
        * discriminate.
        * now apply validateTodo_checks.
      + unfold validateTodo. rewrite Hobj. fold (missingFieldsOf (ownProps todo)).
        now rewrite Hmiss. }
  split; [exact Heq|]. rewrite Heq.
  destruct (negb (truthy todo) || negb (JsType_eqb (typeof todo) t_object)) eqn:Hobj;
    [left; eauto|].
  destruct (missingFieldsOf (ownProps todo)) as [|f fs]; [|left; eauto].
  destruct (find (fun field => negb (fieldOk (ownProps todo) field)) checkedFields)
    as [field|] eqn:Hfind; [left; eauto|].
  right. repeat split.
  - apply orb_false_iff in Hobj. destruct Hobj as [_ Hty].
    apply negb_false_iff in Hty. destruct (typeof todo); try discriminate. reflexivity.
  - apply forallb_forall. intros field Hin.
    pose proof (find_none _ _ Hfind field Hin) as Hn.
    now apply negb_false_iff in Hn.
Qed.

(** C6, as the claim has it, fails: with [id] and [title] both empty the
    error names the id only. *)
Lemma validateTodo_names_first_invalid_only :
  fieldOk twoInvalidFields "id" = false
  /\ fieldOk twoInvalidFields "title" = false
  /\ validateTodo (VObj twoInvalidFields) = Throw (Error "Todo id must be a non-empty string")
  /\ ~ reportsEveryInvalidField twoInvalidFields.
Proof.
  repeat split; try reflexivity.
  intros H.
  specialize (H "Todo id must be a non-empty string" eq_refl "title").
  assert (In "title" checkedFields) as Hin by (cbn; auto).
  specialize (H Hin eq_refl). cbv in H. discriminate.
Qed.

(* ------------------------------------------------------------------ *)
(** ** Updating one todo *)

Lemma updateTodo_outcome : forall now (existing : Obj) updates,
    truthyPrim (get existing "id") = true ->
    titleApplies updates = true ->
    dateApplies updates = true ->
    exists u,
      updateTodo now (VObj existing) updates = Ret u
      /\ get u "id" = get existing "id"
      /\ get u "completed" =
         (if isUndefined (upd_completed updates) then get existing "completed"
          else JBool (truthy (upd_completed updates)))
      /\ get u "description" =
         (if isUndefined (upd_description updates) then get existing "description"
          else JStr (if JsType_eqb (typeof (upd_description updates)) t_string
                     then trim (strOf (upd_description updates)) else ""))
      /\ get u "dateKey" =
         (match upd_date updates with
          | VDate d => JStr (formatDateKey d)
          | _ => get existing "dateKey"
          end)
      /\ get u "updatedAt" = JStr now.
Proof.
  intros now existing [ti de co da] Hid Hti Hda.
  unfold titleApplies, dateApplies in *.
  cbn [upd_title upd_date upd_completed upd_description] in *.
  unfold updateTodo.
  cbn [truthy typeof ownProps JsType_eqb negb orb
       upd_title upd_date upd_completed upd_description].
  rewrite Hid. cbn [negb].
  assert (Htitle :
            (if negb (isUndefined ti)
             then
               if negb (JsType_eqb (typeof ti) t_string)
                  || (String.length (trim (strOf ti)) =? 0)
               then Throw (Error "Todo title must be a non-empty string")
               else Ret (assign "title" (JStr (trim (strOf ti))) existing)
             else Ret existing)
            = Ret (if isUndefined ti then existing
                   else assign "title" (JStr (trim (strOf ti))) existing)).
  { destruct (isUndefined ti); cbn [negb orb] in *; [reflexivity|].
    apply andb_true_iff in Hti. destruct Hti as [Ht1 Ht2].
    rewrite Ht1. apply negb_true_iff in Ht2. now rewrite Ht2. }
  rewrite Htitle. cbn [bindR]. clear Htitle Hti.
  destruct da as [p | d | o];
    [destruct p; try discriminate | | discriminate];
    cbn [isUndefined negb bindR];
    (eexists; split; [reflexivity|]);
    destruct (isUndefined ti), (isUndefined de), (isUndefined co);
    cbn [negb];
    repeat (first [ rewrite get_assign_same
                  | rewrite get_assign_other by (intro; discriminate) ]);
    repeat split; reflexivity.
Qed.

(** C7, as the code has it.  On a valid todo, an update whose title and
    date (when given) pass their checks does not fail, whatever it gives for
    [completed] and [description]: [completed] becomes the truthiness of
    the value given, and [description] the trimmed string given, or the
    empty string when the value given is not a string. *)
Theorem updateTodo_coerces : forall now (existing : Obj) updates,
    validateTodo (VObj existing) = Ret true ->
    titleApplies updates = true ->
    dateApplies updates = true ->
    exists u,
      updateTodo now (VObj existing) updates = Ret u
      /\ get u "completed" =
         (if isUndefined (upd_completed updates) then get existing "completed"
          else JBool (truthy (upd_completed updates)))
      /\ get u "description" =
         (if isUndefined (upd_description updates) then get existing "description"
          else JStr (if JsType_eqb (typeof (upd_description updates)) t_string
                     then trim (strOf (upd_description updates)) else "")).
Proof.
  intros now existing updates Hvalid Hti Hda.
  destruct (validateTodo_Ret _ Hvalid) as (i & t & b & k & d & Hi & Hlen & _).
  assert (truthyPrim (get existing "id") = true) as Hid.
  { rewrite Hi. cbn. now rewrite Hlen. }
  destruct (updateTodo_outcome now existing updates Hid Hti Hda)
    as (u & Hu & _ & Hco & Hde & _).
  exists u. auto.
Qed.

Lemma updateTodo_coerces_witness :
  exists u,
    updateTodo "2024-01-15T12:00:00.000Z" (VObj sampleTodo) completedYes = Ret u
    /\ get u "completed" = JBool true
    /\ get u "description" = JStr "".
Proof.
  exact (updateTodo_coerces "2024-01-15T12:00:00.000Z" sampleTodo completedYes
           eq_refl eq_refl eq_refl).
Defined.

(** C7, as the claim has it, fails: a [completed] that is a string and a
    [description] that is a number are accepted and coerced. *)
Lemma updateTodo_accepts_non_boolean_completed :
  validateTodo (VObj sampleTodo) = Ret true
  /\ typeof (upd_completed completedYes) <> t_boolean
  /\ typeof (upd_description completedYes) <> t_string
  /\ updateTodo "2024-01-15T12:00:00.000Z" (VObj sampleTodo) completedYes
     = Ret [ ("id", JStr "test-id-1"); ("title", JStr "Test Todo");
             ("description", JStr ""); ("completed", JBool true);
             ("dateKey", JStr "2024-01-15");
             ("createdAt", JStr "2024-01-15T10:00:00.000Z");
             ("updatedAt", JStr "2024-01-15T12:00:00.000Z") ]
  /\ ~ (exists e, updateTodo "2024-01-15T12:00:00.000Z" (VObj sampleTodo) completedYes
                  = Throw e).
Proof.
  repeat split; try reflexivity; try (cbn; discriminate).
  intros [e He]. discriminate He.
Qed.

(* ------------------------------------------------------------------ *)
(** ** Adding to a collection *)

Lemma findIndex_existsb : forall (A : Type) (p : A -> bool) (l : list A),
    findIndex p l = None <-> existsb p l = false.
Proof.
  induction l as [|x l IH]; simpl; [tauto|].
  destruct (p x); simpl; [split; discriminate|].
  destruct (findIndex p l); [|tauto].
  split; [discriminate|]. intros H. apply IH in H. discriminate.
Qed.

Lemma findIndex_Some_existsb : forall (A : Type) (p : A -> bool) (l : list A) i,
    findIndex p l = Some i -> existsb p l = true.
Proof.
  intros A p l i H. destruct (existsb p l) eqn:E; auto.
  apply findIndex_existsb in E. congruence.
Qed.

Lemma assign_empty_then : forall (c : Collection) k (v : list Obj),
    assign k v (if negb (hasOwn k c) then assign k [] c else c) = assign k v c.
Proof.
  intros c k v. destruct (hasOwn k c); cbn [negb]; auto.
  apply assign_assign.
Qed.

Lemma bucket_empty_then : forall (c : Collection) k,
    bucket (if negb (hasOwn k c) then assign k [] c else c) k = bucket c k.
Proof.
  intros c k. destruct (hasOwn k c) eqn:E; cbn [negb]; auto.
  rewrite bucket_assign_same. unfold bucket.
  apply hasOwn_false in E. now rewrite E.
Qed.

Lemma addTodoToCollection_spec : forall (c : Collection) (todo : Obj),
    addTodoToCollection c todo =
    match validateTodo (VObj todo) with
    | Throw e => Throw e
    | Ret _ =>
        let dateKey := toString (get todo "dateKey") in
        if existsb (hasId (get todo "id")) (bucket c dateKey)
        then Throw (Error ("Todo with id " ++ toString (get todo "id")
                           ++ " already exists for date " ++ dateKey))
        else Ret (assign dateKey (bucket c dateKey ++ [todo]) c)
    end.
Proof.
  intros c todo. unfold addTodoToCollection.
  destruct (validateTodo (VObj todo)) as [ok|e]; cbn [bindR]; auto.
  cbv zeta. rewrite bucket_empty_then, assign_empty_then.
  destruct (findIndex (hasId (get todo "id")) (bucket c (toString (get todo "dateKey"))))
    as [i|] eqn:E.
  - now rewrite (findIndex_Some_existsb _ _ E).
  - apply findIndex_existsb in E. now rewrite E.
Qed.

(** C1, as the code has it.  A valid todo is refused exactly when a todo
    with the same id is already in the array of its own day; otherwise it
    is accepted and goes last in that array, the other days being left as
    they were, and this also when its id is in use under another day. *)
Theorem addTodoToCollection_per_day : forall (c : Collection) (todo : Obj),
    validateTodo (VObj todo) = Ret true ->
    let dateKey := toString (get todo "dateKey") in
    addTodoToCollection c todo =
    (if existsb (hasId (get todo "id")) (bucket c dateKey)
     then Throw (Error ("Todo with id " ++ toString (get todo "id")
                        ++ " already exists for date " ++ dateKey))
     else Ret (assign dateKey (bucket c dateKey ++ [todo]) c))
    /\ bucket (assign dateKey (bucket c dateKey ++ [todo]) c) dateKey
       = bucket c dateKey ++ [todo]
    /\ forall other, other <> dateKey ->
         lookup other (assign dateKey (bucket c dateKey ++ [todo]) c) = lookup other c.
Proof.
  intros c todo Hvalid dateKey. split; [|split].
  - rewrite addTodoToCollection_spec, Hvalid. reflexivity.
  - apply bucket_assign_same.
  - intros other Hne. now apply lookup_assign_other.
Qed.

Lemma addTodoToCollection_per_day_witness :
  addTodoToCollection todosCollection sampleTodoNextDay
  = Ret [ ("2024-01-15", [sampleTodo]);
          ("2024-01-16", [anotherTodo; sampleTodoNextDay]) ].
Proof.
  exact (proj1 (addTodoToCollection_per_day todosCollection sampleTodoNextDay eq_refl)).
Defined.

(** C1, as the claim has it, fails: a todo whose id is in use under
    another day is accepted. *)
Lemma addTodoToCollection_accepts_id_of_other_day :
  present "test-id-1" todosCollection = true
  /\ get sampleTodoNextDay "id" = JStr "test-id-1"
  /\ addTodoToCollection todosCollection sampleTodoNextDay
     = Ret [ ("2024-01-15", [sampleTodo]);
             ("2024-01-16", [anotherTodo; sampleTodoNextDay]) ]
  /\ ~ (exists e, addTodoToCollection todosCollection sampleTodoNextDay = Throw e).
Proof.
  repeat split; try reflexivity.
  intros [e He]. discriminate He.
Qed.

(* ------------------------------------------------------------------ *)
(** ** Searching *)

Lemma toLowerChar_whitespace : forall c : ascii,
    isWhiteSpace c = true -> toLowerChar c = c.
Proof.
  intros c.
  destruct c as [[] [] [] [] [] [] [] []]; cbv; intros H; first [reflexivity | discriminate H].
Qed.

Lemma toLowerCase_blank : forall s : string,
    isBlank s = true -> toLowerCase s = s.
Proof.
  induction s as [|c s IH]; cbn; auto.
  unfold isBlank in *. cbn. intros H. apply andb_true_iff in H. destruct H as [Hc Hs].
  now rewrite (toLowerChar_whitespace _ Hc), IH.
Qed.

Lemma trimStart_blank : forall s : string,
    isBlank s = true -> trimStart s = "".
Proof.
  induction s as [|c s IH]; cbn; auto.
  unfold isBlank in *. cbn. intros H. apply andb_true_iff in H. destruct H as [Hc Hs].
  rewrite Hc. auto.
Qed.

Lemma trim_blank : forall s : string, isBlank s = true -> trim s = "".
Proof. intros s H. unfold trim. now rewrite trimStart_blank. Qed.

Lemma includes_empty : forall s : string, includes s "" = true.
Proof. destruct s; reflexivity. Qed.

Lemma filterR_empty_term : forall items : list Obj,
    forallb hasStringTitle items = true ->
    filterR (matchesTerm "") items = Ret items.
Proof.
  induction items as [|todo items IH]; cbn [forallb filterR]; auto.
  intros H. apply andb_true_iff in H. destruct H as [Ht Hts].
  rewrite (IH Hts). unfold matchesTerm, hasStringTitle in *.
  destruct (get todo "title"); try discriminate.
  cbn [toLowerCaseOf bindR]. now rewrite includes_empty.
Qed.

Lemma searchLoop_empty_term : forall (c : Collection) (results : list Obj),
    forallb hasStringTitle (getAllTodos c) = true ->
    searchLoop "" c results = Ret (results ++ tagged c).
Proof.
  induction c as [|[dateKey todos] c IH]; intros results H; cbn [searchLoop].
  - unfold tagged. cbn. now rewrite app_nil_r.
  - unfold getAllTodos in H. cbn [flat_map snd] in H.
    rewrite forallb_app in H. apply andb_true_iff in H. destruct H as [H1 H2].
    rewrite (filterR_empty_term _ H1). cbn [bindR].
    rewrite (IH _ H2). unfold tagged. cbn [flat_map fst snd].
    now rewrite app_assoc.
Qed.

Lemma length_tagged : forall c : Collection,
    List.length (tagged c) = List.length (getAllTodos c).
Proof.
  induction c as [|[dateKey todos] c IH]; auto.
  unfold tagged, getAllTodos in *. cbn [flat_map fst snd].
  rewrite !length_app, length_map. now f_equal.
Qed.

(** C10. A search term that is a non-empty string of white space only is
    not caught by the guard; trimmed, it is the empty string, which every
    title includes: on a collection whose titles are strings the search
    returns every todo, each with the day it is filed under as its
    [dateKey]. *)
Theorem searchTodos_blank_term : forall (c : Collection) (term : string),
    term <> "" ->
    isBlank term = true ->
    forallb hasStringTitle (getAllTodos c) = true ->
    searchTodos c (VPrim (JStr term)) = Ret (tagged c)
    /\ List.length (tagged c) = List.length (getAllTodos c).
Proof.
  intros c term Hne Hblank Htitles. split; [|apply length_tagged].
  unfold searchTodos. cbn [truthy truthyPrim typeof typeofPrim JsType_eqb strOf strOfPrim].
  destruct term as [|ch term]; [congruence|].
  cbn [String.length Nat.eqb negb orb].
  rewrite (toLowerCase_blank _ Hblank), (trim_blank _ Hblank).
  now rewrite searchLoop_empty_term.
Qed.

Lemma searchTodos_blank_term_witness :
  searchTodos todosCollection (VPrim (JStr "   ")) = Ret [sampleTodo; anotherTodo]
  /\ List.length (tagged todosCollection) = 2.
Proof.
  refine (searchTodos_blank_term todosCollection (term := "   ") _ eq_refl eq_refl).
  discriminate.
Defined.

(* ------------------------------------------------------------------ *)
(** ** The scan shared by update and removal *)

Lemma length_zero_nil : forall (A : Type) (l : list A),
    (List.length l =? 0) = true <-> l = [].
Proof.
  intros A [|x l]; cbn; split; intros H; auto; discriminate.
Qed.

Lemma delete_assign : forall (V : Type) (c : list (string * V)) k v,
    delete k (assign k v c) = delete k c.
Proof.
  induction c as [|[k0 v0] c IH]; intros k v; cbn.
  - now rewrite String.eqb_refl.
  - destruct (String.eqb k0 k) eqn:E; cbn; rewrite E; cbn; auto.
    unfold delete in IH. now rewrite IH.
Qed.

Lemma findIndex_find : forall (A : Type) (p : A -> bool) (l : list A) i,
    findIndex p l = Some i ->
    exists x, nth_error l i = Some x /\ find p l = Some x.
Proof.
  induction l as [|y l IH]; cbn; intros i H; [discriminate|].
  destruct (p y).
  - inversion H; subst. exists y. auto.
  - destruct (findIndex p l) as [j|]; [|discriminate].
    inversion H; subst. cbn. now apply IH.
Qed.

Lemma find_existsb : forall (A : Type) (p : A -> bool) (l : list A),
    existsb p l = true -> exists x, find p l = Some x /\ p x = true /\ In x l.
Proof.
  induction l as [|y l IH]; cbn; intros H; [discriminate|].
  destruct (p y) eqn:E.
  - exists y. auto.
  - cbn in H. destruct (IH H) as (x & Hf & Hp & Hin). exists x. auto.
Qed.

Lemma scan_spec : forall (A : Type) todoId (onFound : Value -> Result A)
                         (entries updatedCollection : Collection),
    scan todoId onFound entries updatedCollection =
    match locateDay todoId entries with
    | None => Ret None
    | Some (dateKey, items) =>
        match find (hasId (JStr todoId)) items with
        | Some existingTodo =>
            bindR (onFound (VObj existingTodo))
              (fun found => Ret (Some (found, prune todoId dateKey items updatedCollection)))
        | None => Ret None
        end
    end.
Proof.
  intros A todoId onFound entries uc.
  induction entries as [|[dateKey items] entries IH]; cbn [scan locateDay]; auto.
  destruct (findIndex (hasId (JStr todoId)) items) as [i|] eqn:E.
  - rewrite (findIndex_Some_existsb _ _ E).
    destruct (findIndex_find _ _ E) as (x & Hnth & Hfind).
    rewrite Hfind. unfold at_. rewrite Hnth.
    destruct (onFound (VObj x)); cbn [bindR]; auto.
    unfold prune, without.
    destruct (List.length _ =? 0); auto.
    now rewrite delete_assign.
  - apply findIndex_existsb in E. now rewrite E.
Qed.

Lemma locateDay_found : forall todoId (c : Collection) dateKey items,
    locateDay todoId c = Some (dateKey, items) ->
    In (dateKey, items) c
    /\ exists existingTodo,
         find (hasId (JStr todoId)) items = Some existingTodo
         /\ hasId (JStr todoId) existingTodo = true.
Proof.
  induction c as [|[k0 v0] c IH]; cbn; intros dateKey items H; [discriminate|].
  destruct (existsb (hasId (JStr todoId)) v0) eqn:E.
  - inversion H; subst. split; auto.
    destruct (find_existsb _ _ E) as (x & Hf & Hp & _). eauto.
  - destruct (IH _ _ H) as [Hin Hex]. auto.
Qed.

Lemma locateDay_None : forall todoId (c : Collection),
    locateDay todoId c = None <-> present todoId c = false.
Proof.
  intros todoId c. unfold present, getAllTodos.
  induction c as [|[k0 v0] c IH]; cbn; [tauto|].
  rewrite existsb_app.
  destruct (existsb (hasId (JStr todoId)) v0); cbn; [split; discriminate|].
  exact IH.
Qed.

Lemma lookup_In_NoDup : forall (V : Type) (c : list (string * V)) k v,
    NoDup (keys c) -> In (k, v) c -> lookup k c = Some v.
Proof.
  induction c as [|[k0 v0] c IH]; cbn; intros k v Hnd Hin; [tauto|].
  inversion Hnd as [|? ? Hnotin Hnd']; subst.
  destruct Hin as [Heq|Hin].
  - inversion Heq; subst. now rewrite String.eqb_refl.
  - destruct (String.eqb k0 k) eqn:E.
    + apply String.eqb_eq in E. subst k0. exfalso. apply Hnotin.
      unfold keys. change k with (fst (k, v)). now apply in_map.
    + now apply IH.
Qed.

Lemma locateDay_bucket : forall todoId (c : Collection) dateKey items,
    NoDup (keys c) ->
    locateDay todoId c = Some (dateKey, items) ->
    lookup dateKey c = Some items /\ bucket c dateKey = items.
Proof.
  intros todoId c dateKey items Hnd H.
  destruct (locateDay_found _ _ H) as [Hin _].
  assert (lookup dateKey c = Some items) as Hl by now apply lookup_In_NoDup.
  split; auto. unfold bucket. now rewrite Hl.
Qed.

Lemma locate_locateDay : forall todoId (c : Collection) dateKey existingTodo,
    locate todoId c = Some (dateKey, existingTodo) ->
    exists items,
      locateDay todoId c = Some (dateKey, items)
      /\ find (hasId (JStr todoId)) items = Some existingTodo
      /\ hasId (JStr todoId) existingTodo = true.
Proof.
  intros todoId c dateKey existingTodo. unfold locate.
  destruct (locateDay todoId c) as [[k items]|] eqn:E; [|discriminate].
  destruct (locateDay_found _ _ E) as [_ (x & Hf & Hp)].
  rewrite Hf. intros H. inversion H; subst. eauto.
Qed.

Lemma updateTodoInCollection_spec : forall now (c : Collection) todoId updates,
    updateTodoInCollection now c todoId updates =
    match locateDay todoId c with
    | None => Throw (Error ("Todo with id " ++ todoId ++ " not found"))
    | Some (dateKey, items) =>
        match find (hasId (JStr todoId)) items with
        | Some existingTodo =>
            match updateTodo now (VObj existingTodo) updates with
            | Ret u =>
                if notIterable (toString (get u "dateKey")) (prune todoId dateKey items c)
                then Throw notIterableError
                else Ret (moved todoId dateKey items u c)
            | Throw e => Throw e
            end
        | None => Throw (Error ("Todo with id " ++ todoId ++ " not found"))
        end
    end.
Proof.
  intros now c todoId updates. unfold updateTodoInCollection. rewrite scan_spec.
  destruct (locateDay todoId c) as [[dateKey items]|]; cbn [bindR]; auto.
  destruct (find (hasId (JStr todoId)) items) as [existingTodo|]; cbn [bindR]; auto.
  destruct (updateTodo now (VObj existingTodo) updates) as [u|e]; cbn [bindR]; auto.
  unfold moved, notIterable, notIterableError. cbv zeta.
  fold (prune todoId dateKey items c).
  destruct (hasOwn (toString (get u "dateKey")) (prune todoId dateKey items c)) eqn:Hown;
    cbn [negb andb]; [reflexivity|].
  destruct (inheritedName (toString (get u "dateKey"))); cbn [negb]; [reflexivity|].
  apply hasOwn_false in Hown. f_equal.
  unfold bucket. rewrite (lookup_create_same _ _ [] Hown). cbn [app].
  now apply assign_create.
Qed.

Lemma removeTodoFromCollection_spec : forall (c : Collection) todoId,
    removeTodoFromCollection c todoId =
    match locateDay todoId c with
    | None => Throw (Error ("Todo with id " ++ todoId ++ " not found"))
    | Some (dateKey, items) => Ret (prune todoId dateKey items c)
    end.
Proof.
  intros c todoId. unfold removeTodoFromCollection. rewrite scan_spec.
  destruct (locateDay todoId c) as [[dateKey items]|] eqn:E; cbn [bindR]; auto.
  destruct (locateDay_found _ _ E) as [_ (x & Hf & _)]. now rewrite Hf.
Qed.

(* ------------------------------------------------------------------ *)
(** ** No day is left with an empty array *)

Section ForallbProps.
Variable V : Type.
Variable P : string * V -> bool.

Lemma forallb_assign : forall (c : list (string * V)) k v,
    forallb P c = true -> P (k, v) = true -> forallb P (assign k v c) = true.
Proof.
  induction c as [|[k0 v0] c IH]; cbn; intros k v Hc Hkv.
  - now rewrite Hkv.
  - apply andb_true_iff in Hc. destruct Hc as [H0 Hc].
    destruct (String.eqb k0 k) eqn:E; cbn.
    + apply String.eqb_eq in E. subst k0. now rewrite Hkv.
    + rewrite H0. now apply IH.
Qed.

Lemma forallb_delete : forall (c : list (string * V)) k,
    forallb P c = true -> forallb P (delete k c) = true.
Proof.
  induction c as [|[k0 v0] c IH]; cbn; intros k Hc; auto.
  apply andb_true_iff in Hc. destruct Hc as [H0 Hc].
  destruct (String.eqb k0 k); cbn.
  - now apply IH.
  - rewrite H0. now apply IH.
Qed.

Lemma forallb_lookup : forall (c : list (string * V)) k v,
    forallb P c = true -> lookup k c = Some v -> P (k, v) = true.
Proof.
  induction c as [|[k0 v0] c IH]; cbn; intros k v Hc Hl; [discriminate|].
  apply andb_true_iff in Hc. destruct Hc as [H0 Hc].
  destruct (String.eqb k0 k) eqn:E.
  - apply String.eqb_eq in E. inversion Hl; subst. exact H0.
  - eapply IH; eauto.
Qed.

Lemma forallb_create : forall (c : list (string * V)) k v,
    forallb P c = true -> P (k, v) = true -> forallb P (create k v c) = true.
Proof.
  intros c k v Hc Hkv. destruct (create_split c k v) as (l1 & l2 & E1 & E2).
  rewrite E2. subst c. rewrite forallb_app in *.
  apply andb_true_iff in Hc. destruct Hc as [H1 H2].
  rewrite H1. cbn [forallb andb]. now rewrite Hkv, H2.
Qed.
End ForallbProps.

Lemma noEmptyBucket_assign : forall (c : Collection) k items,
    noEmptyBucket c = true -> items <> [] -> noEmptyBucket (assign k items c) = true.
Proof.
  intros c k items Hc Hne. unfold noEmptyBucket. apply forallb_assign; auto.
  cbn. destruct items; [congruence | reflexivity].
Qed.

Lemma noEmptyBucket_prune : forall todoId k items (c : Collection),
    noEmptyBucket c = true -> noEmptyBucket (prune todoId k items c) = true.
Proof.
  intros todoId k items c Hc. unfold prune.
  destruct (List.length (without todoId items) =? 0) eqn:E.
  - now apply forallb_delete.
  - apply noEmptyBucket_assign; auto.
    intros Hnil. rewrite Hnil in E. discriminate.
Qed.

Lemma noEmptyBucket_moved : forall todoId k items u (c : Collection),
    noEmptyBucket c = true -> noEmptyBucket (moved todoId k items u c) = true.
Proof.
  intros todoId k items u c Hc. unfold moved. cbv zeta.
  pose proof (@noEmptyBucket_prune todoId k items c Hc) as Hp.
  destruct (hasOwn (toString (get u "dateKey")) (prune todoId k items c)).
  - apply noEmptyBucket_assign; [exact Hp|].
    intros H. now apply app_eq_nil in H as [_ H].
  - unfold noEmptyBucket in *. now apply forallb_create.
Qed.

Lemma noEmptyBucket_applyOp : forall (c c' : Collection) op,
    noEmptyBucket c = true -> applyOp c op = Ret c' -> noEmptyBucket c' = true.
Proof.
  intros c c' [todo | todoId | now todoId updates] Hc; cbn [applyOp].
  - rewrite addTodoToCollection_spec.
    destruct (validateTodo (VObj todo)); [|discriminate]. cbv zeta.
    destruct (existsb _ _); [discriminate|].
    intros H. inversion H; subst. apply noEmptyBucket_assign; auto.
    intros Hnil. now apply app_eq_nil in Hnil as [_ Hnil].
  - rewrite removeTodoFromCollection_spec.
    destruct (locateDay todoId c) as [[k items]|]; [|discriminate].
    intros H. inversion H; subst. now apply noEmptyBucket_prune.
  - rewrite updateTodoInCollection_spec.
    destruct (locateDay todoId c) as [[k items]|]; [|discriminate].
    destruct (find _ items) as [e|]; [|discriminate].
    destruct (updateTodo now (VObj e) updates) as [u|]; [|discriminate].
    destruct (notIterable _ _); [discriminate|].
    intros H. inversion H; subst. now apply noEmptyBucket_moved.
Qed.

Lemma noEmptyBucket_runOps : forall (ops : list Op) (c : Collection),
    noEmptyBucket c = true -> noEmptyBucket (runOps c ops) = true.
Proof.
  induction ops as [|op ops IH]; intros c Hc; cbn [runOps]; auto.
  destruct (applyOp c op) as [c'|e] eqn:E; auto.
  apply IH. eapply noEmptyBucket_applyOp; eauto.
Qed.

Example runOps_sample :
  runOps todosCollection
    [Remove "test-id-1"; Update "2024-01-15T12:00:00.000Z" "test-id-2" moveToJan20]
  = [ ("2024-01-20",
       [ assign "updatedAt" (JStr "2024-01-15T12:00:00.000Z")
           (assign "dateKey" (JStr "2024-01-20") anotherTodo) ]) ].
Proof. reflexivity. Qed.

(* ------------------------------------------------------------------ *)
(** ** Where an update leaves the todo *)

Lemma distinct_NoDup : forall l : list string, distinct l = true -> NoDup l.
Proof.
  induction l as [|k l IH]; cbn; intros H; constructor.
  - apply andb_true_iff in H. destruct H as [H _].
    apply negb_true_iff in H. intros Hin.
    assert (existsb (String.eqb k) l = true) as Hex.
    { apply existsb_exists. exists k. split; auto. apply String.eqb_refl. }
    congruence.
  - apply andb_true_iff in H. destruct H as [_ H]. auto.
Qed.

Lemma without_no_id : forall todoId (items : list Obj),
    existsb (hasId (JStr todoId)) (without todoId items) = false.
Proof.
  intros todoId items. unfold without.
  induction items as [|t items IH]; cbn; auto.
  destruct (hasId (JStr todoId) t) eqn:E; cbn; auto.
  now rewrite E.
Qed.

Lemma bucket_prune_same : forall todoId k items (c : Collection),
    bucket (prune todoId k items c) k = without todoId items.
Proof.
  intros todoId k items c. unfold prune.
  destruct (List.length (without todoId items) =? 0) eqn:E.
  - apply length_zero_nil in E. rewrite E. apply bucket_delete_same.
  - apply bucket_assign_same.
Qed.

Lemma lookup_prune_same : forall todoId k items (c : Collection),
    lookup k (prune todoId k items c) =
    if List.length (without todoId items) =? 0 then None
    else Some (without todoId items).
Proof.
  intros todoId k items c. unfold prune.
  destruct (List.length (without todoId items) =? 0).
  - apply lookup_delete_same.
  - apply lookup_assign_same.
Qed.

Lemma lookup_prune_other : forall todoId k k' items (c : Collection),
    k' <> k -> lookup k' (prune todoId k items c) = lookup k' c.
Proof.
  intros todoId k k' items c Hne. unfold prune.
  destruct (List.length (without todoId items) =? 0).
  - now apply lookup_delete_other.
  - now apply lookup_assign_other.
Qed.

Lemma bucket_prune_other : forall todoId k k' items (c : Collection),
    k' <> k -> bucket (prune todoId k items c) k' = bucket c k'.
Proof.
  intros. unfold bucket. now rewrite lookup_prune_other.
Qed.

Lemma bucket_moved : forall todoId k items u (c : Collection),
    bucket c k = items ->
    let newDateKey := toString (get u "dateKey") in
    bucket (moved todoId k items u c) newDateKey =
    (if String.eqb newDateKey k then without todoId (bucket c k)
     else bucket c newDateKey) ++ [u].
Proof.
  intros todoId k items u c Hb newDateKey. unfold moved. fold newDateKey. cbv zeta.
  assert (bucket (prune todoId k items c) newDateKey
          = if String.eqb newDateKey k then without todoId (bucket c k)
            else bucket c newDateKey) as Hp.
  { destruct (String.eqb newDateKey k) eqn:E.
    - apply String.eqb_eq in E. rewrite E, Hb. apply bucket_prune_same.
    - apply String.eqb_neq in E. now apply bucket_prune_other. }
  destruct (hasOwn newDateKey (prune todoId k items c)) eqn:Hown.
  - rewrite bucket_assign_same. now rewrite Hp.
  - apply hasOwn_false in Hown. rewrite <- Hp. unfold bucket.
    rewrite (lookup_create_same _ _ [u] Hown). now rewrite Hown.
Qed.

Lemma bucket_moved_other : forall todoId k items u (c : Collection) other,
    other <> toString (get u "dateKey") ->
    bucket (moved todoId k items u c) other = bucket (prune todoId k items c) other.
Proof.
  intros todoId k items u c other Hne. unfold moved. cbv zeta.
  destruct (hasOwn (toString (get u "dateKey")) (prune todoId k items c)).
  - now apply bucket_assign_other.
  - unfold bucket. now rewrite lookup_create_other.
Qed.

Lemma notIterable_not_inherited : forall dateKey (c : Collection),
    inheritedName dateKey = false -> notIterable dateKey c = false.
Proof.
  intros dateKey c H. unfold notIterable. rewrite H. apply andb_false_r.
Qed.

(** When the day key of the updated todo names a member of
    [Object.prototype] and no day of the collection (once the todo is out
    of its array), the update throws: what the collection has under that
    name is not an array. *)
Lemma updateTodoInCollection_not_iterable :
  forall now (c : Collection) todoId updates dateKey existingTodo u,
    distinctKeys c = true ->
    locate todoId c = Some (dateKey, existingTodo) ->
    updateTodo now (VObj existingTodo) updates = Ret u ->
    notIterable (toString (get u "dateKey")) (prune todoId dateKey (bucket c dateKey) c) = true ->
    updateTodoInCollection now c todoId updates = Throw notIterableError.
Proof.
  intros now c todoId updates dateKey existingTodo u Hnd Hloc Hupd Hno.
  apply distinct_NoDup in Hnd.
  destruct (locate_locateDay _ _ Hloc) as (items & Hday & Hfind & Hid).
  destruct (locateDay_bucket _ _ Hnd Hday) as [Hl Hb]. rewrite Hb in Hno.
  now rewrite updateTodoInCollection_spec, Hday, Hfind, Hupd, Hno.
Qed.

Example updateTodoInCollection_toString_day :
  updateTodoInCollection "2024-01-15T12:00:00.000Z" strayDay "test-id-5" markDone
  = Throw (TypeError "updatedCollection[newDateKey] is not iterable").
Proof.
  exact (@updateTodoInCollection_not_iterable "2024-01-15T12:00:00.000Z" strayDay
           "test-id-5" markDone "toString" strayTodo _ eq_refl eq_refl eq_refl eq_refl).
Qed.



(** The same through the hook: toggling the first of two todos of a day
    leaves it last in the array of that day. *)
Example toggleTodoCompleteById_repositions :
  let w := {| storedValue := twoOnOneDay; status := idle;
              localStorage := "{...}" : Storage workingStorage; instant := 0 |} in
  bucket (storedValue (snd (toggleTodoCompleteById "test-id-1" w))) "2024-01-15"
  = [ secondTodo;
      assign "updatedAt" (JStr "2024-01-15T12:00:00.000Z")
        (assign "completed" (JBool true) sampleTodo) ].
Proof. reflexivity. Qed.

(* ------------------------------------------------------------------ *)
(** ** Counting the todos that carry an id *)

Section Counting.
Variable p : Obj -> bool.

Lemma cnt_cons : forall k items (c : Collection),
    cnt p ((k, items) :: c) = List.length (filter p items) + cnt p c.
Proof.
  intros. unfold cnt, getAllTodos. cbn [flat_map snd].
  now rewrite filter_app, length_app.
Qed.

Lemma cnt_assign : forall (c : Collection) k items,
    cnt p (assign k items c) + List.length (filter p (bucket c k))
    = cnt p c + List.length (filter p items).
Proof.
  induction c as [|[k0 v0] c IH]; intros k items.
  - cbn [assign]. rewrite cnt_cons. unfold cnt, bucket. cbn. lia.
  - cbn [assign]. unfold bucket. cbn [lookup].
    destruct (String.eqb k0 k) eqn:E.
    + rewrite !cnt_cons. lia.
    + rewrite !cnt_cons. specialize (IH k items). unfold bucket in IH. lia.
Qed.

Lemma delete_absent : forall (c : Collection) k,
    ~ In k (keys c) -> delete k c = c.
Proof.
  induction c as [|[k0 v0] c IH]; intros k Hnotin; cbn; auto.
  destruct (String.eqb k0 k) eqn:E.
  - apply String.eqb_eq in E. subst k0. exfalso. apply Hnotin. cbn. auto.
  - cbn. f_equal. apply IH. intros Hin. apply Hnotin. cbn. auto.
Qed.

Lemma cnt_delete : forall (c : Collection) k,
    NoDup (keys c) ->
    cnt p (delete k c) + List.length (filter p (bucket c k)) = cnt p c.
Proof.
  induction c as [|[k0 v0] c IH]; intros k Hnd.
  - reflexivity.
  - inversion Hnd as [|? ? Hnotin Hnd']; subst.
    unfold bucket. cbn [delete filter fst lookup].
    destruct (String.eqb k0 k) eqn:E; cbn [negb].
    + apply String.eqb_eq in E. subst k0.
      fold (delete k c). rewrite delete_absent by exact Hnotin. rewrite cnt_cons. lia.
    + fold (delete k c). rewrite !cnt_cons.
      specialize (IH k Hnd'). unfold bucket in IH. lia.
Qed.

Lemma cnt_prune : forall todoId k items (c : Collection),
    NoDup (keys c) ->
    bucket c k = items ->
    cnt p (prune todoId k items c) + List.length (filter p items)
    = cnt p c + List.length (filter p (without todoId items)).
Proof.
  intros todoId k items c Hnd Hb. unfold prune.
  destruct (List.length (without todoId items) =? 0) eqn:E.
  - apply length_zero_nil in E. rewrite E. cbn [filter List.length].
    rewrite <- Hb, Nat.add_0_r. now apply cnt_delete.
  - rewrite <- Hb at 2. apply cnt_assign.
Qed.

Lemma cnt_create : forall (c : Collection) k items,
    cnt p (create k items c) = cnt p c + List.length (filter p items).
Proof.
  intros c k items. destruct (create_split c k items) as (l1 & l2 & E1 & E2).
  rewrite E2. subst c. unfold cnt, getAllTodos.
  rewrite !flat_map_app. cbn [flat_map snd].
  rewrite !filter_app, !length_app. lia.
Qed.

Lemma cnt_moved : forall todoId k items u (c : Collection),
    cnt p (moved todoId k items u c)
    = cnt p (prune todoId k items c) + List.length (filter p [u]).
Proof.
  intros todoId k items u c. unfold moved. cbv zeta.
  destruct (hasOwn (toString (get u "dateKey")) (prune todoId k items c)).
  - pose proof (cnt_assign (prune todoId k items c) (toString (get u "dateKey"))
                  (bucket (prune todoId k items c) (toString (get u "dateKey")) ++ [u]))
      as H.
    rewrite filter_app, length_app in H. lia.
  - apply cnt_create.
Qed.

Lemma cnt_zero_bucket : forall (c : Collection) k,
    cnt p c = 0 -> existsb p (bucket c k) = false.
Proof.
  induction c as [|[k0 v0] c IH]; intros k H.
  - reflexivity.
  - rewrite cnt_cons in H. unfold bucket. cbn [lookup].
    destruct (String.eqb k0 k).
    + destruct (existsb p v0) eqn:E; auto.
      apply existsb_exists in E. destruct E as (x & Hin & Hp).
      assert (In x (filter p v0)) as Hf by (apply filter_In; auto).
      destruct (filter p v0); [inversion Hf | cbn in H; lia].
    + apply IH. lia.
Qed.
End Counting.

Lemma filter_without : forall todoId (items : list Obj),
    filter (hasId (JStr todoId)) (without todoId items) = [].
Proof.
  intros todoId items. unfold without.
  induction items as [|t items IH]; cbn; auto.
  destruct (hasId (JStr todoId) t) eqn:E; cbn; auto.
  now rewrite E.
Qed.

Lemma find_count_pos : forall (A : Type) (p : A -> bool) (l : list A) x,
    find p l = Some x -> 1 <= List.length (filter p l).
Proof.
  induction l as [|y l IH]; cbn; intros x H; [discriminate|].
  destruct (p y); cbn; [lia|eauto].
Qed.

Lemma lookup_count_le : forall (p : Obj -> bool) (c : Collection) k items,
    lookup k c = Some items -> List.length (filter p items) <= cnt p c.
Proof.
  induction c as [|[k0 v0] c IH]; cbn [lookup]; intros k items H; [discriminate|].
  rewrite cnt_cons.
  destruct (String.eqb k0 k).
  - inversion H; subst. lia.
  - specialize (IH _ _ H). lia.
Qed.

Lemma updateTodo_Ret_inv : forall now (existing : Obj) updates u,
    updateTodo now (VObj existing) updates = Ret u ->
    truthyPrim (get existing "id") = true
    /\ titleApplies updates = true
    /\ dateApplies updates = true.
Proof.
  intros now existing [ti de co da] u.
  unfold updateTodo, titleApplies, dateApplies.
  cbn [truthy typeof ownProps JsType_eqb negb orb
       upd_title upd_date upd_completed upd_description].
  destruct (truthyPrim (get existing "id")); cbn [negb]; [|discriminate].
  destruct (isUndefined ti); cbn [negb orb].
  - destruct (isUndefined da) eqn:Eda; cbn [negb orb bindR]; auto.
    destruct da as [pr | d | o]; cbn [bindR]; auto; discriminate.
  - destruct (JsType_eqb (typeof ti) t_string); cbn [negb orb andb]; [|discriminate].
    destruct (String.length (trim (strOf ti)) =? 0); cbn [negb bindR]; [discriminate|].
    destruct (isUndefined da) eqn:Eda; cbn [negb orb bindR]; auto.
    destruct da as [pr | d | o]; cbn [bindR]; auto; discriminate.
Qed.

Lemma updateTodo_Ret_fields : forall now (existing : Obj) updates u,
    updateTodo now (VObj existing) updates = Ret u ->
    get u "id" = get existing "id"
    /\ get u "dateKey" =
       (match upd_date updates with
        | VDate d => JStr (formatDateKey d)
        | _ => get existing "dateKey"
        end).
Proof.
  intros now existing updates u H.
  destruct (updateTodo_Ret_inv _ _ _ H) as (Hid & Hti & Hda).
  destruct (updateTodo_outcome now existing updates Hid Hti Hda)
    as (u' & Hu' & Hi & _ & _ & Hk & _).
  rewrite H in Hu'. inversion Hu'; subst. auto.
Qed.

Lemma lookup_moved_other : forall todoId k items u (c : Collection) other,
    other <> toString (get u "dateKey") ->
    lookup other (moved todoId k items u c) = lookup other (prune todoId k items c).
Proof.
  intros todoId k items u c other Hne. unfold moved. cbv zeta.
  destruct (hasOwn (toString (get u "dateKey")) (prune todoId k items c)).
  - now apply lookup_assign_other.
  - now apply lookup_create_other.
Qed.

(** A string with a dash in it is none of the names of the members of
    [Object.prototype]: no key that [formatDateKey] prints is one. *)
Lemma dash_differs : forall (a b name : string),
    forallb (fun ch => negb (Ascii.eqb ch "-"%char)) (list_ascii_of_string name) = true ->
    String.eqb (a ++ String "-"%char b) name = false.
Proof.
  induction a as [|x a IH]; intros b [|ch name] H; cbn [String.append String.eqb]; auto.
  - cbn [list_ascii_of_string forallb] in H. apply andb_true_iff in H. destruct H as [H _].
    apply negb_true_iff in H. rewrite Ascii.eqb_sym, H. reflexivity.
  - cbn [list_ascii_of_string forallb] in H. apply andb_true_iff in H. destruct H as [_ H].
    rewrite (IH b name H). now destruct (Ascii.eqb x ch).
Qed.

Lemma inheritedName_dash : forall a b : string,
    inheritedName (a ++ String "-"%char b) = false.
Proof.
  intros a b. unfold inheritedName, objectPrototypeNames. cbn [existsb].
  rewrite !dash_differs by reflexivity. reflexivity.
Qed.

Lemma inheritedName_formatDateKey : forall date : Date,
    inheritedName (formatDateKey date) = false.
Proof.
  intros date. unfold formatDateKey. cbv zeta.
  change ("-" ++ ?x)%string with (String "-"%char x). apply inheritedName_dash.
Qed.

(** C2.  In a collection whose keys are distinct, an update that gives a
    todo a day other than the one it is filed under moves it: the update
    succeeds; the updated todo is last in the array of the new day, which
    is the old array of that day followed by it; the old day is left with
    its todos that do not carry the id, or without a key when it had no
    other; the other days are as they were.  The todos that carried the id
    under the old day are replaced by the one updated todo, and those that
    carry it under other days stay: the collection holds exactly one todo
    with the id afterwards when it held exactly one before, and no day
    other than the new one then holds the id. *)
Theorem updateTodoInCollection_moves :
  forall now (c : Collection) todoId updates dateKey existingTodo u d,
    distinctKeys c = true ->
    locate todoId c = Some (dateKey, existingTodo) ->
    updateTodo now (VObj existingTodo) updates = Ret u ->
    upd_date updates = VDate d ->
    formatDateKey d <> dateKey ->
    let newDateKey := formatDateKey d in
    let rest := without todoId (bucket c dateKey) in
    exists c',
      updateTodoInCollection now c todoId updates = Ret c'
      /\ get u "dateKey" = JStr newDateKey
      /\ hasId (JStr todoId) u = true
      /\ bucket c' newDateKey = bucket c newDateKey ++ [u]
      /\ lookup dateKey c' = (if List.length rest =? 0 then None else Some rest)
      /\ existsb (hasId (JStr todoId)) (bucket c' dateKey) = false
      /\ (forall other, other <> newDateKey -> other <> dateKey ->
            lookup other c' = lookup other c)
      /\ copies todoId c' + List.length (filter (hasId (JStr todoId)) (bucket c dateKey))
         = copies todoId c + 1
      /\ (copies todoId c = 1 ->
          copies todoId c' = 1
          /\ forall other, other <> newDateKey ->
               existsb (hasId (JStr todoId)) (bucket c' other) = false).
Proof.
  intros now c todoId updates dateKey existingTodo u d Hnd Hloc Hupd Hdate Hne
    newDateKey rest.
  apply distinct_NoDup in Hnd.
  destruct (locate_locateDay _ _ Hloc) as (items & Hday & Hfind & Hid).
  destruct (locateDay_bucket _ _ Hnd Hday) as [Hl Hb].
  destruct (updateTodo_Ret_fields _ _ _ Hupd) as [Hsame Hkey].
  rewrite Hdate in Hkey. fold newDateKey in Hkey.
  assert (toString (get u "dateKey") = newDateKey) as Hto by now rewrite Hkey.
  assert (hasId (JStr todoId) u = true) as Hidu.
  { unfold hasId in *. now rewrite Hsame. }
  set (c1 := prune todoId dateKey items c).
  set (c' := moved todoId dateKey items u c).
  assert (lookup dateKey c' = if List.length rest =? 0 then None else Some rest) as Hold.
  { unfold c'.
    rewrite lookup_moved_other
      by (rewrite Hto; intros E; apply Hne; symmetry; exact E).
    rewrite lookup_prune_same. unfold rest. now rewrite Hb. }
  assert (cnt (hasId (JStr todoId)) c1 + List.length (filter (hasId (JStr todoId)) items)
          = cnt (hasId (JStr todoId)) c) as Hc1.
  { pose proof (@cnt_prune (hasId (JStr todoId)) todoId dateKey items c Hnd Hb) as Hp.
    fold c1 in Hp. rewrite filter_without in Hp. cbn [List.length] in Hp. lia. }
  assert (cnt (hasId (JStr todoId)) c' = cnt (hasId (JStr todoId)) c1 + 1) as Hc'.
  { unfold c'. rewrite cnt_moved. fold c1. cbn [filter]. now rewrite Hidu. }
  exists c'.
  split; [|split; [|split; [|split; [|split; [|split; [|split; [|split]]]]]]].
  - rewrite updateTodoInCollection_spec, Hday, Hfind, Hupd.
    rewrite notIterable_not_inherited; [reflexivity|].
    rewrite Hto. apply inheritedName_formatDateKey.
  - exact Hkey.
  - exact Hidu.
  - pose proof (@bucket_moved todoId dateKey items u c Hb) as H. cbv zeta in H.
    rewrite Hto in H. fold c' in H. rewrite H.
    apply String.eqb_neq in Hne. fold newDateKey in Hne. now rewrite Hne.
  - exact Hold.
  - unfold bucket. rewrite Hold.
    destruct (List.length rest =? 0); [reflexivity | apply without_no_id].
  - intros other Hnew Hsame'. unfold c'.
    rewrite lookup_moved_other by (rewrite Hto; exact Hnew).
    now apply lookup_prune_other.
  - unfold copies. rewrite Hb. lia.
  - intros Hone. unfold copies in *.
    pose proof (@find_count_pos _ (hasId (JStr todoId)) items existingTodo Hfind) as Hpos.
    split; [lia|].
    intros other Hother. unfold c'.
    rewrite bucket_moved_other by (rewrite Hto; exact Hother).
    apply cnt_zero_bucket. fold c1. lia.
Qed.

Lemma updateTodoInCollection_moves_witness :
  exists c',
    updateTodoInCollection "2024-01-15T12:00:00.000Z" twoOnOneDay "test-id-1" moveToJan20
    = Ret c'
    /\ get (assign "updatedAt" (JStr "2024-01-15T12:00:00.000Z")
              (assign "dateKey" (JStr "2024-01-20") sampleTodo)) "dateKey"
       = JStr "2024-01-20"
    /\ hasId (JStr "test-id-1")
         (assign "updatedAt" (JStr "2024-01-15T12:00:00.000Z")
            (assign "dateKey" (JStr "2024-01-20") sampleTodo)) = true
    /\ bucket c' "2024-01-20" =
       [ assign "updatedAt" (JStr "2024-01-15T12:00:00.000Z")
           (assign "dateKey" (JStr "2024-01-20") sampleTodo) ]
    /\ lookup "2024-01-15" c' = Some [secondTodo]
    /\ existsb (hasId (JStr "test-id-1")) (bucket c' "2024-01-15") = false
    /\ (forall other, other <> "2024-01-20" -> other <> "2024-01-15" ->
          lookup other c' = lookup other twoOnOneDay)
    /\ copies "test-id-1" c' + 1 = 1 + 1
    /\ (copies "test-id-1" twoOnOneDay = 1 ->
        copies "test-id-1" c' = 1
        /\ forall other, other <> "2024-01-20" ->
             existsb (hasId (JStr "test-id-1")) (bucket c' other) = false).
Proof.
  refine (updateTodoInCollection_moves "2024-01-15T12:00:00.000Z" twoOnOneDay
            "test-id-1" moveToJan20 (dateKey := "2024-01-15") (existingTodo := sampleTodo)
            (d := MkDate 2024 0 20) eq_refl eq_refl eq_refl eq_refl _).
  discriminate.
Defined.

(** C2, as the claim has it, fails: [addTodoToCollection] accepts an id
    that another day holds, and in the collection it returns the move of
    that id takes the todo of the first day only; afterwards two todos
    carry the id, one under the new day and one under a day that the
    update did not touch. *)
Lemma updateTodoInCollection_moves_first_copy_only :
  addTodoToCollection todosCollection sampleTodoNextDay = Ret sameIdTwoDays
  /\ present "test-id-1" sameIdTwoDays = true
  /\ exists c',
       updateTodoInCollection "2024-01-15T12:00:00.000Z" sameIdTwoDays "test-id-1"
         moveToJan20 = Ret c'
       /\ copies "test-id-1" c' = 2
       /\ existsb (hasId (JStr "test-id-1")) (bucket c' "2024-01-20") = true
       /\ existsb (hasId (JStr "test-id-1")) (bucket c' "2024-01-16") = true.
Proof.
  split; [reflexivity|]. split; [reflexivity|].
  eexists. split; [reflexivity|]. repeat split.
Qed.

(* ------------------------------------------------------------------ *)
(** ** The hooks: writing through to the storage *)

Section HookFacts.
Variable host : Host.
Implicit Types (w : World host) (v : Collection).

Lemma sameVisible_refl : forall w, sameVisible w w.
Proof. intros w. repeat split. Qed.

Lemma sameVisible_trans : forall w1 w2 w3,
    sameVisible w1 w2 -> sameVisible w2 w3 -> sameVisible w1 w3.
Proof.
  intros w1 w2 w3 (a & b & c) (a' & b' & c'). repeat split; congruence.
Qed.

(** [setValue] on a value, in full. *)
Lemma setValue_spec : forall key v w,
    setValue key (NewValue v) w =
    if hasWindow host then
      match setItem host (localStorage w) key (stringify host v) with
      | Ret st =>
          (Ret true,
           {| storedValue := v;
              status := {| loading := false; error := None;
                           lastUpdated := Some (toISOString host (instant w)) |};
              localStorage := st; instant := S (instant w) |})
      | Throw e =>
          (Ret false,
           {| storedValue := storedValue w;
              status := failedWrite
                          (if negb (String.length (message e) =? 0)
                           then message e else "Storage operation failed") key;
              localStorage := localStorage w; instant := instant w |})
      end
    else
      (Ret true,
       {| storedValue := v;
          status := {| loading := false; error := None;
                       lastUpdated := Some (toISOString host (instant w)) |};
          localStorage := localStorage w; instant := S (instant w) |}).
Proof.
  intros key v w.
  unfold setValue, tryCatch, bind, setStatus, setStoredValue, tick, writeItem, ret,
    handleStorageOperation, failedWrite.
  destruct (hasWindow host); cbn; [|reflexivity].
  destruct (setItem host (localStorage w) key (stringify host v)) as [st|e];
    reflexivity.
Qed.

Lemma setValue_returns : forall key v w,
    exists b, fst (setValue key (NewValue v) w) = Ret b.
Proof.
  intros key v w. rewrite setValue_spec.
  destruct (hasWindow host); [|cbn; eauto].
  destruct (setItem host (localStorage w) key (stringify host v)); cbn; eauto.
Qed.

Lemma persisting_step : forall (A X : Type) (pre : M host X) prefix
                               (f : X -> Collection) (g : X -> A),
    (forall w, sameVisible w (snd (pre w))) ->
    Persisting
      (tryCatch (bind pre (fun x => bind (setTodos (f x)) (fun _ => ret (g x))))
         (rethrow prefix)).
Proof.
  intros A X pre prefix f g Hquiet w.
  unfold tryCatch, bind. specialize (Hquiet w).
  destruct (pre w) as [[x|e] w1]; cbn [snd] in Hquiet.
  - right. exists (f x), w1, (g x).
    destruct (setValue_returns "todos" (f x) w1) as [b Hb].
    unfold setTodos in *.
    destruct (setValue "todos" (NewValue (f x)) w1) as [[b'|e'] w2];
      cbn [fst] in Hb; [|discriminate Hb].
    cbn. split; [exact Hquiet | split; reflexivity].
  - left. unfold rethrow, throw. cbn. split; eauto.
Qed.

Lemma tick_visible : forall w, sameVisible w (snd (tick w)).
Proof. intros w. repeat split. Qed.

Lemma bulkUpdateLoop_cons : forall todoId rest updates v (l : list Obj) w,
    bulkUpdateLoop (todoId :: rest) updates v l w =
    match updateTodoInCollection (toISOString host (instant w)) v todoId updates with
    | Ret v' =>
        bulkUpdateLoop rest updates v'
          (match find (hasId (JStr todoId)) (getAllTodos v') with
           | Some updatedTodo => l ++ [updatedTodo]
           | None => l
           end)
          (snd (tick w))
    | Throw e => (Throw e, snd (tick w))
    end.
Proof.
  intros. cbn [bulkUpdateLoop]. unfold bind, liftR. cbn [tick snd instant].
  destruct (updateTodoInCollection (toISOString host (instant w)) v todoId updates);
    reflexivity.
Qed.

Lemma bulkUpdateLoop_spec : forall todoIds updates v (l : list Obj) w,
    sameVisible w (snd (bulkUpdateLoop todoIds updates v l w))
    /\ match applyUpdates (toISOString host) (instant w) v todoIds updates with
       | Ret v' => exists l', fst (bulkUpdateLoop todoIds updates v l w) = Ret (v', l')
       | Throw e => fst (bulkUpdateLoop todoIds updates v l w) = Throw e
       end.
Proof.
  induction todoIds as [|todoId rest IH]; intros updates v l w.
  - cbn [bulkUpdateLoop applyUpdates]. unfold ret. cbn [fst snd].
    split; [apply sameVisible_refl | eauto].
  - rewrite bulkUpdateLoop_cons. cbn [applyUpdates].
    destruct (updateTodoInCollection (toISOString host (instant w)) v todoId updates)
      as [v'|e].
    + match goal with
      | |- context [bulkUpdateLoop rest updates v' ?l' ?w'] =>
          destruct (IH updates v' l' w') as [Hvis Hres]
      end.
      split.
      * eapply sameVisible_trans; [apply tick_visible | exact Hvis].
      * exact Hres.
    + split; [apply tick_visible | reflexivity].
Qed.

Lemma bulkDeleteLoop_visible : forall todoIds v w,
    sameVisible w (snd (bulkDeleteLoop todoIds v w)).
Proof.
  induction todoIds as [|todoId rest IH]; intros v w; cbn [bulkDeleteLoop].
  - apply sameVisible_refl.
  - unfold bind, liftR.
    destruct (removeTodoFromCollection v todoId) as [v'|e]; [apply IH|].
    apply sameVisible_refl.
Qed.
End HookFacts.

(* ------------------------------------------------------------------ *)
(** ** The mutating calls of useTodos *)

Section CallFacts.
Variable host : Host.
Implicit Types (w : World host) (v : Collection).

Lemma persisting_ext : forall (A : Type) (m m' : M host A),
    (forall w, m w = m' w) -> Persisting m' -> Persisting m.
Proof.
  intros A m m' Heq H w. rewrite Heq. apply H.
Qed.

Ltac quiet :=
  let w := fresh "w" in
  intros w; unfold bind, currentTodos, tick, liftR, ret, throw; cbn [fst snd];
  repeat match goal with
    | |- context [match ?r with Ret _ => _ | Throw _ => _ end] => destruct r
    | |- context [match ?r with Some _ => _ | None => _ end] => destruct r
    end;
  cbn [fst snd]; repeat split.

Ltac same_call :=
  let w := fresh "w" in
  intros w; unfold tryCatch, bind, currentTodos, tick, liftR, ret, throw; cbn [fst snd];
  repeat match goal with
    | |- context [match ?r with Ret _ => _ | Throw _ => _ end] => destruct r
    | |- context [match ?r with Some _ => _ | None => _ end] => destruct r
    end;
  reflexivity.

Lemma addTodo_persisting : forall title description date,
    Persisting (@addTodo host title description date).
Proof.
  intros title description date.
  apply persisting_ext with
    (m' := tryCatch
             (bind (bind (@currentTodos host) (fun current =>
                    bind (@tick host) (fun n =>
                    let date := match date with Some d => d | None => today host n end in
                    bind (liftR (createTodo (generateTodoId host n) (toISOString host n)
                                   title description date)) (fun newTodo =>
                    bind (liftR (addTodoToCollection current newTodo)) (fun updatedTodos =>
                    ret (newTodo, updatedTodos))))))
                (fun x => bind (setTodos (snd x)) (fun _ => ret (fst x))))
             (rethrow "Failed to add todo")).
  - unfold addTodo. same_call.
  - apply persisting_step. quiet.
Qed.

Lemma updateTodoById_persisting : forall todoId updates,
    Persisting (@updateTodoById host todoId updates).
Proof.
  intros todoId updates.
  apply persisting_ext with
    (m' := tryCatch
             (bind (bind (@currentTodos host) (fun current =>
                    bind (@tick host) (fun n =>
                    liftR (updateTodoInCollection (toISOString host n)
                             current todoId updates))))
                (fun x => bind (setTodos x)
                            (fun _ => ret (find (hasId (JStr todoId)) (getAllTodos x)))))
             (rethrow "Failed to update todo")).
  - unfold updateTodoById. same_call.
  - apply persisting_step. quiet.
Qed.

Lemma deleteTodo_persisting : forall todoId,
    Persisting (@deleteTodo host todoId).
Proof.
  intros todoId.
  apply persisting_ext with
    (m' := tryCatch
             (bind (bind (@currentTodos host) (fun current =>
                    liftR (removeTodoFromCollection current todoId)))
                (fun x => bind (setTodos x) (fun _ => ret true)))
             (rethrow "Failed to delete todo")).
  - unfold deleteTodo. same_call.
  - apply persisting_step. quiet.
Qed.

Lemma toggleTodoCompleteById_persisting : forall todoId,
    Persisting (@toggleTodoCompleteById host todoId).
Proof.
  intros todoId.
  apply persisting_ext with
    (m' := tryCatch
             (bind (bind (@currentTodos host) (fun current =>
                    match find (hasId (JStr todoId)) (getAllTodos current) with
                    | None => throw (Error ("Todo with id " ++ todoId ++ " not found"))
                    | Some currentTodo =>
                        bind (@tick host) (fun n =>
                        bind (liftR (toggleTodoComplete (toISOString host n) currentTodo))
                          (fun toggledTodo =>
                        bind (@tick host) (fun n' =>
                        bind (liftR (updateTodoInCollection (toISOString host n') current
                                       todoId
                                       {| upd_title := undef; upd_description := undef;
                                          upd_completed := VPrim (get toggledTodo "completed");
                                          upd_date := undef |}))
                          (fun updatedTodos => ret (toggledTodo, updatedTodos)))))
                    end))
                (fun x => bind (setTodos (snd x)) (fun _ => ret (fst x))))
             (rethrow "Failed to toggle todo completion")).
  - unfold toggleTodoCompleteById. same_call.
  - apply persisting_step. quiet.
Qed.

Lemma clearAllTodos_persisting : Persisting (@clearAllTodos host).
Proof.
  apply persisting_ext with
    (m' := tryCatch
             (bind (ret tt) (fun x : unit => bind (setTodos []) (fun _ => ret true)))
             (rethrow "Failed to clear todos")).
  - unfold clearAllTodos. same_call.
  - apply (@persisting_step host bool unit (ret tt) "Failed to clear todos"
             (fun _ : unit => @nil (string * list Obj)) (fun _ => true)).
    quiet.
Qed.

Lemma clearTodosForDate_persisting : forall date,
    Persisting (@clearTodosForDate host date).
Proof.
  intros date.
  apply persisting_ext with
    (m' := tryCatch
             (bind (@currentTodos host)
                (fun x => bind (setTodos (delete (dayKeyOf date) x)) (fun _ => ret true)))
             (rethrow "Failed to clear todos for date")).
  - unfold clearTodosForDate. same_call.
  - apply persisting_step. quiet.
Qed.

Lemma bulkUpdateTodos_persisting : forall todoIds updates,
    Persisting (@bulkUpdateTodos host todoIds updates).
Proof.
  intros todoIds updates.
  apply persisting_ext with
    (m' := tryCatch
             (bind (bind (@currentTodos host) (fun current =>
                    bulkUpdateLoop todoIds updates current []))
                (fun x => bind (setTodos (fst x)) (fun _ => ret (snd x))))
             (rethrow "Failed to bulk update todos")).
  - unfold bulkUpdateTodos. intros w.
    unfold tryCatch, bind, currentTodos. cbn [fst snd].
    destruct (bulkUpdateLoop todoIds updates (storedValue w) [] w) as [[x|e] w1];
      reflexivity.
  - apply persisting_step. intros w. unfold bind, currentTodos.
    pose proof (bulkUpdateLoop_spec todoIds updates (storedValue w) [] w) as [Hvis _].
    destruct (bulkUpdateLoop todoIds updates (storedValue w) [] w) as [[x|e] w1];
      exact Hvis.
Qed.

Lemma bulkDeleteTodos_persisting : forall todoIds,
    Persisting (@bulkDeleteTodos host todoIds).
Proof.
  intros todoIds.
  apply persisting_ext with
    (m' := tryCatch
             (bind (bind (@currentTodos host) (fun current => bulkDeleteLoop todoIds current))
                (fun x => bind (setTodos x) (fun _ => ret true)))
             (rethrow "Failed to bulk delete todos")).
  - unfold bulkDeleteTodos. intros w.
    unfold tryCatch, bind, currentTodos. cbn [fst snd].
    destruct (bulkDeleteLoop todoIds (storedValue w) w) as [[x|e] w1]; reflexivity.
  - apply persisting_step. intros w. unfold bind, currentTodos.
    pose proof (bulkDeleteLoop_visible todoIds (storedValue w) w) as Hvis.
    destruct (bulkDeleteLoop todoIds (storedValue w) w) as [[x|e] w1]; exact Hvis.
Qed.

Lemma void_persisting : forall (A : Type) (m : M host A),
    Persisting m -> Persisting (void m).
Proof.
  intros A m H w. unfold void.
  destruct (H w) as [[Hvis [msg Hm]] | (v & w1 & a & Hvis & Hs & Hf)];
    destruct (m w) as [[a'|e] w']; cbn [fst snd] in *; try discriminate.
  - left. split; [exact Hvis|]. exists msg. inversion Hm; subst. reflexivity.
  - right. exists v, w1, tt. auto.
Qed.

Lemma perform_persisting : forall call : Call, Persisting (@perform host call).
Proof.
  intros [title description date | todoId updates | todoId | todoId | | date
         | todoIds updates | todoIds]; cbn [perform]; apply void_persisting.
  - apply addTodo_persisting.
  - apply updateTodoById_persisting.
  - apply deleteTodo_persisting.
  - apply toggleTodoCompleteById_persisting.
  - apply clearAllTodos_persisting.
  - apply clearTodosForDate_persisting.
  - apply bulkUpdateTodos_persisting.
  - apply bulkDeleteTodos_persisting.
Qed.
End CallFacts.

(** What a mutating call does with the write, in a browser.  Either it
    throws before writing, and the visible state is as it was; or it
    returns normally after [setValue] was given a collection [v].  When
    the storage took the string of [v], [v] is the visible collection and
    the storage is the one [setItem] returned; when it refused it, the
    collection and the storage are as before and the failure is recorded,
    as a [StorageError] of the operation [setItem:todos], in the status of
    the hook: it is not thrown. *)
Lemma failed_write_keeps_visible_state :
  forall (host : Host) (w : World host) (call : Call),
    hasWindow host = true ->
    let r := perform call w in
    (sameVisible w (snd r) /\ exists msg, fst r = Throw (Error msg))
    \/ exists v,
         fst r = Ret tt
         /\ match setItem host (localStorage w) "todos" (stringify host v) with
            | Ret st => storedValue (snd r) = v /\ localStorage (snd r) = st
            | Throw e =>
                storedValue (snd r) = storedValue w
                /\ localStorage (snd r) = localStorage w
                /\ exists msg, status (snd r) = failedWrite msg "todos"
            end.
Proof.
  intros host w call Hwin r. subst r.
  destruct (perform_persisting call w)
    as [H | (v & w1 & a & (Hv & Hs & Hl) & Hsnd & Hfst)]; [now left|].
  right. exists v. destruct a. split; [exact Hfst|].
  unfold setTodos in Hsnd. rewrite setValue_spec, Hwin, Hl in Hsnd.
  destruct (setItem host (localStorage w) "todos" (stringify host v)) as [st|e];
    rewrite Hsnd; cbn [snd storedValue localStorage status]; eauto.
Qed.

Lemma failed_write_keeps_visible_state_witness :
  let r := perform (CallDeleteTodo "test-id-1") (mounted fullStorage tt) in
  fst r = Ret tt
  /\ storedValue (snd r) = todosCollection
  /\ localStorage (snd r) = tt
  /\ exists msg, status (snd r) = failedWrite msg "todos".
Proof.
  destruct (failed_write_keeps_visible_state (host := fullStorage)
              (mounted fullStorage tt) (CallDeleteTodo "test-id-1") eq_refl)
    as [[_ [msg H]] | (v & Hret & Hv & Hl & Hs)].
  - discriminate H.
  - auto.
Defined.

(** C3.  The code at an input where it departs from what is asked of it:
    the hook mounted on [todosCollection] in a browser whose storage is
    full.  [deleteTodo] computes the collection without the todo, and the
    storage refuses the string of that collection.  The visible collection
    and the storage are as they were, and the [StorageError] of the
    operation [setItem:todos] is in the status of the hook; but the call
    returns [true] to its caller, where its documentation has [true] mean
    that the deletion was successful and its [catch] has a failure
    rethrown: nothing is raised. *)
Theorem deleteTodo_resolves_after_failed_write :
  let w := mounted fullStorage tt in
  let next := [("2024-01-16", [anotherTodo])] in
  removeTodoFromCollection (storedValue w) "test-id-1" = Ret next
  /\ setItem fullStorage (localStorage w) "todos" (stringify fullStorage next)
     = Throw (Error "QuotaExceededError")
  /\ deleteTodo "test-id-1" w
     = (Ret true,
        {| storedValue := todosCollection;
           status := failedWrite "QuotaExceededError" "todos";
           localStorage := tt : Storage fullStorage;
           instant := 0 |})
  /\ ~ raisesStorageError (fst (deleteTodo "test-id-1" w)).
Proof.
  split; [reflexivity|]. split; [reflexivity|]. split; [reflexivity|].
  intros (m & op & H). discriminate H.
Qed.

(* ------------------------------------------------------------------ *)
(** ** Bulk update *)

Lemma keys_assign : forall (V : Type) (c : list (string * V)) k v,
    keys (assign k v c) = if hasOwn k c then keys c else keys c ++ [k].
Proof.
  intros V c k v. unfold hasOwn, keys.
  induction c as [|[k0 v0] c IH]; cbn; auto.
  destruct (String.eqb k0 k) eqn:E; cbn; auto.
  rewrite IH. destruct (lookup k c); reflexivity.
Qed.

Lemma NoDup_keys_assign : forall (V : Type) (c : list (string * V)) k v,
    NoDup (keys c) -> NoDup (keys (assign k v c)).
Proof.
  intros V c k v Hnd. rewrite keys_assign.
  destruct (hasOwn k c) eqn:E; auto.
  apply hasOwn_false in E. apply lookup_None_notin in E.
  apply NoDup_app; auto.
  - repeat constructor. intros [].
  - intros x Hin [Hx|[]]. subst. auto.
Qed.

Lemma NoDup_keys_delete : forall (V : Type) (c : list (string * V)) k,
    NoDup (keys c) -> NoDup (keys (delete k c)).
Proof.
  intros V c k Hnd. rewrite keys_delete. now apply NoDup_filter.
Qed.

Lemma NoDup_keys_moved : forall todoId k items u (c : Collection),
    NoDup (keys c) -> NoDup (keys (moved todoId k items u c)).
Proof.
  intros todoId k items u c Hnd. unfold moved. cbv zeta.
  assert (NoDup (keys (prune todoId k items c))) as Hp.
  { unfold prune. destruct (List.length (without todoId items) =? 0).
    - now apply NoDup_keys_delete.
    - now apply NoDup_keys_assign. }
  destruct (hasOwn (toString (get u "dateKey")) (prune todoId k items c)) eqn:E.
  - now apply NoDup_keys_assign.
  - apply NoDup_keys_create; [exact Hp | now apply hasOwn_false].
Qed.

Lemma present_cnt : forall todoId (c : Collection),
    present todoId c = negb (cnt (hasId (JStr todoId)) c =? 0).
Proof.
  intros todoId c. unfold present, cnt.
  induction (getAllTodos c) as [|t l IH]; cbn; auto.
  destruct (hasId (JStr todoId) t); cbn; auto.
Qed.

Lemma hasId_unique : forall x y (t : Obj),
    hasId (JStr x) t = true -> hasId (JStr y) t = true -> x = y.
Proof.
  intros x y t. unfold hasId.
  destruct (get t "id") as [ | | b | [z|] | s]; cbn; try discriminate.
  intros Hx Hy. apply String.eqb_eq in Hx, Hy. congruence.
Qed.

Lemma filter_other_without : forall x y (items : list Obj),
    x <> y ->
    filter (hasId (JStr x)) (without y items) = filter (hasId (JStr x)) items.
Proof.
  intros x y items Hne. unfold without.
  induction items as [|t items IH]; cbn; auto.
  destruct (hasId (JStr y) t) eqn:Ey; cbn.
  - destruct (hasId (JStr x) t) eqn:Ex; auto.
    exfalso. apply Hne. eapply hasId_unique; eauto.
  - now rewrite IH.
Qed.

(** An update that succeeds keeps the keys distinct and the ids present. *)
Lemma updateTodoInCollection_keeps : forall now (c c' : Collection) todoId updates,
    NoDup (keys c) ->
    updateTodoInCollection now c todoId updates = Ret c' ->
    NoDup (keys c') /\ forall x, present x c' = present x c.
Proof.
  intros now c c' y updates Hnd. rewrite updateTodoInCollection_spec.
  destruct (locateDay y c) as [[k items]|] eqn:Hday; [|discriminate].
  destruct (locateDay_found _ _ Hday) as [_ (e & Hfind & Hide)].
  rewrite Hfind.
  destruct (updateTodo now (VObj e) updates) as [u|] eqn:Hupd; [|discriminate].
  destruct (notIterable _ _); [discriminate|].
  intros H. inversion H; subst c'. clear H.
  split; [now apply NoDup_keys_moved|].
  destruct (locateDay_bucket _ _ Hnd Hday) as [Hl Hb].
  destruct (updateTodo_Ret_fields _ _ _ Hupd) as [Hsame _].
  assert (hasId (JStr y) u = true) as Hidu.
  { unfold hasId in *. now rewrite Hsame. }
  intros x. rewrite !present_cnt. f_equal.
  set (c1 := prune y k items c).
  pose proof (@cnt_moved (hasId (JStr x)) y k items u c) as Ha. fold c1 in Ha.
  pose proof (@cnt_prune (hasId (JStr x)) y k items c Hnd Hb) as Hp. fold c1 in Hp.
  destruct (String.eqb x y) eqn:Exy.
  - apply String.eqb_eq in Exy. subst x.
    cbn [filter] in Ha. rewrite Hidu in Ha. cbn [List.length] in Ha.
    pose proof (@find_count_pos _ (hasId (JStr y)) items e Hfind) as Hpos.
    pose proof (@lookup_count_le (hasId (JStr y)) c k items Hl) as Hle.
    assert (cnt (hasId (JStr y)) c <> 0) as H1 by lia.
    assert (cnt (hasId (JStr y)) (moved y k items u c) <> 0) as H2 by lia.
    apply Nat.eqb_neq in H1, H2. now rewrite H1, H2.
  - apply String.eqb_neq in Exy.
    rewrite (filter_other_without items Exy) in Hp.
    assert (hasId (JStr x) u = false) as Hxu.
    { destruct (hasId (JStr x) u) eqn:E; auto.
      exfalso. apply Exy. eapply hasId_unique; eauto. }
    cbn [filter] in Ha. rewrite Hxu in Ha. cbn [List.length] in Ha.
    f_equal. lia.
Qed.

Lemma updateTodoInCollection_absent : forall now (c : Collection) todoId updates,
    present todoId c = false ->
    updateTodoInCollection now c todoId updates = Throw (notFound todoId).
Proof.
  intros now c todoId updates H. rewrite updateTodoInCollection_spec.
  apply locateDay_None in H. now rewrite H.
Qed.

Lemma firstMissing_ext : forall (c c' : Collection) todoIds,
    (forall x, present x c' = present x c) ->
    firstMissing c' todoIds = firstMissing c todoIds.
Proof.
  intros c c' todoIds H. induction todoIds as [|y rest IH]; cbn; auto.
  now rewrite H, IH.
Qed.

Lemma applyUpdates_firstMissing :
  forall clock todoIds updates n (c : Collection) before missing,
    NoDup (keys c) ->
    firstMissing c todoIds = Some (before, missing) ->
    exists e,
      applyUpdates clock n c todoIds updates = Throw e
      /\ match applyUpdates clock n c before updates with
         | Ret _ => e = notFound missing
         | Throw e' => e = e'
         end.
Proof.
  intros clock todoIds updates.
  induction todoIds as [|y rest IH]; intros n c before missing Hnd Hfm;
    cbn [firstMissing] in Hfm; [discriminate|].
  destruct (present y c) eqn:Hy.
  - destruct (firstMissing c rest) as [[b m]|] eqn:Hrest; [|discriminate].
    inversion Hfm; subst before missing. clear Hfm.
    cbn [applyUpdates].
    destruct (updateTodoInCollection (clock n) c y updates) as [c'|e] eqn:Hupd.
    + destruct (@updateTodoInCollection_keeps (clock n) c c' y updates Hnd Hupd)
        as [Hnd' Hpres].
      apply (IH (S n) c' b m Hnd').
      now rewrite (@firstMissing_ext c c' rest Hpres).
    + exists e. auto.
  - inversion Hfm; subst before missing. clear Hfm.
    cbn [applyUpdates]. rewrite updateTodoInCollection_absent by exact Hy.
    exists (notFound y). auto.
Qed.

(** C4, as the code has it.  On a collection with distinct keys,
    [bulkUpdateTodos] is [updateTodoInCollection] applied to each id in
    turn: when every update succeeds, the collection obtained is handed to
    [setTodos]; when one throws, the call is rejected with that error under
    the prefix of the call, the visible collection, status and storage being
    untouched.  When some id is not in the collection the call is rejected:
    with the not-found error of the first such id when the updates of the
    ids before it succeed, and otherwise with the error of the first of
    those updates that fails. *)
Theorem bulkUpdateTodos_all_or_nothing :
  forall (host : Host) (w : World host) (todoIds : list string) (updates : Updates),
    distinctKeys (storedValue w) = true ->
    let r := bulkUpdateTodos todoIds updates w in
    let sequential := applyUpdates (toISOString host) (instant w) (storedValue w) in
    match sequential todoIds updates with
    | Ret v' =>
        (exists l, fst r = Ret l)
        /\ exists w1, sameVisible w w1 /\ snd r = snd (setTodos v' w1)
    | Throw e =>
        fst r = Throw (Error ("Failed to bulk update todos: " ++ message e))
        /\ sameVisible w (snd r)
    end
    /\ match firstMissing (storedValue w) todoIds with
       | None => present_all (storedValue w) todoIds = true
       | Some (before, missing) =>
           exists e,
             sequential todoIds updates = Throw e
             /\ match sequential before updates with
                | Ret _ => e = notFound missing
                | Throw e' => e = e'
                end
       end.
Proof.
  intros host w todoIds updates Hdistinct r sequential. subst r sequential. split.
  - pose proof (bulkUpdateLoop_spec todoIds updates (storedValue w) [] w) as [Hvis Hres].
    unfold bulkUpdateTodos, tryCatch, bind, currentTodos. cbn [fst snd].
    destruct (applyUpdates (toISOString host) (instant w) (storedValue w) todoIds updates)
      as [v'|e].
    + destruct Hres as [l' Hl'].
      destruct (bulkUpdateLoop todoIds updates (storedValue w) [] w) as [[x|e] w1];
        cbn [fst snd] in *; [|discriminate Hl'].
      inversion Hl'; subst x. cbn [fst snd].
      destruct (setValue_returns "todos" v' w1) as [b Hb]. unfold setTodos in *.
      destruct (setValue "todos" (NewValue v') w1) as [[b'|e'] w2] eqn:Eset;
        cbn [fst] in Hb; [|discriminate Hb].
      unfold ret. cbn [fst snd]. split; [eauto|]. exists w1.
      split; [exact Hvis | now rewrite Eset].
    + destruct (bulkUpdateLoop todoIds updates (storedValue w) [] w) as [[x|e0] w1];
        cbn [fst snd] in *; [discriminate Hres|].
      inversion Hres; subst e0. unfold rethrow, throw. cbn [fst snd]. auto.
  - destruct (firstMissing (storedValue w) todoIds) as [[before missing]|] eqn:Hfm.
    + apply applyUpdates_firstMissing; auto. now apply distinct_NoDup.
    + clear -Hfm. induction todoIds as [|y rest IH]; cbn in *; auto.
      destruct (present y (storedValue w)); [|discriminate].
      destruct (firstMissing (storedValue w) rest) as [[b m]|]; [discriminate|].
      now apply IH.
Qed.

Lemma bulkUpdateTodos_all_or_nothing_witness :
  let w := mounted workingStorage "{...}" in
  let r := bulkUpdateTodos ["test-id-1"; "missing"; "test-id-2"] markDone w in
  (fst r = Throw (Error "Failed to bulk update todos: Todo with id missing not found")
   /\ sameVisible w (snd r))
  /\ exists e,
       applyUpdates (toISOString workingStorage) 0 todosCollection
         ["test-id-1"; "missing"; "test-id-2"] markDone = Throw e
       /\ e = notFound "missing".
Proof.
  exact (bulkUpdateTodos_all_or_nothing (host := workingStorage)
           (mounted workingStorage "{...}") ["test-id-1"; "missing"; "test-id-2"] markDone
           eq_refl).
Defined.

(** C4, as the claim has it, fails: with a title that is empty the update
    of the first id throws, and the call is rejected with that error, not
    with the not-found error of the id that is missing. *)
Lemma bulkUpdateTodos_rejects_with_earlier_error :
  let w := mounted workingStorage "{...}" in
  let r := bulkUpdateTodos ["test-id-1"; "missing"] emptyTitle w in
  present "missing" (storedValue w) = false
  /\ fst r = Throw (Error "Failed to bulk update todos: Todo title must be a non-empty string")
  /\ ~ failsWithNotFound (fst r)
  /\ sameVisible w (snd r).
Proof.
  cbv zeta. split; [reflexivity|]. split; [reflexivity|]. split.
  - intros [todoId H]. cbn in H. discriminate H.
  - repeat split.
Qed.

(* ================================================================== *)
(** * Further properties *)

(* ------------------------------------------------------------------ *)
(** ** The shape of day keys *)

Lemma in_range_nat : forall lo width (z : Z),
    (lo <= z < lo + width)%Z ->
    exists i, In i (seq 0 (Z.to_nat width)) /\ z = (lo + Z.of_nat i)%Z.
Proof.
  intros lo width z H. exists (Z.to_nat (z - lo)). split.
  - apply in_seq. lia.
  - lia.
Qed.

Lemma yearString_four_digits : forall y : Z,
    (1000 <= y <= 9999)%Z -> digitString 4 (yearString y) = true.
Proof.
  assert (forallb (fun i => digitString 4 (yearString (1000 + Z.of_nat i))) (seq 0 (Z.to_nat 9000))
          = true) as Hall by (vm_compute; reflexivity).
  intros y Hy.
  destruct (@in_range_nat 1000%Z 9000%Z y) as (i & Hin & ->); [lia|].
  exact (proj1 (forallb_forall _ _) Hall i Hin).
Qed.

Lemma yearString_short : forall y : Z,
    (0 <= y <= 999)%Z -> (String.length (yearString y) <? 4) = true.
Proof.
  assert (forallb (fun i => String.length (yearString (0 + Z.of_nat i)) <? 4) (seq 0 (Z.to_nat 1000))
          = true) as Hall by (vm_compute; reflexivity).
  intros y Hy.
  destruct (@in_range_nat 0%Z 1000%Z y) as (i & Hin & ->); [lia|].
  exact (proj1 (forallb_forall _ _) Hall i Hin).
Qed.

Lemma monthString_two_digits : forall m : Z,
    (0 <= m <= 11)%Z -> digitString 2 (monthString m) = true.
Proof.
  assert (forallb (fun i => digitString 2 (monthString (0 + Z.of_nat i))) (seq 0 (Z.to_nat 12))
          = true) as Hall by (vm_compute; reflexivity).
  intros m Hm.
  destruct (@in_range_nat 0%Z 12%Z m) as (i & Hin & ->); [lia|].
  exact (proj1 (forallb_forall _ _) Hall i Hin).
Qed.

Lemma dayString_two_digits : forall d : Z,
    (1 <= d <= 31)%Z -> digitString 2 (dayString d) = true.
Proof.
  assert (forallb (fun i => digitString 2 (dayString (1 + Z.of_nat i))) (seq 0 (Z.to_nat 31))
          = true) as Hall by (vm_compute; reflexivity).
  intros d Hd.
  destruct (@in_range_nat 1%Z 31%Z d) as (i & Hin & ->); [lia|].
  exact (proj1 (forallb_forall _ _) Hall i Hin).
Qed.

Lemma formatDateKey_parts : forall y m d,
    formatDateKey (MkDate y m d)
    = (yearString y ++ "-" ++ monthString m ++ "-" ++ dayString d)%string.
Proof. reflexivity. Qed.

Lemma length_append : forall a b : string,
    String.length (a ++ b) = String.length a + String.length b.
Proof.
  induction a as [|c a IH]; intros b; cbn; auto.
Qed.

Lemma isDateKeyFormat_length : forall s : string,
    isDateKeyFormat s = true -> String.length s = 10.
Proof.
  intros s. unfold isDateKeyFormat.
  do 11 (destruct s as [|? s]; cbn; try discriminate). reflexivity.
Qed.

Lemma digitString_2 : forall s : string,
    digitString 2 s = true ->
    exists a b, s = String a (String b "") /\ isDigit a = true /\ isDigit b = true.
Proof.
  intros s. unfold digitString.
  do 3 (destruct s as [|? s]; cbn; try discriminate).
  intros H. apply andb_true_iff in H. destruct H as [Ha H].
  apply andb_true_iff in H. destruct H as [Hb _]. eauto.
Qed.

Lemma digitString_4 : forall s : string,
    digitString 4 s = true ->
    exists a b c d,
      s = String a (String b (String c (String d "")))
      /\ isDigit a = true /\ isDigit b = true /\ isDigit c = true /\ isDigit d = true.
Proof.
  intros s. unfold digitString.
  do 5 (destruct s as [|? s]; cbn; try discriminate).
  intros H. repeat (apply andb_true_iff in H; destruct H as [? H]).
  do 4 eexists. repeat split; eauto.
Qed.

Lemma isDateKeyFormat_formatDateKey : forall date : Date,
    calendarDay date = true ->
    (fourDigitYear date || yearBelow1000 date) = true ->
    isDateKeyFormat (formatDateKey date) = fourDigitYear date.
Proof.
  intros [y m d|]; [|discriminate].
  unfold calendarDay, fourDigitYear, yearBelow1000. intros Hcal Hyear.
  assert ((0 <= m <= 11)%Z /\ (1 <= d <= 31)%Z) as [Hm Hd].
  { rewrite !andb_true_iff, !Z.leb_le in Hcal. lia. }
  rewrite formatDateKey_parts.
  destruct (digitString_2 _ (monthString_two_digits Hm)) as (m1 & m2 & Hms & Hm1 & Hm2).
  destruct (digitString_2 _ (dayString_two_digits Hd)) as (d1 & d2 & Hds & Hd1 & Hd2).
  rewrite Hms, Hds.
  destruct ((1000 <=? y)%Z && (y <=? 9999)%Z) eqn:Hfour.
  - assert (1000 <= y <= 9999)%Z as Hy.
    { rewrite !andb_true_iff, !Z.leb_le in Hfour. lia. }
    destruct (digitString_4 _ (yearString_four_digits Hy))
      as (a & b & c & e & Hys & Ha & Hb & Hc & He).
    rewrite Hys. cbn. unfold isDateKeyFormat. cbn.
    now rewrite Ha, Hb, Hc, He, Hm1, Hm2, Hd1, Hd2.
  - assert (0 <= y <= 999)%Z as Hy.
    { cbn [orb] in Hyear. rewrite !andb_true_iff, !Z.leb_le in Hyear. lia. }
    pose proof (yearString_short Hy) as Hshort. apply Nat.ltb_lt in Hshort.
    remember (yearString y) as ys.
    destruct (isDateKeyFormat _) eqn:E; auto.
    apply isDateKeyFormat_length in E. rewrite length_append in E. cbn in E. lia.
Qed.

(** X1.  For a date whose month is 0..11 and whose day is 1..31,
    [formatDateKey] gives a key of the form the validator asks for
    (four digits, dash, two digits, dash, two digits) when the year has four
    digits, and a key that is not of that form when the year is from 0 to
    999, the year being printed without padding. *)
Theorem formatDateKey_canonical : forall date : Date,
    calendarDay date = true ->
    (fourDigitYear date || yearBelow1000 date) = true ->
    isDateKeyFormat (formatDateKey date) = fourDigitYear date.
Proof. exact isDateKeyFormat_formatDateKey. Qed.

Lemma formatDateKey_canonical_witness :
  isDateKeyFormat (formatDateKey (MkDate 999 11 31)) = false.
Proof.
  exact (formatDateKey_canonical (MkDate 999 11 31) eq_refl eq_refl).
Defined.

(* ------------------------------------------------------------------ *)
(** ** Creating a todo *)

Lemma trimStart_fixed : forall (c : ascii) (s : string),
    isWhiteSpace c = false -> trimStart (String c s) = String c s.
Proof. intros c s H. cbn. now rewrite H. Qed.

Lemma trimStart_head : forall s : string,
    trimStart s = "" \/ exists c t, trimStart s = String c t /\ isWhiteSpace c = false.
Proof.
  induction s as [|c s IH]; cbn; auto.
  destruct (isWhiteSpace c) eqn:E; auto. right. eauto.
Qed.

Lemma trimEnd_idempotent : forall s : string, trimEnd (trimEnd s) = trimEnd s.
Proof.
  induction s as [|c s IH]; cbn; auto.
  destruct (trimEnd s) as [|c' t] eqn:E.
  - destruct (isWhiteSpace c) eqn:Ec; cbn; auto. now rewrite Ec.
  - cbn [trimEnd]. cbn [trimEnd] in IH. rewrite IH. reflexivity.
Qed.

Lemma trimEnd_head : forall (c : ascii) (s : string),
    isWhiteSpace c = false -> exists t, trimEnd (String c s) = String c t.
Proof.
  intros c s H. cbn. destruct (trimEnd s); [rewrite H|]; eauto.
Qed.

Lemma trim_idempotent : forall s : string, trim (trim s) = trim s.
Proof.
  intros s. unfold trim.
  destruct (trimStart_head s) as [E | (c & t & E & Hc)]; rewrite E.
  - reflexivity.
  - destruct (@trimEnd_head c t Hc) as [t' Ht']. rewrite Ht'.
    rewrite (@trimStart_fixed c t' Hc), <- Ht'. apply trimEnd_idempotent.
Qed.

Lemma titleAccepted_inv : forall title : Value,
    titleAccepted title = true ->
    exists s, title = VPrim (JStr s) /\ (String.length (trim s) =? 0) = false.
Proof.
  intros [[ | | | | s] | | ]; cbn; try discriminate.
  intros H. apply negb_true_iff in H. eauto.
Qed.

Lemma createTodo_accepted : forall id now title description date,
    titleAccepted title = true ->
    createTodo id now title description date =
    Ret [ ("id", JStr id);
          ("title", JStr (trim (strOf title)));
          ("description", JStr (trim description));
          ("completed", JBool false);
          ("dateKey", JStr (formatDateKey date));
          ("createdAt", JStr now);
          ("updatedAt", JStr now) ].
Proof.
  intros id now title description date H.
  destruct (@titleAccepted_inv _ H) as (s & -> & Hs).
  unfold createTodo. cbn [truthy truthyPrim typeof typeofPrim JsType_eqb strOf strOfPrim].
  rewrite Hs.
  destruct s as [|c s]; [discriminate Hs|]. reflexivity.
Qed.

Lemma createTodo_refused : forall id now title description date,
    titleAccepted title = false ->
    createTodo id now title description date =
    Throw (Error "Todo title is required and must be a non-empty string").
Proof.
  intros id now title description date H. unfold createTodo.
  destruct title as [[ | | [] | [z|] | s] | d | o];
    cbn -[trim] in *; try reflexivity; try discriminate.
  - destruct (Z.eqb z 0); reflexivity.
  - apply negb_false_iff in H. rewrite H. now rewrite orb_true_r.
Qed.

Lemma validateTodo_created : forall id now title description date,
    titleAccepted title = true ->
    id <> "" ->
    validateTodo
      (VObj [ ("id", JStr id);
              ("title", JStr (trim (strOf title)));
              ("description", JStr (trim description));
              ("completed", JBool false);
              ("dateKey", JStr (formatDateKey date));
              ("createdAt", JStr now);
              ("updatedAt", JStr now) ])
    = if isDateKeyFormat (formatDateKey date) then Ret true
      else Throw (Error "Todo dateKey must be in YYYY-MM-DD format").
Proof.
  intros id now title description date H Hid.
  destruct (@titleAccepted_inv _ H) as (s & -> & Hs).
  unfold validateTodo.
  cbn -[trim formatDateKey isDateKeyFormat].
  destruct id as [|c id]; [congruence|]. cbn -[trim formatDateKey isDateKeyFormat].
  rewrite trim_idempotent, Hs. cbn -[trim formatDateKey isDateKeyFormat].
  destruct (isDateKeyFormat (formatDateKey date)); reflexivity.
Qed.

(** X2.  A todo created with a title that is a string with something other
    than white space in it, a non-empty id and a calendar day whose year has
    four digits is a valid todo, with the title and the description
    trimmed, not completed, created and updated at the same instant; it can
    be added to any collection whose array for that day does not hold its
    id, and it then comes last in that array. *)
Theorem createTodo_then_add : forall id now title description date,
    titleAccepted title = true ->
    id <> "" ->
    calendarDay date = true ->
    fourDigitYear date = true ->
    exists todo,
      createTodo id now title description date = Ret todo
      /\ validateTodo (VObj todo) = Ret true
      /\ get todo "title" = JStr (trim (strOf title))
      /\ get todo "description" = JStr (trim description)
      /\ get todo "completed" = JBool false
      /\ get todo "createdAt" = get todo "updatedAt"
      /\ forall c : Collection,
           existsb (hasId (JStr id)) (bucket c (formatDateKey date)) = false ->
           addTodoToCollection c todo
           = Ret (assign (formatDateKey date) (bucket c (formatDateKey date) ++ [todo]) c).
Proof.
  intros id now title description date Ht Hid Hcal Hyear.
  eexists. split; [now apply createTodo_accepted|].
  assert (isDateKeyFormat (formatDateKey date) = true) as Hfmt.
  { rewrite isDateKeyFormat_formatDateKey; auto. now rewrite Hyear. }
  assert (Hvalid := @validateTodo_created id now title description date Ht Hid).
  rewrite Hfmt in Hvalid.
  split; [exact Hvalid|]. repeat split; try reflexivity.
  intros c Hfresh. rewrite addTodoToCollection_spec, Hvalid.
  cbn -[formatDateKey trim bucket assign]. now rewrite Hfresh.
Qed.

Lemma createTodo_then_add_witness :
  exists todo,
    createTodo "todo_1705320000000_abc123xyz" "2024-01-15T12:00:00.000Z"
      (VPrim (JStr "  Pay rent  ")) "" (MkDate 2024 0 5) = Ret todo
    /\ validateTodo (VObj todo) = Ret true
    /\ get todo "title" = JStr "Pay rent"
    /\ get todo "description" = JStr ""
    /\ get todo "completed" = JBool false
    /\ get todo "createdAt" = get todo "updatedAt"
    /\ forall c : Collection,
         existsb (hasId (JStr "todo_1705320000000_abc123xyz")) (bucket c "2024-01-05")
         = false ->
         addTodoToCollection c todo
         = Ret (assign "2024-01-05" (bucket c "2024-01-05" ++ [todo]) c).
Proof.
  refine (@createTodo_then_add "todo_1705320000000_abc123xyz" "2024-01-15T12:00:00.000Z"
            (VPrim (JStr "  Pay rent  ")) "" (MkDate 2024 0 5) eq_refl _ eq_refl eq_refl).
  discriminate.
Defined.

(** X3.  A todo created for a calendar day of a year from 0 to 999 is
    created, but no collection accepts it: its day key has fewer than four
    digits for the year, and [addTodoToCollection] throws the error of the
    day key format. *)
Theorem createTodo_early_year_not_added : forall id now title description date,
    titleAccepted title = true ->
    id <> "" ->
    calendarDay date = true ->
    yearBelow1000 date = true ->
    exists todo,
      createTodo id now title description date = Ret todo
      /\ forall c : Collection,
           addTodoToCollection c todo
           = Throw (Error "Todo dateKey must be in YYYY-MM-DD format").
Proof.
  intros id now title description date Ht Hid Hcal Hyear.
  eexists. split; [now apply createTodo_accepted|].
  assert (isDateKeyFormat (formatDateKey date) = false) as Hfmt.
  { rewrite isDateKeyFormat_formatDateKey; auto.
    - destruct date as [y m d|]; [|discriminate]. cbn in *.
      rewrite !andb_true_iff, !Z.leb_le in Hyear.
      apply andb_false_iff. left. apply Z.leb_gt. lia.
    - rewrite Hyear. apply orb_true_r. }
  assert (Hvalid := @validateTodo_created id now title description date Ht Hid).
  rewrite Hfmt in Hvalid.
  intros c. rewrite addTodoToCollection_spec, Hvalid. reflexivity.
Qed.

Lemma createTodo_early_year_not_added_witness :
  exists todo,
    createTodo "todo_1_a" "2024-01-15T12:00:00.000Z" (VPrim (JStr "Battle"))
      "" (MkDate 800 11 25) = Ret todo
    /\ forall c : Collection,
         addTodoToCollection c todo
         = Throw (Error "Todo dateKey must be in YYYY-MM-DD format").
Proof.
  refine (@createTodo_early_year_not_added "todo_1_a" "2024-01-15T12:00:00.000Z"
            (VPrim (JStr "Battle")) "" (MkDate 800 11 25) eq_refl _ eq_refl eq_refl).
  discriminate.
Defined.

(* ------------------------------------------------------------------ *)
(** ** Updating a todo: what is checked and what is written *)

Lemma updateTodo_Throw : forall now (existing : Obj) updates,
    (truthyPrim (get existing "id") && titleApplies updates && dateApplies updates) = false ->
    updateTodo now (VObj existing) updates = Throw (updateError existing updates).
Proof.
  intros now existing [ti de co da]. unfold updateTodo, updateError, titleApplies, dateApplies.
  cbn [truthy typeof ownProps JsType_eqb negb orb
       upd_title upd_date upd_completed upd_description].
  destruct (truthyPrim (get existing "id")); cbn [negb andb]; [|reflexivity].
  destruct (isUndefined ti); cbn [negb orb andb].
  - destruct (isUndefined da) eqn:Eda; cbn [negb orb bindR]; [discriminate|].
    destruct da as [pr | d | o]; cbn [bindR]; try reflexivity. discriminate.
  - destruct (JsType_eqb (typeof ti) t_string); cbn [negb orb andb]; [|reflexivity].
    destruct (String.length (trim (strOf ti)) =? 0); cbn [negb bindR]; [reflexivity|].
    destruct (isUndefined da) eqn:Eda; cbn [negb orb bindR]; [discriminate|].
    destruct da as [pr | d | o]; cbn [bindR]; try reflexivity. discriminate.
Qed.

(** X4.  An update of an object is accepted exactly when the object has a
    truthy id, the title given (if any) is a string that is not blank, and
    the date given (if any) is a [Date]; otherwise it throws the error of
    the first of these three checks that fails, in that order. *)
Theorem updateTodo_accepts_iff : forall now (existing : Obj) updates,
    match updateTodo now (VObj existing) updates with
    | Ret _ =>
        (truthyPrim (get existing "id") && titleApplies updates && dateApplies updates)
        = true
    | Throw e =>
        (truthyPrim (get existing "id") && titleApplies updates && dateApplies updates)
        = false
        /\ e = updateError existing updates
    end.
Proof.
  intros now existing updates.
  destruct (truthyPrim (get existing "id") && titleApplies updates && dateApplies updates)
    eqn:Hok.
  - apply andb_true_iff in Hok. destruct Hok as [Hok Hda].
    apply andb_true_iff in Hok. destruct Hok as [Hid Hti].
    destruct (updateTodo_outcome now existing updates Hid Hti Hda) as (u & Hu & _).
    now rewrite Hu.
  - rewrite updateTodo_Throw by exact Hok. auto.
Qed.

Lemma get_assign_if : forall (o : Obj) (b : bool) k v field,
    field <> k -> get (if b then assign k v o else o) field = get o field.
Proof.
  intros o [] k v field H; auto. now apply get_assign_other.
Qed.

Lemma hasOwn_assign : forall (o : Obj) field k v,
    hasOwn field o = true -> hasOwn field (assign k v o) = true.
Proof.
  intros o field k v H. unfold hasOwn in *.
  destruct (String.eqb field k) eqn:E.
  - apply String.eqb_eq in E. subst. now rewrite lookup_assign_same.
  - apply String.eqb_neq in E. now rewrite lookup_assign_other.
Qed.

Lemma hasOwn_assign_if : forall (o : Obj) (b : bool) field k v,
    hasOwn field o = true -> hasOwn field (if b then assign k v o else o) = true.
Proof. intros o [] field k v H; auto. now apply hasOwn_assign. Qed.

Lemma updateTodo_Ret_shape : forall now (existing : Obj) updates u,
    updateTodo now (VObj existing) updates = Ret u ->
    (forall field, hasOwn field existing = true -> hasOwn field u = true)
    /\ get u "title"
       = (if isUndefined (upd_title updates) then get existing "title"
          else JStr (trim (strOf (upd_title updates))))
    /\ (isUndefined (upd_title updates) = false ->
        (String.length (trim (strOf (upd_title updates))) =? 0) = false).
Proof.
  intros now existing [ti de co da] u H.
  destruct (updateTodo_Ret_inv _ _ _ H) as (Hid & Hti & Hda).
  unfold titleApplies, dateApplies in *.
  unfold updateTodo in H.
  cbn [truthy typeof ownProps JsType_eqb negb orb
       upd_title upd_date upd_completed upd_description] in *.
  rewrite Hid in H. cbn [negb] in H.
  assert (Htitle :
            (if negb (isUndefined ti)
             then
               if negb (JsType_eqb (typeof ti) t_string)
                  || (String.length (trim (strOf ti)) =? 0)
               then Throw (Error "Todo title must be a non-empty string")
               else Ret (assign "title" (JStr (trim (strOf ti))) existing)
             else Ret existing)
            = Ret (if negb (isUndefined ti)
                   then assign "title" (JStr (trim (strOf ti))) existing
                   else existing)).
  { destruct (isUndefined ti); cbn [negb orb] in *; [reflexivity|].
    apply andb_true_iff in Hti. destruct Hti as [Ht1 Ht2].
    rewrite Ht1. apply negb_true_iff in Ht2. now rewrite Ht2. }
  rewrite Htitle in H. cbn [bindR] in H. clear Htitle.
  split; [|split].
  - intros field Hf.
    destruct da as [pr | d | o];
      [destruct pr; try discriminate Hda | | discriminate Hda];
      cbn [isUndefined negb bindR] in H; inversion H; subst u; clear H;
      repeat first [ apply hasOwn_assign | apply hasOwn_assign_if ]; exact Hf.
  - destruct da as [pr | d | o];
      [destruct pr; try discriminate Hda | | discriminate Hda];
      cbn [isUndefined negb bindR] in H; inversion H; subst u; clear H;
      repeat first [ rewrite get_assign_other by (intro; discriminate)
                   | rewrite get_assign_if by (intro; discriminate) ];
      destruct (isUndefined ti); cbn [negb]; auto; apply get_assign_same.
  - intros Hu. rewrite Hu in Hti. cbn [orb] in Hti.
    apply andb_true_iff in Hti. destruct Hti as [_ Ht2].
    now apply negb_true_iff in Ht2.
Qed.

(** X5.  An update that is accepted writes nothing but the title, the
    description, the completion, the day key and the time of the update:
    every other field of the todo (its id and its time of creation among
    them) is as before, each of the first four is as before when the update
    does not give it, and the time of the update is the instant of the call. *)
Theorem updateTodo_frame : forall now (existing : Obj) updates u,
    updateTodo now (VObj existing) updates = Ret u ->
    (forall field, ~ In field writtenByUpdate -> get u field = get existing field)
    /\ get u "updatedAt" = JStr now
    /\ (if isUndefined (upd_title updates)
        then get u "title" = get existing "title"
        else get u "title" = JStr (trim (strOf (upd_title updates))))
    /\ (if isUndefined (upd_description updates)
        then get u "description" = get existing "description" else True)
    /\ (if isUndefined (upd_completed updates)
        then get u "completed" = get existing "completed" else True)
    /\ (if isUndefined (upd_date updates)
        then get u "dateKey" = get existing "dateKey" else True).
Proof.
  intros now existing [ti de co da] u H.
  destruct (updateTodo_Ret_inv _ _ _ H) as (Hid & Hti & Hda).
  unfold titleApplies, dateApplies in *.
  unfold updateTodo in H.
  cbn [truthy typeof ownProps JsType_eqb negb orb
       upd_title upd_date upd_completed upd_description] in *.
  rewrite Hid in H. cbn [negb] in H.
  assert (Htitle :
            (if negb (isUndefined ti)
             then
               if negb (JsType_eqb (typeof ti) t_string)
                  || (String.length (trim (strOf ti)) =? 0)
               then Throw (Error "Todo title must be a non-empty string")
               else Ret (assign "title" (JStr (trim (strOf ti))) existing)
             else Ret existing)
            = Ret (if negb (isUndefined ti)
                   then assign "title" (JStr (trim (strOf ti))) existing
                   else existing)).
  { destruct (isUndefined ti); cbn [negb orb] in *; [reflexivity|].
    apply andb_true_iff in Hti. destruct Hti as [Ht1 Ht2].
    rewrite Ht1. apply negb_true_iff in Ht2. now rewrite Ht2. }
  rewrite Htitle in H. cbn [bindR] in H. clear Htitle.
  assert (forall field, ~ In field writtenByUpdate ->
            field <> "title" /\ field <> "description" /\ field <> "completed"
            /\ field <> "dateKey" /\ field <> "updatedAt") as Hsplit.
  { intros field Hn. unfold writtenByUpdate in Hn. cbn in Hn.
    repeat split; intros ->; apply Hn; auto 10. }
  destruct da as [pr | d | o];
    [destruct pr; try discriminate Hda | | discriminate Hda];
    cbn [isUndefined negb bindR] in H; inversion H; subst u; clear H;
    (split;
     [ intros field Hn; destruct (Hsplit field Hn) as (H1 & H2 & H3 & H4 & H5);
       repeat first [ rewrite get_assign_other by assumption
                    | rewrite get_assign_if by assumption ];
       reflexivity
     | split; [apply get_assign_same|] ]);
    destruct (isUndefined ti), (isUndefined de), (isUndefined co); cbn [negb];
    repeat split;
    repeat first [ rewrite get_assign_same
                 | rewrite get_assign_other by (intro; discriminate) ];
    reflexivity.
Qed.

Lemma updateTodo_frame_witness :
  exists u,
    updateTodo "2024-01-15T12:00:00.000Z" (VObj sampleTodo) markDone = Ret u
    /\ get u "id" = JStr "test-id-1"
    /\ get u "createdAt" = JStr "2024-01-15T10:00:00.000Z"
    /\ get u "updatedAt" = JStr "2024-01-15T12:00:00.000Z".
Proof.
  eexists. split; [reflexivity|].
  destruct (@updateTodo_frame "2024-01-15T12:00:00.000Z" sampleTodo markDone _ eq_refl)
    as [Hframe [Hupd _]].
  split; [|split].
  - apply (Hframe "id"). cbn. intuition discriminate.
  - apply (Hframe "createdAt"). cbn. intuition discriminate.
  - exact Hupd.
Defined.

(** X6.  Toggling a todo that has a truthy id sets [completed] to the
    boolean opposite of its truthiness and leaves the title, the
    description and the day key alone; toggling again gives back the
    truthiness it had, which is the value it had when that was a boolean. *)
Theorem toggleTodoComplete_twice : forall now now' (todo : Obj),
    truthyPrim (get todo "id") = true ->
    exists u u',
      toggleTodoComplete now todo = Ret u
      /\ toggleTodoComplete now' u = Ret u'
      /\ get u "completed" = JBool (negb (truthyPrim (get todo "completed")))
      /\ get u' "completed" = JBool (truthyPrim (get todo "completed"))
      /\ get u' "title" = get todo "title"
      /\ get u' "description" = get todo "description"
      /\ get u' "dateKey" = get todo "dateKey"
      /\ get u' "id" = get todo "id".
Proof.
  intros now now' todo Hid. unfold toggleTodoComplete.
  destruct (updateTodo_outcome now todo
              {| upd_title := undef; upd_description := undef;
                 upd_completed := VPrim (JBool (negb (truthyPrim (get todo "completed"))));
                 upd_date := undef |} Hid eq_refl eq_refl)
    as (u & Hu & Hi & Hco & Hde & Hk & _).
  cbn [upd_completed upd_description upd_date isUndefined undef truthy truthyPrim] in *.
  destruct (updateTodo_Ret_shape _ _ _ Hu) as (_ & Hti & _).
  cbn [upd_title isUndefined undef] in Hti.
  assert (truthyPrim (get u "id") = true) as Hid' by now rewrite Hi.
  destruct (updateTodo_outcome now' u
              {| upd_title := undef; upd_description := undef;
                 upd_completed := VPrim (JBool (negb (truthyPrim (get u "completed"))));
                 upd_date := undef |} Hid' eq_refl eq_refl)
    as (u' & Hu' & Hi' & Hco' & Hde' & Hk' & _).
  cbn [upd_completed upd_description upd_date isUndefined undef truthy truthyPrim] in *.
  destruct (updateTodo_Ret_shape _ _ _ Hu') as (_ & Hti' & _).
  cbn [upd_title isUndefined undef] in Hti'.
  exists u, u'. repeat split; auto; try congruence.
  rewrite Hco', Hco. cbn [truthyPrim]. now rewrite negb_involutive.
Qed.

Lemma toggleTodoComplete_twice_witness :
  exists u u',
    toggleTodoComplete "2024-01-15T12:00:00.000Z" sampleTodo = Ret u
    /\ toggleTodoComplete "2024-01-15T13:00:00.000Z" u = Ret u'
    /\ get u "completed" = JBool true
    /\ get u' "completed" = JBool false
    /\ get u' "title" = JStr "Test Todo"
    /\ get u' "description" = JStr "Test Description"
    /\ get u' "dateKey" = JStr "2024-01-15"
    /\ get u' "id" = JStr "test-id-1".
Proof.
  exact (@toggleTodoComplete_twice "2024-01-15T12:00:00.000Z" "2024-01-15T13:00:00.000Z"
           sampleTodo eq_refl).
Defined.

(* ------------------------------------------------------------------ *)
(** ** Adding, then removing *)

Lemma present_false_bucket : forall todoId (c : Collection) k,
    present todoId c = false -> existsb (hasId (JStr todoId)) (bucket c k) = false.
Proof.
  intros todoId c k H. apply cnt_zero_bucket.
  rewrite present_cnt in H. apply negb_false_iff in H. now apply Nat.eqb_eq in H.
Qed.

Lemma locateDay_assign_fresh : forall todoId (c : Collection) k items,
    present todoId c = false ->
    existsb (hasId (JStr todoId)) items = true ->
    locateDay todoId (assign k items c) = Some (k, items).
Proof.
  intros todoId c k items. unfold present, getAllTodos.
  induction c as [|[k0 v0] c IH]; cbn [assign locateDay flat_map snd]; intros Hp Hi.
  - now rewrite Hi.
  - rewrite existsb_app in Hp. apply orb_false_iff in Hp. destruct Hp as [H0 Hc].
    destruct (String.eqb k0 k) eqn:E; cbn [locateDay].
    + apply String.eqb_eq in E. subst k0. now rewrite Hi.
    + rewrite H0. now apply IH.
Qed.

Lemma assign_same_value : forall (V : Type) (c : list (string * V)) k v,
    lookup k c = Some v -> assign k v c = c.
Proof.
  induction c as [|[k0 v0] c IH]; cbn; intros k v H; [discriminate|].
  destruct (String.eqb k0 k) eqn:E.
  - now inversion H.
  - f_equal. now apply IH.
Qed.

Lemma without_fresh : forall todoId (items : list Obj),
    existsb (hasId (JStr todoId)) items = false -> without todoId items = items.
Proof.
  intros todoId items. unfold without.
  induction items as [|t items IH]; cbn; auto.
  intros H. apply orb_false_iff in H. destruct H as [Ht Hi].
  rewrite Ht. cbn. now rewrite IH.
Qed.

Lemma without_app : forall todoId (a b : list Obj),
    without todoId (a ++ b) = without todoId a ++ without todoId b.
Proof. intros. unfold without. apply filter_app. Qed.

(** X7.  Adding a valid todo whose id no todo of the collection carries,
    and then removing that id, gives back the collection as it was, day
    for day and in the same order, provided the collection has no day with
    an empty array. *)
Theorem add_then_remove : forall (c : Collection) (todo : Obj) todoId,
    validateTodo (VObj todo) = Ret true ->
    get todo "id" = JStr todoId ->
    present todoId c = false ->
    noEmptyBucket c = true ->
    exists c',
      addTodoToCollection c todo = Ret c'
      /\ present todoId c' = true
      /\ removeTodoFromCollection c' todoId = Ret c.
Proof.
  intros c todo todoId Hvalid Hid Hfresh Hne.
  set (k := toString (get todo "dateKey")).
  assert (existsb (hasId (JStr todoId)) (bucket c k) = false) as Hb
      by now apply present_false_bucket.
  assert (hasId (JStr todoId) todo = true) as Htodo.
  { unfold hasId. rewrite Hid. cbn. apply String.eqb_refl. }
  assert (existsb (hasId (JStr todoId)) (bucket c k ++ [todo]) = true) as Hin.
  { rewrite existsb_app. cbn. rewrite Htodo. now rewrite orb_true_r. }
  exists (assign k (bucket c k ++ [todo]) c).
  assert (locateDay todoId (assign k (bucket c k ++ [todo]) c)
          = Some (k, bucket c k ++ [todo])) as Hloc
      by now apply locateDay_assign_fresh.
  split; [|split].
  - rewrite addTodoToCollection_spec, Hvalid. cbv zeta. fold k. rewrite Hid. now rewrite Hb.
  - destruct (present todoId (assign k (bucket c k ++ [todo]) c)) eqn:E; auto.
    apply locateDay_None in E. congruence.
  - rewrite removeTodoFromCollection_spec, Hloc. f_equal.
    unfold prune. rewrite without_app, (without_fresh _ _ Hb).
    unfold without at 1 2. cbn [filter]. rewrite Htodo. cbn [negb]. rewrite !List.app_nil_r.
    unfold bucket. destruct (lookup k c) as [items|] eqn:El.
    + assert (items <> []) as Hitems.
      { intros ->. pose proof (forallb_lookup _ _ _ Hne El) as H. discriminate H. }
      destruct items as [|t items]; [congruence|]. cbn [List.length Nat.eqb].
      rewrite assign_assign. now apply assign_same_value.
    + cbn [List.length Nat.eqb]. rewrite delete_assign.
      apply delete_absent. now apply lookup_None_notin.
Qed.

Lemma add_then_remove_witness :
  exists c',
    addTodoToCollection todosCollection secondTodo = Ret c'
    /\ present "test-id-3" c' = true
    /\ removeTodoFromCollection c' "test-id-3" = Ret todosCollection.
Proof.
  exact (@add_then_remove todosCollection secondTodo "test-id-3"
           eq_refl eq_refl eq_refl eq_refl).
Defined.

(* ------------------------------------------------------------------ *)
(** ** What removal and update do to the ids *)

Lemma copies_prune_other : forall x y k items (c : Collection),
    NoDup (keys c) -> bucket c k = items -> x <> y ->
    copies x (prune y k items c) = copies x c.
Proof.
  intros x y k items c Hnd Hb Hne. unfold copies.
  pose proof (@cnt_prune (hasId (JStr x)) y k items c Hnd Hb) as H.
  rewrite (filter_other_without items Hne) in H. lia.
Qed.

Lemma copies_prune_same : forall y k items (c : Collection),
    NoDup (keys c) -> bucket c k = items ->
    copies y (prune y k items c) + List.length (filter (hasId (JStr y)) items)
    = copies y c.
Proof.
  intros y k items c Hnd Hb. unfold copies.
  pose proof (@cnt_prune (hasId (JStr y)) y k items c Hnd Hb) as H.
  rewrite filter_without in H. cbn [List.length] in H. lia.
Qed.

Lemma copies_append : forall x k (u : Obj) (c : Collection),
    copies x (assign k (bucket c k ++ [u]) c)
    = copies x c + (if hasId (JStr x) u then 1 else 0).
Proof.
  intros x k u c. unfold copies.
  pose proof (@cnt_assign (hasId (JStr x)) c k (bucket c k ++ [u])) as H.
  rewrite filter_app, length_app in H. cbn [filter] in H.
  destruct (hasId (JStr x) u); cbn [List.length] in H; lia.
Qed.

Lemma copies_moved : forall x todoId k items (u : Obj) (c : Collection),
    copies x (moved todoId k items u c)
    = copies x (prune todoId k items c) + (if hasId (JStr x) u then 1 else 0).
Proof.
  intros x todoId k items u c. unfold copies. rewrite cnt_moved. cbn [filter].
  destruct (hasId (JStr x) u); reflexivity.
Qed.

Lemma length_without : forall todoId (items : list Obj),
    List.length (without todoId items) + List.length (filter (hasId (JStr todoId)) items)
    = List.length items.
Proof.
  intros. unfold without. rewrite Nat.add_comm. apply filter_split_length.
Qed.

Lemma countTodos_cnt : forall c : Collection, countTodos c = cnt (fun _ => true) c.
Proof.
  intros c. rewrite <- length_getAllTodos. unfold cnt.
  induction (getAllTodos c) as [|t l IH]; cbn; auto.
Qed.

Lemma filter_all : forall (A : Type) (l : list A), filter (fun _ => true) l = l.
Proof. induction l as [|x l IH]; cbn; now rewrite ?IH. Qed.

(** X8.  In a collection with distinct keys where exactly one todo carries
    the id, removal succeeds and leaves no todo with that id (a lookup by
    id finds nothing), leaves the other ids carried as many times as
    before, and leaves one todo less in all. *)
Theorem removeTodoFromCollection_removes : forall (c : Collection) todoId,
    distinctKeys c = true ->
    copies todoId c = 1 ->
    exists c',
      removeTodoFromCollection c todoId = Ret c'
      /\ present todoId c' = false
      /\ getTodoById c' todoId = None
      /\ (forall other, other <> todoId -> copies other c' = copies other c)
      /\ countTodos c' + 1 = countTodos c.
Proof.
  intros c y Hd Hone. apply distinct_NoDup in Hd.
  assert (present y c = true) as Hp.
  { rewrite present_cnt. unfold copies in Hone. now rewrite Hone. }
  destruct (locateDay y c) as [[k items]|] eqn:Hday;
    [|apply locateDay_None in Hday; congruence].
  destruct (locateDay_bucket _ _ Hd Hday) as [Hl Hb].
  destruct (locateDay_found _ _ Hday) as [_ (e & Hfind & _)].
  pose proof (@find_count_pos _ (hasId (JStr y)) items e Hfind) as Hpos.
  pose proof (@copies_prune_same y k items c Hd Hb) as Hsame.
  assert (List.length (filter (hasId (JStr y)) items) = 1) as Hitems by lia.
  assert (copies y (prune y k items c) = 0) as Hzero by lia.
  exists (prune y k items c).
  assert (present y (prune y k items c) = false) as Habsent.
  { rewrite present_cnt. unfold copies in Hzero. now rewrite Hzero. }
  split; [|split; [|split; [|split]]].
  - now rewrite removeTodoFromCollection_spec, Hday.
  - exact Habsent.
  - unfold getTodoById, present in *. cbv zeta.
    destruct (find (hasId (JStr y)) (getAllTodos (prune y k items c))) as [t|] eqn:E; auto.
    apply find_some in E. destruct E as [Hin Ht].
    assert (existsb (hasId (JStr y)) (getAllTodos (prune y k items c)) = true)
      by (apply existsb_exists; eauto).
    congruence.
  - intros other Hother. now apply copies_prune_other.
  - rewrite !countTodos_cnt.
    pose proof (@cnt_prune (fun _ => true) y k items c Hd Hb) as H.
    rewrite !filter_all in H.
    pose proof (length_without y items). lia.
Qed.

Lemma removeTodoFromCollection_removes_witness :
  exists c',
    removeTodoFromCollection twoOnOneDay "test-id-1" = Ret c'
    /\ present "test-id-1" c' = false
    /\ getTodoById c' "test-id-1" = None
    /\ (forall other, other <> "test-id-1" -> copies other c' = copies other twoOnOneDay)
    /\ countTodos c' + 1 = 3.
Proof.
  exact (@removeTodoFromCollection_removes twoOnOneDay "test-id-1" eq_refl eq_refl).
Defined.

Lemma keys_prune : forall y k items (c : Collection),
    NoDup (keys c) -> NoDup (keys (prune y k items c)).
Proof.
  intros y k items c H. unfold prune.
  destruct (List.length (without y items) =? 0).
  - now apply NoDup_keys_delete.
  - now apply NoDup_keys_assign.
Qed.

Lemma distinct_of_NoDup : forall l : list string, NoDup l -> distinct l = true.
Proof.
  induction l as [|k l IH]; intros H; cbn; auto.
  inversion H as [|? ? Hnotin Hnd]; subst.
  rewrite IH by assumption. rewrite andb_true_r. apply negb_true_iff.
  destruct (existsb (String.eqb k) l) eqn:E; auto.
  apply existsb_exists in E. destruct E as (x & Hin & Hx).
  apply String.eqb_eq in Hx. subst. contradiction.
Qed.

Lemma NoDup_keys_applyOp : forall (c c' : Collection) op,
    NoDup (keys c) -> applyOp c op = Ret c' -> NoDup (keys c').
Proof.
  intros c c' [todo | todoId | now todoId updates] Hnd; cbn [applyOp].
  - rewrite addTodoToCollection_spec.
    destruct (validateTodo (VObj todo)); [|discriminate]. cbv zeta.
    destruct (existsb _ _); [discriminate|].
    intros H. inversion H; subst. now apply NoDup_keys_assign.
  - rewrite removeTodoFromCollection_spec.
    destruct (locateDay todoId c) as [[k items]|]; [|discriminate].
    intros H. inversion H; subst. now apply keys_prune.
  - rewrite updateTodoInCollection_spec.
    destruct (locateDay todoId c) as [[k items]|]; [|discriminate].
    destruct (find _ items) as [e|]; [|discriminate].
    destruct (updateTodo now (VObj e) updates) as [u|]; [|discriminate].
    destruct (notIterable _ _); [discriminate|].
    intros H. inversion H; subst. now apply NoDup_keys_moved.
Qed.

Lemma NoDup_keys_runOps : forall (ops : list Op) (c : Collection),
    NoDup (keys c) -> NoDup (keys (runOps c ops)).
Proof.
  induction ops as [|op ops IH]; intros c Hc; cbn [runOps]; auto.
  destruct (applyOp c op) as [c'|e] eqn:E; auto.
  apply IH. eapply NoDup_keys_applyOp; eauto.
Qed.

(** C5.  Starting from a collection with distinct day keys in which no day
    has an empty array, after any history of insertions, removals and
    updates (moves to another day among them):
    - every day key present maps to a non-empty array;
    - for a date whose key is not the name of a member of
      [Object.prototype], [getTodosForDate] returns the empty array
      exactly when the collection has no such key, and the key of every
      [Date] is such a key;
    - the removal of an id that is found succeeds, and the day where the
      id was found keeps its todos that do not carry the id, or loses its
      key when it has no other todo; the other days are as they were;
    - an update that files the todo under another day, one that is not
      the name of a member of [Object.prototype], succeeds and leaves the
      old day in the same way: without its key when it had no other
      todo. *)
Theorem no_empty_bucket_observable : forall (c : Collection) (ops : list Op),
    noEmptyBucket c = true ->
    distinctKeys c = true ->
    let c' := runOps c ops in
    (forall dateKey items, lookup dateKey c' = Some items -> items <> [])
    /\ (forall date, inheritedName (dayKeyOf date) = false ->
          (hasOwn (dayKeyOf date) c' = false <-> getTodosForDate c' date = []))
    /\ (forall d : Date,
          hasOwn (formatDateKey d) c' = false <-> getTodosForDate c' (DayDate d) = [])
    /\ (forall todoId dateKey existingTodo,
          locate todoId c' = Some (dateKey, existingTodo) ->
          let rest := without todoId (bucket c' dateKey) in
          exists c'',
            removeTodoFromCollection c' todoId = Ret c''
            /\ lookup dateKey c'' = (if List.length rest =? 0 then None else Some rest)
            /\ (forall other, other <> dateKey -> lookup other c'' = lookup other c'))
    /\ (forall now todoId updates dateKey existingTodo u,
          locate todoId c' = Some (dateKey, existingTodo) ->
          updateTodo now (VObj existingTodo) updates = Ret u ->
          toString (get u "dateKey") <> dateKey ->
          inheritedName (toString (get u "dateKey")) = false ->
          let rest := without todoId (bucket c' dateKey) in
          exists c'',
            updateTodoInCollection now c' todoId updates = Ret c''
            /\ lookup dateKey c'' = (if List.length rest =? 0 then None else Some rest)).
Proof.
  intros c ops Hc Hd c'. apply distinct_NoDup in Hd.
  assert (noEmptyBucket c' = true) as Hc' by now apply noEmptyBucket_runOps.
  assert (NoDup (keys c')) as Hd' by now apply NoDup_keys_runOps.
  assert (forall dateKey items, lookup dateKey c' = Some items -> items <> []) as Hne.
  { intros dateKey items Hl Hnil. subst items.
    pose proof (forallb_lookup _ _ _ Hc' Hl) as H. discriminate H. }
  assert (forall date, hasOwn (dayKeyOf date) c' = false <-> getTodosForDate c' date = [])
    as Hget.
  { intros date. unfold getTodosForDate. fold (dayKeyOf date). split; intros H.
    - apply hasOwn_false in H. unfold bucket. now rewrite H.
    - unfold bucket, hasOwn in *.
      destruct (lookup (dayKeyOf date) c') as [items|] eqn:E; auto.
      subst items. exfalso. now apply (Hne _ _ E). }
  split; [exact Hne|]. split; [intros date _; apply Hget|].
  split; [intros d; apply (Hget (DayDate d))|]. split.
  - intros todoId dateKey e Hloc rest.
    destruct (locate_locateDay _ _ Hloc) as (items & Hday & Hfind & Hid).
    destruct (locateDay_bucket _ _ Hd' Hday) as [Hl Hb].
    exists (prune todoId dateKey items c'). split; [|split].
    + now rewrite removeTodoFromCollection_spec, Hday.
    + rewrite lookup_prune_same. unfold rest. now rewrite Hb.
    + intros other Hother. now apply lookup_prune_other.
  - intros now todoId updates dateKey e u Hloc Hupd Hmove Hname rest.
    destruct (locate_locateDay _ _ Hloc) as (items & Hday & Hfind & Hid).
    destruct (locateDay_bucket _ _ Hd' Hday) as [Hl Hb].
    exists (moved todoId dateKey items u c'). split.
    + rewrite updateTodoInCollection_spec, Hday, Hfind, Hupd.
      now rewrite (@notIterable_not_inherited (toString (get u "dateKey")) _ Hname).
    + rewrite lookup_moved_other by (intros E; apply Hmove; symmetry; exact E).
      rewrite lookup_prune_same. unfold rest. now rewrite Hb.
Qed.

Lemma no_empty_bucket_observable_witness :
  let c' := runOps todosCollection
              [Remove "test-id-1"; Update "2024-01-15T12:00:00.000Z" "test-id-2" moveToJan20] in
  (forall dateKey items, lookup dateKey c' = Some items -> items <> [])
  /\ (forall date, inheritedName (dayKeyOf date) = false ->
        (hasOwn (dayKeyOf date) c' = false <-> getTodosForDate c' date = []))
  /\ (forall d : Date,
        hasOwn (formatDateKey d) c' = false <-> getTodosForDate c' (DayDate d) = [])
  /\ (forall todoId dateKey existingTodo,
        locate todoId c' = Some (dateKey, existingTodo) ->
        let rest := without todoId (bucket c' dateKey) in
        exists c'',
          removeTodoFromCollection c' todoId = Ret c''
          /\ lookup dateKey c'' = (if List.length rest =? 0 then None else Some rest)
          /\ (forall other, other <> dateKey -> lookup other c'' = lookup other c'))
  /\ (forall now todoId updates dateKey existingTodo u,
        locate todoId c' = Some (dateKey, existingTodo) ->
        updateTodo now (VObj existingTodo) updates = Ret u ->
        toString (get u "dateKey") <> dateKey ->
        inheritedName (toString (get u "dateKey")) = false ->
        let rest := without todoId (bucket c' dateKey) in
        exists c'',
          updateTodoInCollection now c' todoId updates = Ret c''
          /\ lookup dateKey c'' = (if List.length rest =? 0 then None else Some rest)).
Proof.
  exact (no_empty_bucket_observable todosCollection
           [Remove "test-id-1"; Update "2024-01-15T12:00:00.000Z" "test-id-2" moveToJan20]
           eq_refl eq_refl).
Defined.

(** The last todo of a day, removed or moved to another day, takes the key
    of the day with it; a day that no todo is filed under reads as the
    empty array. *)
Example last_todo_takes_the_key :
  removeTodoFromCollection [("2024-01-16", [anotherTodo])] "test-id-2" = Ret []
  /\ updateTodoInCollection "2024-01-15T12:00:00.000Z" [("2024-01-16", [anotherTodo])]
       "test-id-2" moveToJan20
     = Ret [ ("2024-01-20",
              [ assign "updatedAt" (JStr "2024-01-15T12:00:00.000Z")
                  (assign "dateKey" (JStr "2024-01-20") anotherTodo) ]) ]
  /\ getTodosForDate [] (DayString "2024-01-16") = [].
Proof. repeat split. Qed.

Lemma validateTodo_true : forall (todo : Value) (b : bool),
    validateTodo todo = Ret b -> b = true.
Proof.
  intros todo b. unfold validateTodo.
  repeat match goal with
    | |- context [if ?c then _ else _] => destruct c
    end;
    intros H; inversion H; reflexivity.
Qed.

Lemma uniqueIds_applyOp : forall (c c' : Collection) (op : Op),
    distinctKeys c = true ->
    uniqueIds c ->
    freshInsert c op = true ->
    applyOp c op = Ret c' ->
    distinctKeys c' = true /\ uniqueIds c'.
Proof.
  intros c c' op Hd Hu Hfresh Hop. apply distinct_NoDup in Hd.
  destruct op as [todo | y | now y updates]; cbn [applyOp freshInsert] in *.
  - rewrite addTodoToCollection_spec in Hop.
    destruct (validateTodo (VObj todo)) as [ok|] eqn:Hvalid; [|discriminate].
    assert (ok = true) as -> by exact (validateTodo_true _ Hvalid).
    cbv zeta in Hop.
    destruct (existsb (hasId (get todo "id")) (bucket c (toString (get todo "dateKey"))));
      [discriminate Hop|].
    injection Hop as <-.
    split; [apply distinct_of_NoDup; now apply NoDup_keys_assign|].
    intros x. rewrite copies_append. specialize (Hu x).
    destruct (hasId (JStr x) todo) eqn:Hx; [|lia].
    apply negb_true_iff in Hfresh.
    assert (copies x c = 0); [|lia].
    destruct (validateTodo_Ret _ Hvalid) as (i & _ & _ & _ & _ & Hi & _).
    assert (get todo "id" = JStr x) as Hix.
    { unfold hasId in Hx. rewrite Hi in *. cbn in Hx. apply String.eqb_eq in Hx.
      now subst. }
    rewrite Hix in Hfresh. fold (present x c) in Hfresh.
    rewrite present_cnt in Hfresh. apply negb_false_iff in Hfresh.
    now apply Nat.eqb_eq in Hfresh.
  - rewrite removeTodoFromCollection_spec in Hop.
    destruct (locateDay y c) as [[k items]|] eqn:Hday; [|discriminate].
    injection Hop as <-.
    destruct (locateDay_bucket _ _ Hd Hday) as [Hl Hb].
    split; [apply distinct_of_NoDup; now apply keys_prune|].
    intros x. specialize (Hu x). destruct (String.eqb x y) eqn:E.
    + apply String.eqb_eq in E. subst x.
      pose proof (@copies_prune_same y k items c Hd Hb). lia.
    + apply String.eqb_neq in E. now rewrite copies_prune_other.
  - rewrite updateTodoInCollection_spec in Hop.
    destruct (locateDay y c) as [[k items]|] eqn:Hday; [|discriminate].
    destruct (locateDay_found _ _ Hday) as [_ (e & Hfind & Hide)].
    rewrite Hfind in Hop.
    destruct (updateTodo now (VObj e) updates) as [u|] eqn:Hupd; [|discriminate].
    destruct (notIterable _ _); [discriminate Hop|].
    injection Hop as <-.
    destruct (locateDay_bucket _ _ Hd Hday) as [Hl Hb].
    destruct (updateTodo_Ret_fields _ _ _ Hupd) as [Hsame _].
    assert (hasId (JStr y) u = true) as Hidu.
    { unfold hasId in *. now rewrite Hsame. }
    split; [apply distinct_of_NoDup; now apply NoDup_keys_moved|].
    intros x. rewrite copies_moved.
    specialize (Hu x). destruct (String.eqb x y) eqn:E.
    + apply String.eqb_eq in E. subst x. rewrite Hidu.
      pose proof (@copies_prune_same y k items c Hd Hb).
      pose proof (@find_count_pos _ (hasId (JStr y)) items e Hfind). lia.
    + apply String.eqb_neq in E. rewrite copies_prune_other by assumption.
      destruct (hasId (JStr x) u) eqn:Hx; [|lia].
      exfalso. apply E. eapply hasId_unique; eauto.
Qed.

(** X9.  Uniqueness of ids is kept by the operations that look for an id:
    in a collection with distinct keys where no id is carried by two todos,
    an update or a removal that succeeds gives a collection of the same
    kind, and so does the insertion of a todo whose id no todo of the
    collection carries. *)
Theorem uniqueIds_kept : forall (c c' : Collection) (op : Op),
    distinctKeys c = true ->
    uniqueIds c ->
    freshInsert c op = true ->
    applyOp c op = Ret c' ->
    distinctKeys c' = true /\ uniqueIds c'.
Proof. exact uniqueIds_applyOp. Qed.

Lemma uniqueIds_of_check : forall c : Collection,
    uniqueIdsCheck c = true -> uniqueIds c.
Proof.
  intros c H x. unfold copies, cnt at 1.
  destruct (filter (hasId (JStr x)) (getAllTodos c)) as [|t l] eqn:E; [cbn; lia|].
  assert (In t (filter (hasId (JStr x)) (getAllTodos c))) as Hin by (rewrite E; cbn; auto).
  apply filter_In in Hin. destruct Hin as [Hin Ht].
  pose proof (proj1 (forallb_forall _ _) H t Hin) as Hle. apply Nat.leb_le in Hle.
  assert (get t "id" = JStr x) as Hid.
  { unfold hasId in Ht. destruct (get t "id") as [ | | b | [z|] | s]; cbn in Ht;
      try discriminate. apply String.eqb_eq in Ht. now subst. }
  rewrite Hid in Hle. unfold cnt in Hle. now rewrite E in Hle.
Qed.

Lemma uniqueIds_kept_witness :
  let c' := [ ("2024-01-16", [anotherTodo]);
              ("2024-01-20",
               [ assign "updatedAt" (JStr "2024-01-15T12:00:00.000Z")
                   (assign "dateKey" (JStr "2024-01-20") sampleTodo) ]) ] in
  distinctKeys c' = true /\ uniqueIds c'.
Proof.
  exact (@uniqueIds_kept todosCollection _
           (Update "2024-01-15T12:00:00.000Z" "test-id-1" moveToJan20)
           eq_refl (uniqueIds_of_check todosCollection eq_refl) eq_refl eq_refl).
Defined.

(* ------------------------------------------------------------------ *)
(** ** Filtering by status *)













(* ------------------------------------------------------------------ *)
(** ** Searching *)

Lemma toLowerChar_idempotent : forall ch : ascii,
    toLowerChar (toLowerChar ch) = toLowerChar ch.
Proof. intros [[] [] [] [] [] [] [] []]; vm_compute; reflexivity. Qed.

Lemma toLowerCase_idempotent : forall s : string,
    toLowerCase (toLowerCase s) = toLowerCase s.
Proof.
  induction s as [|ch s IH]; cbn [toLowerCase]; auto.
  now rewrite toLowerChar_idempotent, IH.
Qed.

Lemma filterR_mentions : forall (term : string) (items : list Obj),
    forallb hasStringTexts items = true ->
    filterR (matchesTerm term) items = Ret (filter (mentions term) items).
Proof.
  intros term. induction items as [|todo items IH]; cbn [forallb filterR filter]; auto.
  intros H. apply andb_true_iff in H. destruct H as [Ht Hts].
  rewrite (IH Hts). unfold matchesTerm, mentions, hasStringTexts in *.
  apply andb_true_iff in Ht. destruct Ht as [Htitle Hdesc].
  destruct (get todo "title"); try discriminate Htitle.
  destruct (get todo "description"); try discriminate Hdesc.
  cbn [toLowerCaseOf bindR strOfPrim].
  destruct (includes (toLowerCase s) term); cbn [orb bindR]; auto.
Qed.

Lemma tagged_keepTodos : forall (p : Obj -> bool) (c : Collection),
    tagged (keepTodos p c)
    = flat_map (fun kv => map (assign "dateKey" (JStr (fst kv))) (filter p (snd kv))) c.
Proof.
  intros p c. unfold tagged, keepTodos.
  induction c as [|[k items] c IH]; cbn [map filter flat_map fst snd]; auto.
  rewrite <- IH. destruct (filter p items) as [|t l]; reflexivity.
Qed.

Lemma searchLoop_mentions : forall (term : string) (c : Collection) (results : list Obj),
    forallb hasStringTexts (getAllTodos c) = true ->
    searchLoop term c results = Ret (results ++ tagged (keepTodos (mentions term) c)).
Proof.
  intros term c results H. rewrite tagged_keepTodos. revert results H.
  induction c as [|[dateKey items] c IH]; intros results H; cbn [searchLoop].
  - cbn. now rewrite List.app_nil_r.
  - unfold getAllTodos in H. cbn [flat_map snd] in H.
    rewrite forallb_app in H. apply andb_true_iff in H. destruct H as [H1 H2].
    rewrite (filterR_mentions term _ H1). cbn [bindR].
    rewrite (IH _ H2). cbn [flat_map fst snd].
    now rewrite app_assoc.
Qed.

Lemma toLowerCaseOf_TypeError : forall field p e,
    toLowerCaseOf field p = Throw e -> exists msg, e = TypeError msg.
Proof.
  intros field p e H.
  destruct p as [ | | b | n | s]; cbn in H; inversion H; eauto.
Qed.

Lemma filterR_untitled : forall (term : string) (items : list Obj),
    forallb hasStringTitle items = false ->
    exists msg, filterR (matchesTerm term) items = Throw (TypeError msg).
Proof.
  intros term. induction items as [|todo items IH]; cbn [forallb filterR]; [discriminate|].
  intros H.
  destruct (matchesTerm term todo) as [keep|e] eqn:Em.
  - assert (hasStringTitle todo = true) as Ht.
    { unfold matchesTerm, hasStringTitle in *.
      destruct (get todo "title"); cbn in Em; try discriminate Em; reflexivity. }
    rewrite Ht in H. cbn [andb] in H. destruct (IH H) as [msg ->].
    cbn [bindR]. eauto.
  - cbn [bindR]. unfold matchesTerm in Em.
    destruct (toLowerCaseOf "title" (get todo "title")) as [title|e1] eqn:E1; cbn [bindR] in Em.
    + destruct (includes title term); [discriminate Em|].
      destruct (toLowerCaseOf "description" (get todo "description")) as [d|e2] eqn:E2;
        cbn [bindR] in Em; [discriminate Em|].
      injection Em as <-. destruct (toLowerCaseOf_TypeError _ _ E2) as [msg ->]. eauto.
    + injection Em as <-. destruct (toLowerCaseOf_TypeError _ _ E1) as [msg ->]. eauto.
Qed.

Lemma filterR_TypeError : forall (term : string) (items : list Obj) e,
    filterR (matchesTerm term) items = Throw e -> exists msg, e = TypeError msg.
Proof.
  intros term. induction items as [|todo items IH]; cbn [filterR]; intros e H;
    [discriminate H|].
  destruct (matchesTerm term todo) as [keep|e0] eqn:Em; cbn [bindR] in H.
  - destruct (filterR (matchesTerm term) items) as [r|e1]; cbn [bindR] in H;
      [discriminate H|]. injection H as <-. now apply IH.
  - injection H as <-. unfold matchesTerm in Em.
    destruct (toLowerCaseOf "title" (get todo "title")) as [title|e1] eqn:E1; cbn [bindR] in Em.
    + destruct (includes title term); [discriminate Em|].
      destruct (toLowerCaseOf "description" (get todo "description")) as [d|e2] eqn:E2;
        cbn [bindR] in Em; [discriminate Em|].
      injection Em as <-. eapply toLowerCaseOf_TypeError; eauto.
    + injection Em as <-. eapply toLowerCaseOf_TypeError; eauto.
Qed.

Lemma searchLoop_untitled : forall (term : string) (c : Collection) (results : list Obj),
    forallb hasStringTitle (getAllTodos c) = false ->
    exists msg, searchLoop term c results = Throw (TypeError msg).
Proof.
  intros term. induction c as [|[dateKey items] c IH]; intros results H;
    cbn [searchLoop]; [discriminate H|].
  unfold getAllTodos in H. cbn [flat_map snd] in H. rewrite forallb_app in H.
  destruct (filterR (matchesTerm term) items) as [r|e] eqn:Ef; cbn [bindR].
  - destruct (forallb hasStringTitle items) eqn:Ei.
    + cbn [andb] in H. now apply IH.
    + destruct (filterR_untitled term _ Ei) as [msg Hm]. congruence.
  - destruct (filterR_TypeError _ _ Ef) as [msg ->]. eauto.
Qed.

(** X12.  On a collection whose titles and descriptions are strings, the
    search with a non-empty string returns, in the order of the days and
    of each day's array, the todos whose lower-cased title or description
    includes the lower-cased, trimmed term, each with the day it is filed
    under as its [dateKey]; upper and lower case of the term make no
    difference. *)
Theorem searchTodos_finds : forall (c : Collection) (searchTerm : string),
    searchTerm <> "" ->
    forallb hasStringTexts (getAllTodos c) = true ->
    searchTodos c (VPrim (JStr searchTerm))
    = Ret (tagged (keepTodos (mentions (trim (toLowerCase searchTerm))) c))
    /\ searchTodos c (VPrim (JStr (toLowerCase searchTerm)))
       = searchTodos c (VPrim (JStr searchTerm)).
Proof.
  intros c searchTerm Hne Htexts.
  assert (forall s, s <> "" -> searchTodos c (VPrim (JStr s))
                    = Ret (tagged (keepTodos (mentions (trim (toLowerCase s))) c))) as Hs.
  { intros s Hs. unfold searchTodos.
    cbn [truthy truthyPrim typeof typeofPrim JsType_eqb strOf strOfPrim].
    destruct s as [|ch s]; [congruence|].
    cbn [String.length Nat.eqb negb orb].
    now rewrite searchLoop_mentions. }
  split; [now apply Hs|].
  rewrite !Hs; auto.
  - now rewrite toLowerCase_idempotent.
  - destruct searchTerm; [congruence | discriminate].
Qed.

Lemma searchTodos_finds_witness :
  searchTodos twoOnOneDay (VPrim (JStr " TODO "))
  = Ret [sampleTodo; secondTodo; anotherTodo]
  /\ searchTodos twoOnOneDay (VPrim (JStr " todo "))
     = searchTodos twoOnOneDay (VPrim (JStr " TODO ")).
Proof.
  refine (@searchTodos_finds twoOnOneDay " TODO " _ eq_refl). discriminate.
Defined.

(** X13.  The search does not skip a todo whose title is not a string:
    with a non-empty string as the term, on a collection that holds such a
    todo, it throws a [TypeError] and returns no result. *)
Theorem searchTodos_untitled_throws : forall (c : Collection) (searchTerm : string),
    searchTerm <> "" ->
    forallb hasStringTitle (getAllTodos c) = false ->
    exists msg, searchTodos c (VPrim (JStr searchTerm)) = Throw (TypeError msg).
Proof.
  intros c searchTerm Hne Htitles. unfold searchTodos.
  cbn [truthy truthyPrim typeof typeofPrim JsType_eqb strOf strOfPrim].
  destruct searchTerm as [|ch s]; [congruence|].
  cbn [String.length Nat.eqb negb orb].
  now apply searchLoop_untitled.
Qed.

Lemma searchTodos_untitled_throws_witness :
  exists msg, searchTodos withUntitled (VPrim (JStr "test")) = Throw (TypeError msg).
Proof.
  refine (@searchTodos_untitled_throws withUntitled "test" _ eq_refl). discriminate.
Defined.

(* ------------------------------------------------------------------ *)
(** ** Deleting several todos at once *)

Lemma present_prune_unique : forall x y k items (c : Collection),
    NoDup (keys c) -> uniqueIds c -> locateDay y c = Some (k, items) ->
    present x (prune y k items c) = present x c && negb (String.eqb y x).
Proof.
  intros x y k items c Hnd Hu Hday.
  destruct (locateDay_bucket _ _ Hnd Hday) as [_ Hb].
  destruct (locateDay_found _ _ Hday) as [_ (e & Hfind & _)].
  pose proof (@find_count_pos _ (hasId (JStr y)) items e Hfind) as Hpos.
  rewrite !present_cnt. destruct (String.eqb y x) eqn:E.
  - apply String.eqb_eq in E. subst x.
    pose proof (@copies_prune_same y k items c Hnd Hb) as Hs.
    specialize (Hu y). unfold copies in *.
    assert (cnt (hasId (JStr y)) (prune y k items c) = 0) as -> by lia.
    now rewrite andb_false_r.
  - apply String.eqb_neq in E.
    assert (x <> y) as Hne by congruence.
    pose proof (@copies_prune_other x y k items c Hnd Hb Hne) as Ho.
    unfold copies in Ho. rewrite Ho. now rewrite andb_true_r.
Qed.

Lemma uniqueIds_prune : forall y k items (c : Collection),
    NoDup (keys c) -> uniqueIds c -> locateDay y c = Some (k, items) ->
    uniqueIds (prune y k items c).
Proof.
  intros y k items c Hnd Hu Hday x.
  destruct (locateDay_bucket _ _ Hnd Hday) as [_ Hb].
  specialize (Hu x). destruct (String.eqb x y) eqn:E.
  - apply String.eqb_eq in E. subst x.
    pose proof (@copies_prune_same y k items c Hnd Hb). lia.
  - apply String.eqb_neq in E. now rewrite copies_prune_other.
Qed.

Lemma present_all_pruned : forall y k items (c : Collection) (todoIds : list string),
    NoDup (keys c) -> uniqueIds c -> locateDay y c = Some (k, items) ->
    present_all (prune y k items c) todoIds
    = present_all c todoIds && negb (existsb (String.eqb y) todoIds).
Proof.
  intros y k items c todoIds Hnd Hu Hday. unfold present_all.
  induction todoIds as [|x rest IH]; cbn [forallb existsb]; auto.
  rewrite IH, (@present_prune_unique x y k items c Hnd Hu Hday).
  destruct (present x c), (String.eqb y x), (forallb (fun todoId => present todoId c) rest),
    (existsb (String.eqb y) rest); reflexivity.
Qed.

Lemma bulkDeleteLoop_spec : forall (host : Host) (todoIds : list string) (v : Collection)
                                   (w : World host),
    NoDup (keys v) -> uniqueIds v ->
    if present_all v todoIds && distinct todoIds then
      exists v',
        fst (bulkDeleteLoop todoIds v w) = Ret v'
        /\ NoDup (keys v')
        /\ forall todoId,
             copies todoId v'
             = if existsb (String.eqb todoId) todoIds then 0 else copies todoId v
    else
      exists todoId,
        In todoId todoIds
        /\ fst (bulkDeleteLoop todoIds v w) = Throw (notFound todoId).
Proof.
  intros host. induction todoIds as [|y rest IH]; intros v w Hnd Hu.
  - cbn. exists v. auto.
  - cbn [bulkDeleteLoop present_all forallb distinct]. unfold bind, liftR.
    rewrite removeTodoFromCollection_spec.
    destruct (locateDay y v) as [[k items]|] eqn:Hday.
    + assert (present y v = true) as Hp.
      { destruct (present y v) eqn:E; auto.
        apply locateDay_None in E. congruence. }
      rewrite Hp. cbn [andb].
      pose proof (@present_all_pruned y k items v rest Hnd Hu Hday) as Hall.
      unfold present_all in Hall.
      specialize (IH (prune y k items v) w (@keys_prune y k items v Hnd)
                    (@uniqueIds_prune y k items v Hnd Hu Hday)).
      unfold present_all in IH. rewrite Hall in IH.
      replace (forallb (fun todoId => present todoId v) rest
               && (negb (existsb (String.eqb y) rest) && distinct rest))
        with (forallb (fun todoId => present todoId v) rest
              && negb (existsb (String.eqb y) rest) && distinct rest)
        by now rewrite andb_assoc.
      destruct (forallb (fun todoId => present todoId v) rest
                && negb (existsb (String.eqb y) rest) && distinct rest).
      * destruct IH as (v' & Hv' & Hnd' & Hc). exists v'. repeat split; auto.
        intros x. rewrite Hc. cbn [existsb].
        destruct (locateDay_bucket _ _ Hnd Hday) as [_ Hb].
        destruct (locateDay_found _ _ Hday) as [_ (e & Hfind & _)].
        pose proof (@find_count_pos _ (hasId (JStr y)) items e Hfind) as Hpos.
        destruct (String.eqb x y) eqn:E; cbn [orb].
        -- apply String.eqb_eq in E. subst x.
           pose proof (@copies_prune_same y k items v Hnd Hb). specialize (Hu y).
           destruct (existsb (String.eqb y) rest); lia.
        -- apply String.eqb_neq in E. now rewrite copies_prune_other.
      * destruct IH as (x & Hin & Hx). exists x. split; [now right | exact Hx].
    + assert (present y v = false) as Hp by now apply locateDay_None.
      rewrite Hp. cbn [andb]. exists y. split; [now left | reflexivity].
Qed.

(** X14.  On a collection with distinct keys and no id carried twice,
    [bulkDeleteTodos] is all or nothing.  When the ids listed are all in
    the collection and no id is listed twice, the call resolves to [true]
    and hands [setTodos] a collection in which none of the ids listed is
    left and every other todo is kept.  Otherwise (an id that the
    collection lacks, or an id listed a second time) the call is rejected
    with the not-found error of one of the ids listed, under the prefix of
    the call, and the visible collection, status and storage are
    untouched: no todo is removed. *)
Theorem bulkDeleteTodos_all_or_nothing :
  forall (host : Host) (w : World host) (todoIds : list string),
    distinctKeys (storedValue w) = true ->
    uniqueIds (storedValue w) ->
    let r := bulkDeleteTodos todoIds w in
    if present_all (storedValue w) todoIds && distinct todoIds then
      fst r = Ret true
      /\ exists v' w1,
           sameVisible w w1
           /\ snd r = snd (setTodos v' w1)
           /\ distinctKeys v' = true
           /\ forall todoId,
                copies todoId v'
                = if existsb (String.eqb todoId) todoIds then 0
                  else copies todoId (storedValue w)
    else
      (exists todoId,
          In todoId todoIds
          /\ fst r = Throw (Error ("Failed to bulk delete todos: "
                                   ++ message (notFound todoId))))
      /\ sameVisible w (snd r).
Proof.
  intros host w todoIds Hd Hu r. subst r. apply distinct_NoDup in Hd.
  pose proof (@bulkDeleteLoop_spec host todoIds (storedValue w) w Hd Hu) as Hspec.
  pose proof (@bulkDeleteLoop_visible host todoIds (storedValue w) w) as Hvis.
  unfold bulkDeleteTodos, tryCatch, bind, currentTodos. cbn [fst snd].
  destruct (present_all (storedValue w) todoIds && distinct todoIds).
  - destruct Hspec as (v' & Hv' & Hnd' & Hc).
    destruct (bulkDeleteLoop todoIds (storedValue w) w) as [[x|e] w1];
      cbn [fst snd] in *; [|discriminate Hv'].
    injection Hv' as ->.
    destruct (@setValue_returns host "todos" v' w1) as [b Hb]. unfold setTodos in *.
    destruct (setValue "todos" (NewValue v') w1) as [[b'|e'] w2] eqn:Eset;
      cbn [fst] in Hb; [|discriminate Hb].
    unfold ret. cbn [fst snd]. split; [reflexivity|].
    exists v', w1. rewrite Eset. repeat split; try apply Hvis; auto.
    now apply distinct_of_NoDup.
  - destruct Hspec as (x & Hin & Hx).
    destruct (bulkDeleteLoop todoIds (storedValue w) w) as [[v'|e] w1];
      cbn [fst snd] in *; [discriminate Hx|].
    injection Hx as ->. unfold rethrow, throw. cbn [fst snd]. split; eauto.
Qed.

Lemma bulkDeleteTodos_all_or_nothing_witness :
  let w := mounted workingStorage "{...}" in
  let r := bulkDeleteTodos ["test-id-1"; "test-id-1"] w in
  (exists todoId,
      In todoId ["test-id-1"; "test-id-1"]
      /\ fst r = Throw (Error ("Failed to bulk delete todos: "
                               ++ message (notFound todoId))))
  /\ sameVisible w (snd r).
Proof.
  exact (@bulkDeleteTodos_all_or_nothing workingStorage (mounted workingStorage "{...}")
           ["test-id-1"; "test-id-1"] eq_refl (uniqueIds_of_check todosCollection eq_refl)).
Defined.

(* ------------------------------------------------------------------ *)
(** ** Adding a todo and clearing a day, as the caller sees them *)

Lemma setTodos_accepted : forall (host : Host) (w : World host) (v : Collection),
    writeAccepted w "todos" ->
    fst (setTodos v w) = Ret true
    /\ storedValue (snd (setTodos v w)) = v
    /\ error (status (snd (setTodos v w))) = None.
Proof.
  intros host w v Hacc. unfold setTodos. rewrite setValue_spec.
  destruct (hasWindow host); [|cbn; auto].
  destruct (Hacc (stringify host v)) as [st ->]. cbn. auto.
Qed.

(** X15.  [addTodo] with a title that [createTodo] accepts, on a calendar
    day with a four-digit year, with a generated id that is not empty and
    that no todo of that day carries, in a browser whose storage accepts
    the write: the call resolves to the new todo, which is then the last
    todo of its day; the other days are as they were, the day has one todo
    more, and the status reports no error. *)
Theorem addTodo_appends :
  forall (host : Host) (w : World host) (title : Value) (description : string)
         (date : option Date),
    let day := match date with Some d => d | None => today host (instant w) end in
    let id := generateTodoId host (instant w) in
    let r := addTodo title description date w in
    titleAccepted title = true ->
    id <> "" ->
    calendarDay day = true ->
    fourDigitYear day = true ->
    existsb (hasId (JStr id)) (getTodosForDate (storedValue w) (DayDate day)) = false ->
    writeAccepted w "todos" ->
    exists todo,
      fst r = Ret todo
      /\ get todo "id" = JStr id
      /\ get todo "title" = JStr (trim (strOf title))
      /\ get todo "completed" = JBool false
      /\ getTodosForDate (storedValue (snd r)) (DayDate day)
         = getTodosForDate (storedValue w) (DayDate day) ++ [todo]
      /\ (forall dateKey, dateKey <> formatDateKey day ->
            bucket (storedValue (snd r)) dateKey = bucket (storedValue w) dateKey)
      /\ getTodoCountForDate (storedValue (snd r)) (DayDate day)
         = S (getTodoCountForDate (storedValue w) (DayDate day))
      /\ error (status (snd r)) = None.
Proof.
  intros host w title description date day id r Ht Hid Hcal Hyear Hfresh Hacc.
  assert (isDateKeyFormat (formatDateKey day) = true) as Hfmt.
  { rewrite isDateKeyFormat_formatDateKey; auto. now rewrite Hyear. }
  pose proof (@createTodo_accepted id (toISOString host (instant w)) title description day Ht)
    as Hcreate.
  pose proof (@validateTodo_created id (toISOString host (instant w)) title description day
                Ht Hid) as Hvalid.
  rewrite Hfmt in Hvalid.
  remember [ ("id", JStr id); ("title", JStr (trim (strOf title)));
             ("description", JStr (trim description)); ("completed", JBool false);
             ("dateKey", JStr (formatDateKey day));
             ("createdAt", JStr (toISOString host (instant w)));
             ("updatedAt", JStr (toISOString host (instant w))) ] as todo eqn:Etodo.
  assert (get todo "id" = JStr id) as Hgid by (subst todo; reflexivity).
  assert (get todo "dateKey" = JStr (formatDateKey day)) as Hgkey by (subst todo; reflexivity).
  assert (addTodoToCollection (storedValue w) todo
          = Ret (assign (formatDateKey day)
                   (bucket (storedValue w) (formatDateKey day) ++ [todo]) (storedValue w)))
    as Hadd.
  { rewrite addTodoToCollection_spec, Hvalid. cbv zeta. rewrite Hgid, Hgkey.
    cbn [toString]. unfold getTodosForDate in Hfresh. now rewrite Hfresh. }
  set (w1 := {| storedValue := storedValue w; status := status w;
                localStorage := localStorage w; instant := S (instant w) |}).
  assert (writeAccepted w1 "todos") as Hacc1 by exact Hacc.
  set (v' := assign (formatDateKey day)
               (bucket (storedValue w) (formatDateKey day) ++ [todo]) (storedValue w)).
  destruct (@setTodos_accepted host w1 v' Hacc1) as (Hret & Hstored & Herr).
  assert (r = (Ret todo, snd (setTodos v' w1))) as Hr.
  { subst r. unfold addTodo, tryCatch, bind, currentTodos, liftR.
    cbn [tick fst snd instant]. fold day. fold id. rewrite Hcreate.
    rewrite Hadd. fold v'. fold w1.
    destruct (setTodos v' w1) as [[b|e] w2]; cbn [fst snd] in *; [|discriminate Hret].
    reflexivity. }
  exists todo. rewrite Hr. cbn [fst snd]. rewrite Hstored, Herr.
  unfold getTodoCountForDate, getTodosForDate. cbv zeta. subst v'.
  rewrite bucket_assign_same.
  repeat split; auto; try (subst todo; reflexivity).
  - intros dateKey Hne. apply bucket_assign_other. congruence.
  - rewrite length_app. cbn [List.length]. lia.
Qed.

Lemma addTodo_appends_witness :
  let w := mounted workingStorage "{...}" in
  let r := addTodo (VPrim (JStr " Pay rent ")) "" None w in
  exists todo,
    fst r = Ret todo
    /\ get todo "id" = JStr "todo_1705320000000_abc123xyz"
    /\ get todo "title" = JStr "Pay rent"
    /\ get todo "completed" = JBool false
    /\ getTodosForDate (storedValue (snd r)) (DayDate (MkDate 2024 0 15))
       = [sampleTodo; todo]
    /\ (forall dateKey, dateKey <> "2024-01-15" ->
          bucket (storedValue (snd r)) dateKey = bucket todosCollection dateKey)
    /\ getTodoCountForDate (storedValue (snd r)) (DayDate (MkDate 2024 0 15)) = 2
    /\ error (status (snd r)) = None.
Proof.
  refine (@addTodo_appends workingStorage (mounted workingStorage "{...}")
            (VPrim (JStr " Pay rent ")) "" None eq_refl _ eq_refl eq_refl eq_refl _).
  - discriminate.
  - intros v. exists v. reflexivity.
Defined.

(** X16.  [addTodo] is rejected, under the prefix of the call, with the
    message of [createTodo] when the title is one that [createTodo]
    refuses (not a string, or a string that is empty once trimmed), and
    with the message of [addTodoToCollection] when the title is accepted
    and the generated id is already carried by a todo of the day.  In both
    cases nothing is written: the visible collection, status and storage
    are as they were. *)
Theorem addTodo_rejected :
  forall (host : Host) (w : World host) (title : Value) (description : string)
         (date : option Date),
    let day := match date with Some d => d | None => today host (instant w) end in
    let id := generateTodoId host (instant w) in
    let r := addTodo title description date w in
    id <> "" ->
    calendarDay day = true ->
    fourDigitYear day = true ->
    titleAccepted title
    && negb (existsb (hasId (JStr id)) (getTodosForDate (storedValue w) (DayDate day)))
    = false ->
    fst r
    = Throw (Error ("Failed to add todo: "
                    ++ if titleAccepted title
                       then "Todo with id " ++ id ++ " already exists for date "
                            ++ formatDateKey day
                       else "Todo title is required and must be a non-empty string"))
    /\ sameVisible w (snd r).
Proof.
  intros host w title description date day id r Hid Hcal Hyear Hrej.
  destruct (titleAccepted title) eqn:Ht.
  - cbn [andb] in Hrej. apply negb_false_iff in Hrej.
    assert (isDateKeyFormat (formatDateKey day) = true) as Hfmt.
    { rewrite isDateKeyFormat_formatDateKey; auto. now rewrite Hyear. }
    pose proof (@validateTodo_created id (toISOString host (instant w)) title description day
                  Ht Hid) as Hvalid.
    rewrite Hfmt in Hvalid.
    subst r. unfold addTodo, tryCatch, bind, currentTodos, liftR.
    cbn [tick fst snd instant]. fold day. fold id.
    rewrite (@createTodo_accepted id (toISOString host (instant w)) title description day Ht).
    rewrite addTodoToCollection_spec, Hvalid. cbv zeta.
    unfold getTodosForDate in Hrej.
    cbn -[formatDateKey trim bucket assign hasId String.append].
    rewrite Hrej.
    unfold rethrow, throw. cbn [fst snd message toString]. split; [reflexivity|].
    repeat split.
  - subst r. unfold addTodo, tryCatch, bind, currentTodos, liftR.
    cbn [tick fst snd instant]. fold day. fold id.
    rewrite (@createTodo_refused id (toISOString host (instant w)) title description day Ht).
    unfold rethrow, throw. cbn [fst snd message]. split; [reflexivity|].
    repeat split.
Qed.

Lemma addTodo_rejected_witness :
  let w := mounted workingStorage "{...}" in
  let r := addTodo (VPrim (JStr "   ")) "" None w in
  fst r
  = Throw (Error "Failed to add todo: Todo title is required and must be a non-empty string")
  /\ sameVisible w (snd r).
Proof.
  refine (@addTodo_rejected workingStorage (mounted workingStorage "{...}")
            (VPrim (JStr "   ")) "" None _ eq_refl eq_refl eq_refl).
  discriminate.
Defined.

(* ------------------------------------------------------------------ *)
(** ** The counts of a day *)

Lemma bucket_cons_other : forall (c : Collection) k0 (v0 : list Obj) k,
    k0 <> k -> bucket ((k0, v0) :: c) k = bucket c k.
Proof.
  intros c k0 v0 k H. unfold bucket. cbn [lookup].
  apply String.eqb_neq in H. now rewrite H.
Qed.

Lemma sum_over_days : forall (p : Obj -> bool) (c : Collection),
    NoDup (keys c) ->
    list_sum (map (fun k => List.length (filter p (bucket c k))) (keys c)) = cnt p c.
Proof.
  intros p. induction c as [|[k0 v0] c IH]; intros Hnd; [reflexivity|].
  inversion Hnd as [|? ? Hnotin Hnd']; subst.
  cbn [keys map fst list_sum]. fold (keys c). rewrite cnt_cons.
  unfold bucket at 1. cbn [lookup]. rewrite String.eqb_refl.
  specialize (IH Hnd'). unfold list_sum in *. cbn [fold_right]. f_equal.
  rewrite <- IH. f_equal. apply map_ext_in. intros k Hin.
  rewrite bucket_cons_other; auto. intros ->. now apply Hnotin.
Qed.

(** X17.  The counts of a day whose key is not the name of a member of
    [Object.prototype] (the key of every [Date] is such a key): the
    completed and the pending todos of the day add up to its todos, and
    the day has todos exactly when its count is not zero.  On a collection
    with distinct keys, the counts of the days, added over the day keys of
    the collection, are the total, the completed and the pending of the
    statistics. *)
Theorem counts_for_date : forall c : Collection,
    distinctKeys c = true ->
    (forall date,
        inheritedName (dayKeyOf date) = false ->
        getCompletedCountForDate c date + getPendingCountForDate c date
        = getTodoCountForDate c date
        /\ hasDateTodos c date = negb (getTodoCountForDate c date =? 0))
    /\ (forall d : Date,
          getCompletedCountForDate c (DayDate d) + getPendingCountForDate c (DayDate d)
          = getTodoCountForDate c (DayDate d)
          /\ hasDateTodos c (DayDate d) = negb (getTodoCountForDate c (DayDate d) =? 0))
    /\ list_sum (map (fun k => getTodoCountForDate c (DayString k)) (keys c))
       = total (getTodoStats c)
    /\ list_sum (map (fun k => getCompletedCountForDate c (DayString k)) (keys c))
       = completed (getTodoStats c)
    /\ list_sum (map (fun k => getPendingCountForDate c (DayString k)) (keys c))
       = pending (getTodoStats c).
Proof.
  intros c Hd. apply distinct_NoDup in Hd.
  assert (forall date,
             getCompletedCountForDate c date + getPendingCountForDate c date
             = getTodoCountForDate c date
             /\ hasDateTodos c date = negb (getTodoCountForDate c date =? 0)) as Hday.
  { intros date.
    unfold getCompletedCountForDate, getPendingCountForDate, getTodoCountForDate,
      hasDateTodos. cbv zeta.
    split; [apply filter_split_length|].
    destruct (getTodosForDate c date); reflexivity. }
  split; [intros date _; apply Hday|].
  split; [intros d; apply (Hday (DayDate d))|].
  split; [|split].
  - pose proof (@sum_over_days (fun _ => true) c Hd) as H.
    unfold getTodoStats, getTodoCountForDate, getTodosForDate. cbn [total]. cbv zeta.
    unfold cnt in H. rewrite filter_all in H. rewrite <- H.
    f_equal. apply map_ext. intros k. now rewrite filter_all.
  - exact (@sum_over_days (fun todo => truthyPrim (get todo "completed")) c Hd).
  - exact (@sum_over_days (fun todo => negb (truthyPrim (get todo "completed"))) c Hd).
Qed.

Lemma counts_for_date_witness :
  (forall date,
      inheritedName (dayKeyOf date) = false ->
      getCompletedCountForDate twoOnOneDay date + getPendingCountForDate twoOnOneDay date
      = getTodoCountForDate twoOnOneDay date
      /\ hasDateTodos twoOnOneDay date
         = negb (getTodoCountForDate twoOnOneDay date =? 0))
  /\ (forall d : Date,
        getCompletedCountForDate twoOnOneDay (DayDate d)
        + getPendingCountForDate twoOnOneDay (DayDate d)
        = getTodoCountForDate twoOnOneDay (DayDate d)
        /\ hasDateTodos twoOnOneDay (DayDate d)
           = negb (getTodoCountForDate twoOnOneDay (DayDate d) =? 0))
  /\ list_sum (map (fun k => getTodoCountForDate twoOnOneDay (DayString k))
                 ["2024-01-15"; "2024-01-16"]) = 3
  /\ list_sum (map (fun k => getCompletedCountForDate twoOnOneDay (DayString k))
                 ["2024-01-15"; "2024-01-16"]) = 1
  /\ list_sum (map (fun k => getPendingCountForDate twoOnOneDay (DayString k))
                 ["2024-01-15"; "2024-01-16"]) = 2.
Proof.
  exact (@counts_for_date twoOnOneDay eq_refl).
Defined.

(* ------------------------------------------------------------------ *)
(** ** Clearing *)

(** X18.  [clearTodosForDate] on a collection with distinct keys, in a
    browser whose storage accepts the write, for a date whose key is not
    the name of a member of [Object.prototype] (the key of every [Date]
    is such a key): the call resolves to [true];
    afterwards the day has no todos and its key is gone, the other days
    are as they were, and the collection has lost as many todos as the day
    had.  [clearAllTodos], in the same browser, leaves no todo at all. *)
Theorem clearTodosForDate_clears :
  forall (host : Host) (w : World host) (date : DateArg),
    distinctKeys (storedValue w) = true ->
    writeAccepted w "todos" ->
    inheritedName (dayKeyOf date) = false ->
    let c := storedValue w in
    let r := clearTodosForDate date w in
    let c' := storedValue (snd r) in
    (fst r = Ret true
     /\ getTodosForDate c' date = []
     /\ hasDateTodos c' date = false
     /\ hasOwn (dayKeyOf date) c' = false
     /\ (forall dateKey, dateKey <> dayKeyOf date -> bucket c' dateKey = bucket c dateKey)
     /\ countTodos c' + getTodoCountForDate c date = countTodos c
     /\ distinctKeys c' = true)
    /\ fst (clearAllTodos w) = Ret true
    /\ getAllTodos (storedValue (snd (clearAllTodos w))) = [].
Proof.
  intros host w date Hd Hacc _ c r c'. apply distinct_NoDup in Hd.
  set (key := match date with DayString s => s | DayDate d => formatDateKey d end).
  assert (dayKeyOf date = key) as Hkey by (destruct date; reflexivity).
  destruct (@setTodos_accepted host w (delete key c) Hacc) as (Hret & Hstored & _).
  destruct (@setTodos_accepted host w [] Hacc) as (Hret0 & Hstored0 & _).
  assert (r = (Ret true, snd (setTodos (delete key c) w))) as Hr.
  { subst r. unfold clearTodosForDate, tryCatch, bind, currentTodos.
    fold key. fold c.
    destruct (setTodos (delete key c) w) as [[b|e] w2]; cbn [fst snd] in *;
      [|discriminate Hret].
    reflexivity. }
  assert (clearAllTodos w = (Ret true, snd (setTodos [] w))) as Hall.
  { unfold clearAllTodos, tryCatch, bind.
    destruct (setTodos [] w) as [[b|e] w2]; cbn [fst snd] in *; [|discriminate Hret0].
    reflexivity. }
  split; [|rewrite Hall; cbn [fst snd]; rewrite Hstored0; split; reflexivity].
  subst c'. rewrite Hr. cbn [fst snd]. rewrite Hstored, Hkey.
  unfold hasDateTodos, getTodoCountForDate, getTodosForDate. cbv zeta. fold key.
  rewrite bucket_delete_same.
  repeat split.
  - unfold hasOwn. now rewrite lookup_delete_same.
  - intros dateKey Hne. now apply bucket_delete_other.
  - rewrite !countTodos_cnt.
    pose proof (@cnt_delete (fun _ => true) c key Hd) as H.
    now rewrite filter_all in H.
  - apply distinct_of_NoDup. now apply NoDup_keys_delete.
Qed.

Lemma clearTodosForDate_clears_witness :
  let w := mounted workingStorage "{...}" in
  let r := clearTodosForDate (DayDate (MkDate 2024 0 15)) w in
  let c' := storedValue (snd r) in
  (fst r = Ret true
   /\ getTodosForDate c' (DayDate (MkDate 2024 0 15)) = []
   /\ hasDateTodos c' (DayDate (MkDate 2024 0 15)) = false
   /\ hasOwn "2024-01-15" c' = false
   /\ (forall dateKey, dateKey <> "2024-01-15" ->
         bucket c' dateKey = bucket todosCollection dateKey)
   /\ countTodos c' + 1 = 2
   /\ distinctKeys c' = true)
  /\ fst (clearAllTodos w) = Ret true
  /\ getAllTodos (storedValue (snd (clearAllTodos w))) = [].
Proof.
  refine (@clearTodosForDate_clears workingStorage (mounted workingStorage "{...}")
            (DayDate (MkDate 2024 0 15)) eq_refl _ eq_refl).
  intros v. exists v. reflexivity.
Defined.

(* ------------------------------------------------------------------ *)
(** ** Day keys: one key per day, in the order of the calendar *)

Lemma numberToString_inj : forall a b : Z,
    numberToString (Int a) = numberToString (Int b) -> a = b.
Proof.
  intros a b H. unfold numberToString in H. apply DecimalZ.to_int_inj.
  assert (forall z, Z.to_int z <> Decimal.Pos Decimal.Nil
                    /\ Z.to_int z <> Decimal.Neg Decimal.Nil) as Hn.
  { intros [|p|p]; cbn; split; try discriminate; intros E; injection E;
      apply DecimalPos.Unsigned.to_uint_nonnil. }
  pose proof (NilZero.isi (Z.to_int a) (proj1 (Hn a)) (proj2 (Hn a))) as Ha.
  pose proof (NilZero.isi (Z.to_int b) (proj1 (Hn b)) (proj2 (Hn b))) as Hb.
  rewrite H in Ha. congruence.
Qed.

Lemma append_inj_suffix : forall a b c d : string,
    String.length c = String.length d ->
    (a ++ c)%string = (b ++ d)%string -> a = b /\ c = d.
Proof.
  induction a as [|x a IH]; intros [|y b] c d Hlen H; cbn in H.
  - auto.
  - subst c. cbn in Hlen. rewrite length_append in Hlen. lia.
  - subst d. cbn in Hlen. rewrite length_append in Hlen. lia.
  - injection H as -> H. destruct (IH _ _ _ Hlen H) as [-> ->]. auto.
Qed.

Lemma digitString_length : forall n s, digitString n s = true -> String.length s = n.
Proof.
  intros n s H. unfold digitString in H. apply andb_true_iff in H.
  now apply Nat.eqb_eq.
Qed.

Lemma monthString_inj : forall m1 m2 : Z,
    (0 <= m1 <= 11)%Z -> (0 <= m2 <= 11)%Z -> monthString m1 = monthString m2 -> m1 = m2.
Proof.
  assert (forallb (fun i => forallb (fun j =>
            implb (String.eqb (monthString (0 + Z.of_nat i)) (monthString (0 + Z.of_nat j)))
                  (i =? j)) (seq 0 (Z.to_nat 12))) (seq 0 (Z.to_nat 12)) = true) as Hall
      by (vm_compute; reflexivity).
  intros m1 m2 H1 H2 E.
  destruct (@in_range_nat 0%Z 12%Z m1) as (i & Hi & ->); [lia|].
  destruct (@in_range_nat 0%Z 12%Z m2) as (j & Hj & ->); [lia|].
  pose proof (proj1 (forallb_forall _ _) (proj1 (forallb_forall _ _) Hall i Hi) j Hj) as H.
  cbv beta in H. rewrite E, String.eqb_refl in H. cbn in H. apply Nat.eqb_eq in H.
  now subst.
Qed.

Lemma dayString_inj : forall d1 d2 : Z,
    (1 <= d1 <= 31)%Z -> (1 <= d2 <= 31)%Z -> dayString d1 = dayString d2 -> d1 = d2.
Proof.
  assert (forallb (fun i => forallb (fun j =>
            implb (String.eqb (dayString (1 + Z.of_nat i)) (dayString (1 + Z.of_nat j)))
                  (i =? j)) (seq 0 (Z.to_nat 31))) (seq 0 (Z.to_nat 31)) = true) as Hall
      by (vm_compute; reflexivity).
  intros d1 d2 H1 H2 E.
  destruct (@in_range_nat 1%Z 31%Z d1) as (i & Hi & ->); [lia|].
  destruct (@in_range_nat 1%Z 31%Z d2) as (j & Hj & ->); [lia|].
  pose proof (proj1 (forallb_forall _ _) (proj1 (forallb_forall _ _) Hall i Hi) j Hj) as H.
  cbv beta in H. rewrite E, String.eqb_refl in H. cbn in H. apply Nat.eqb_eq in H.
  now subst.
Qed.

(** X19.  [isSameDay] compares the keys of the two dates, and the key
    tells the day: for two dates with a month from 0 to 11 and a day of
    the month from 1 to 31, of any year, [isSameDay] is [true] exactly
    when year, month and day of the month are the same. *)
Theorem isSameDay_iff : forall date1 date2 : Date,
    calendarDay date1 = true ->
    calendarDay date2 = true ->
    (isSameDay date1 date2 = true <-> date1 = date2).
Proof.
  intros [y1 m1 d1|] [y2 m2 d2|] H1 H2; try discriminate.
  unfold isSameDay. split; [|intros ->; apply String.eqb_refl].
  intros E. apply String.eqb_eq in E.
  cbn [calendarDay] in H1, H2.
  rewrite !andb_true_iff, !Z.leb_le in H1, H2.
  rewrite !formatDateKey_parts in E.
  pose proof (digitString_length _ _ (@monthString_two_digits m1 ltac:(lia))) as Lm1.
  pose proof (digitString_length _ _ (@monthString_two_digits m2 ltac:(lia))) as Lm2.
  pose proof (digitString_length _ _ (@dayString_two_digits d1 ltac:(lia))) as Ld1.
  pose proof (digitString_length _ _ (@dayString_two_digits d2 ltac:(lia))) as Ld2.
  apply append_inj_suffix in E.
  2:{ cbn [String.append String.length]. rewrite !length_append.
      cbn [String.append String.length]. lia. }
  destruct E as [Ey E]. cbn [String.append] in E. injection E as E.
  apply append_inj_suffix in E.
  2:{ cbn [String.append String.length]. lia. }
  destruct E as [Em E]. injection E as Ed.
  unfold yearString in Ey. apply numberToString_inj in Ey.
  apply monthString_inj in Em; [|lia|lia].
  apply dayString_inj in Ed; [|lia|lia].
  now subst.
Qed.

Lemma isSameDay_iff_witness :
  isSameDay (MkDate 2024 0 15) (MkDate 2024 0 15) = true
  <-> MkDate 2024 0 15 = MkDate 2024 0 15.
Proof.
  exact (@isSameDay_iff (MkDate 2024 0 15) (MkDate 2024 0 15) eq_refl eq_refl).
Defined.

Lemma yearString_digits : forall y : Z,
    (1000 <= y <= 9999)%Z ->
    yearString y
    = String (digitChar (y / 1000))
        (String (digitChar (y / 100 mod 10))
           (String (digitChar (y / 10 mod 10))
              (String (digitChar (y mod 10)) ""))).
Proof.
  assert (forallb (fun i =>
            let y := (1000 + Z.of_nat i)%Z in
            String.eqb (yearString y)
              (String (digitChar (y / 1000))
                 (String (digitChar (y / 100 mod 10))
                    (String (digitChar (y / 10 mod 10))
                       (String (digitChar (y mod 10)) "")))))
            (seq 0 (Z.to_nat 9000)) = true) as Hall by (vm_compute; reflexivity).
  intros y Hy.
  destruct (@in_range_nat 1000%Z 9000%Z y) as (i & Hin & ->); [lia|].
  apply String.eqb_eq. exact (proj1 (forallb_forall _ _) Hall i Hin).
Qed.

Lemma monthString_digits : forall m : Z,
    (0 <= m <= 11)%Z ->
    monthString m
    = String (digitChar ((m + 1) / 10)) (String (digitChar ((m + 1) mod 10)) "").
Proof.
  assert (forallb (fun i =>
            let m := (0 + Z.of_nat i)%Z in
            String.eqb (monthString m)
              (String (digitChar ((m + 1) / 10)) (String (digitChar ((m + 1) mod 10)) "")))
            (seq 0 (Z.to_nat 12)) = true) as Hall by (vm_compute; reflexivity).
  intros m Hm.
  destruct (@in_range_nat 0%Z 12%Z m) as (i & Hin & ->); [lia|].
  apply String.eqb_eq. exact (proj1 (forallb_forall _ _) Hall i Hin).
Qed.

Lemma dayString_digits : forall d : Z,
    (1 <= d <= 31)%Z ->
    dayString d = String (digitChar (d / 10)) (String (digitChar (d mod 10)) "").
Proof.
  assert (forallb (fun i =>
            let d := (1 + Z.of_nat i)%Z in
            String.eqb (dayString d)
              (String (digitChar (d / 10)) (String (digitChar (d mod 10)) "")))
            (seq 0 (Z.to_nat 31)) = true) as Hall by (vm_compute; reflexivity).
  intros d Hd.
  destruct (@in_range_nat 1%Z 31%Z d) as (i & Hin & ->); [lia|].
  apply String.eqb_eq. exact (proj1 (forallb_forall _ _) Hall i Hin).
Qed.

Lemma digitChar_compare : forall a b : Z,
    (0 <= a <= 9)%Z -> (0 <= b <= 9)%Z ->
    Ascii.compare (digitChar a) (digitChar b) = (a ?= b)%Z.
Proof.
  assert (forall a, (0 <= a <= 9)%Z -> N_of_ascii (digitChar a) = (48 + Z.to_N a)%N) as Hn.
  { assert (forallb (fun i => N.eqb (N_of_ascii (digitChar (0 + Z.of_nat i)))
                                (48 + Z.to_N (0 + Z.of_nat i)))
              (seq 0 (Z.to_nat 10)) = true) as Hall by (vm_compute; reflexivity).
    intros a Ha. destruct (@in_range_nat 0%Z 10%Z a) as (i & Hin & ->); [lia|].
    apply N.eqb_eq. exact (proj1 (forallb_forall _ _) Hall i Hin). }
  intros a b Ha Hb. unfold Ascii.compare. rewrite (Hn a Ha), (Hn b Hb).
  destruct (Z.compare_spec a b) as [E|E|E].
  - subst. apply N.compare_refl.
  - apply N.compare_lt_iff. lia.
  - apply N.compare_gt_iff. lia.
Qed.

Lemma dateKey_order : forall date1 date2 : Date,
    calendarDay date1 = true -> fourDigitYear date1 = true ->
    calendarDay date2 = true -> fourDigitYear date2 = true ->
    String.leb (formatDateKey date1) (formatDateKey date2) = dayLeb date1 date2.
Proof.
  intros [y1 m1 d1|] [y2 m2 d2|] C1 Y1 C2 Y2; try discriminate.
  cbn [calendarDay fourDigitYear] in *.
  rewrite !andb_true_iff, !Z.leb_le in C1, Y1, C2, Y2.
  rewrite !formatDateKey_parts.
  rewrite !yearString_digits, !monthString_digits, !dayString_digits by lia.
  unfold String.leb. cbn [String.append String.compare].
  change (Ascii.compare "-" "-") with Eq. cbv iota.
  rewrite !digitChar_compare by (Z.div_mod_to_equations; lia).
  unfold dayLeb.
  destruct (Z.ltb_spec y1 y2), (Z.eqb_spec y1 y2), (Z.ltb_spec m1 m2), (Z.eqb_spec m1 m2),
    (Z.leb_spec d1 d2); cbn [orb andb]; try lia;
    repeat match goal with
      | |- context [Z.compare ?a ?b] => destruct (Z.compare_spec a b)
      end; try reflexivity; exfalso; Z.div_mod_to_equations; lia.
Qed.

(** X20.  [getTodosForDateRange] compares day keys as strings.  For days
    of the calendar with four-digit years this is the order of the
    calendar: on a collection in which each array is filed under the key
    of its day, the call returns, in the order of the collection, the
    todos of the days from the start date to the end date, both
    included. *)
Theorem getTodosForDateRange_chronological :
  forall (days : list (Date * list Obj)) (startDate endDate : Date),
    forallb (fun day => calendarDay (fst day) && fourDigitYear (fst day)) days = true ->
    calendarDay startDate = true -> fourDigitYear startDate = true ->
    calendarDay endDate = true -> fourDigitYear endDate = true ->
    getTodosForDateRange (filedUnder days) startDate endDate
    = flat_map snd
        (filter (fun day => dayLeb startDate (fst day) && dayLeb (fst day) endDate) days).
Proof.
  intros days startDate endDate Hdays Cs Ys Ce Ye.
  unfold getTodosForDateRange, filedUnder. cbv zeta.
  induction days as [|[day items] days IH]; [reflexivity|].
  cbn [forallb fst] in Hdays. apply andb_true_iff in Hdays. destruct Hdays as [Hday Hdays].
  apply andb_true_iff in Hday. destruct Hday as [Cd Yd].
  cbn [map flat_map filter fst snd].
  rewrite (dateKey_order startDate day), (dateKey_order day endDate) by assumption.
  rewrite (IH Hdays).
  destruct (dayLeb startDate day && dayLeb day endDate); reflexivity.
Qed.

Lemma getTodosForDateRange_chronological_witness :
  getTodosForDateRange todosCollection (MkDate 2023 11 31) (MkDate 2024 0 15)
  = [sampleTodo].
Proof.
  exact (@getTodosForDateRange_chronological
           [(MkDate 2024 0 15, [sampleTodo]); (MkDate 2024 0 16, [anotherTodo])]
           (MkDate 2023 11 31) (MkDate 2024 0 15) eq_refl eq_refl eq_refl eq_refl eq_refl).
Defined.

Lemma leb_refl : forall s : string, String.leb s s = true.
Proof. intros s. now destruct (String.leb_total s s). Qed.

(** X21.  On a collection with distinct keys, the range from a date to
    the same date holds the todos of that day, whatever the date. *)
Theorem getTodosForDateRange_single_day : forall (c : Collection) (date : Date),
    distinctKeys c = true ->
    getTodosForDateRange c date date = getTodosForDate c (DayDate date).
Proof.
  intros c date Hd. apply distinct_NoDup in Hd.
  unfold getTodosForDateRange, getTodosForDate. cbv zeta.
  remember (formatDateKey date) as key eqn:Ekey. clear Ekey.
  induction c as [|[k items] c IH]; [reflexivity|].
  inversion Hd as [|? ? Hnotin Hnd]; subst.
  cbn [flat_map fst snd]. unfold bucket. cbn [lookup].
  destruct (String.eqb k key) eqn:E.
  - apply String.eqb_eq in E. subst k. rewrite leb_refl. cbn [andb].
    assert (flat_map (fun kv => if String.leb key (fst kv) && String.leb (fst kv) key
                                then snd kv else []) c = []) as ->;
      [|apply List.app_nil_r].
    rewrite (IH Hnd). unfold bucket.
    now rewrite (proj2 (@lookup_None_notin _ c key) Hnotin).
  - assert (String.leb key k && String.leb k key = false) as ->.
    { destruct (String.leb key k) eqn:L1, (String.leb k key) eqn:L2; auto.
      apply String.eqb_neq in E. exfalso. apply E. now apply String.leb_antisym. }
    cbn [app]. exact (IH Hnd).
Qed.

Lemma getTodosForDateRange_single_day_witness :
  getTodosForDateRange twoOnOneDay (MkDate 2024 0 15) (MkDate 2024 0 15)
  = [sampleTodo; secondTodo].
Proof.
  exact (@getTodosForDateRange_single_day twoOnOneDay (MkDate 2024 0 15) eq_refl).
Defined.

(* ------------------------------------------------------------------ *)
(** ** An update and the validity of the todo *)

Lemma validateTodo_no_missing : forall o : Obj,
    validateTodo (VObj o) = Ret true -> missingFieldsOf o = [].
Proof.
  intros o. unfold validateTodo. cbn [truthy typeof ownProps JsType_eqb negb orb].
  fold (missingFieldsOf o).
  destruct (missingFieldsOf o); [reflexivity | discriminate].
Qed.

Lemma missingFieldsOf_nil : forall o : Obj,
    missingFieldsOf o = [] <-> forall field, In field requiredFields -> hasOwn field o = true.
Proof.
  intros o. unfold missingFieldsOf. split.
  - intros H field Hin. destruct (hasOwn field o) eqn:E; auto.
    assert (In field (filter (fun f => negb (hasOwn f o)) requiredFields)) as Hf.
    { apply filter_In. split; auto. now rewrite E. }
    rewrite H in Hf. inversion Hf.
  - intros H. destruct (filter (fun f => negb (hasOwn f o)) requiredFields) as [|f l] eqn:E;
      auto.
    assert (In f (filter (fun f => negb (hasOwn f o)) requiredFields)) as Hf
        by (rewrite E; now left).
    apply filter_In in Hf. destruct Hf as [Hin Hn]. rewrite (H f Hin) in Hn. discriminate Hn.
Qed.

(** X22.  A valid todo stays valid through an update that is accepted,
    when the date of the update, if there is one, is a calendar day with a
    four-digit year.  With a year below 1000 the update is accepted as
    well, and the todo it returns is one that [validateTodo] refuses for
    its [dateKey]. *)
Theorem updateTodo_validity : forall now (existing : Obj) updates u,
    validateTodo (VObj existing) = Ret true ->
    updateTodo now (VObj existing) updates = Ret u ->
    dateInRange updates = true ->
    validateTodo (VObj u)
    = if dateHasFourDigitYear updates then Ret true
      else Throw (Error "Todo dateKey must be in YYYY-MM-DD format").
Proof.
  intros now existing updates u Hvalid Hupd Hrange.
  destruct (validateTodo_Ret _ Hvalid)
    as (i & t & b & k & de & Hi & Hilen & Ht & Htlen & Hb & Hk & Hkfmt & Hde).
  pose proof (validateTodo_no_missing _ Hvalid) as Hmiss.
  destruct (updateTodo_Ret_shape _ _ _ Hupd) as (Hown & Htitle & Htrim).
  destruct (updateTodo_Ret_inv _ _ _ Hupd) as (Hid & Hti & Hda).
  destruct (updateTodo_outcome now existing updates Hid Hti Hda)
    as (u' & Hu' & Hui & Huc & Hud & Huk & _).
  rewrite Hupd in Hu'. injection Hu' as <-.
  assert (missingFieldsOf u = []) as Hmiss'.
  { apply missingFieldsOf_nil. intros field Hin. apply Hown.
    now apply (proj1 (missingFieldsOf_nil existing) Hmiss). }
  rewrite (validateTodo_checks _ Hmiss').
  unfold checkedFields, fieldOk. cbn [find String.eqb Ascii.eqb Bool.eqb].
  rewrite Hui, Hi, Hilen. cbn [negb].
  assert (exists t', get u "title" = JStr t' /\ (String.length (trim t') =? 0) = false)
    as (t' & Ht' & Ht'len).
  { rewrite Htitle. destruct (isUndefined (upd_title updates)) eqn:Eu.
    - exists t. auto.
    - exists (trim (strOf (upd_title updates))). split; auto.
      rewrite trim_idempotent. now apply Htrim. }
  rewrite Ht', Ht'len. cbn [negb].
  assert (exists b', get u "completed" = JBool b') as (b' & ->).
  { rewrite Huc. destruct (isUndefined (upd_completed updates)); eauto. }
  assert (exists d', get u "description" = JStr d') as (d' & Hd').
  { rewrite Hud. destruct (isUndefined (upd_description updates)); eauto. }
  rewrite Huk. unfold dateInRange, dateHasFourDigitYear in *.
  destruct (upd_date updates) as [pr | d | o].
  - rewrite Hk, Hkfmt. cbn [negb]. now rewrite Hd'.
  - apply andb_true_iff in Hrange. destruct Hrange as [Hcal Hyear].
    rewrite (isDateKeyFormat_formatDateKey d Hcal Hyear).
    destruct (fourDigitYear d); cbn [negb]; [now rewrite Hd' | reflexivity].
  - rewrite Hk, Hkfmt. cbn [negb]. now rewrite Hd'.
Qed.

Lemma updateTodo_validity_witness :
  validateTodo (VObj sampleTodo) = Ret true
  /\ exists u,
       updateTodo "2024-01-15T12:00:00.000Z" (VObj sampleTodo) moveToYear999 = Ret u
       /\ validateTodo (VObj u) = Throw (Error "Todo dateKey must be in YYYY-MM-DD format").
Proof.
  split; [reflexivity|]. eexists. split; [reflexivity|].
  exact (@updateTodo_validity "2024-01-15T12:00:00.000Z" sampleTodo moveToYear999 _
           eq_refl eq_refl eq_refl).
Defined.

(* ------------------------------------------------------------------ *)
(** ** Every todo under the key of its own day *)

Lemma ownDay_without : forall todoId k (items : list Obj),
    ownDay (k, items) = true -> ownDay (k, without todoId items) = true.
Proof.
  intros todoId k items H. unfold ownDay, without in *. cbn [fst snd] in *.
  apply forallb_forall. intros t Hin. apply filter_In in Hin. destruct Hin as [Hin _].
  exact (proj1 (forallb_forall _ _) H t Hin).
Qed.

Lemma ownDay_bucket : forall (c : Collection) k,
    filedUnderOwnDay c = true -> ownDay (k, bucket c k) = true.
Proof.
  intros c k H. unfold bucket. destruct (lookup k c) as [items|] eqn:E; [|reflexivity].
  exact (forallb_lookup ownDay _ _ H E).
Qed.

Lemma ownDay_append : forall k (items : list Obj) (todo : Obj),
    ownDay (k, items) = true -> toString (get todo "dateKey") = k ->
    ownDay (k, items ++ [todo]) = true.
Proof.
  intros k items todo H Hk. unfold ownDay in *. cbn [fst snd] in *.
  rewrite forallb_app, H. cbn. now rewrite Hk, String.eqb_refl.
Qed.

Lemma filedUnderOwnDay_prune : forall todoId k items (c : Collection),
    filedUnderOwnDay c = true -> locateDay todoId c = Some (k, items) ->
    filedUnderOwnDay (prune todoId k items c) = true.
Proof.
  intros todoId k items c Hc Hday. unfold prune, filedUnderOwnDay in *.
  destruct (List.length (without todoId items) =? 0).
  - now apply forallb_delete.
  - apply forallb_assign; auto. apply ownDay_without.
    destruct (locateDay_found _ _ Hday) as [Hin _].
    exact (proj1 (forallb_forall _ _) Hc _ Hin).
Qed.

Lemma filedUnderOwnDay_applyOp : forall (c c' : Collection) op,
    filedUnderOwnDay c = true -> applyOp c op = Ret c' -> filedUnderOwnDay c' = true.
Proof.
  intros c c' [todo | todoId | now todoId updates] Hc; cbn [applyOp].
  - rewrite addTodoToCollection_spec.
    destruct (validateTodo (VObj todo)); [|discriminate]. cbv zeta.
    destruct (existsb _ _); [discriminate|].
    intros H. injection H as <-. apply forallb_assign; auto.
    apply ownDay_append; auto. now apply ownDay_bucket.
  - rewrite removeTodoFromCollection_spec.
    destruct (locateDay todoId c) as [[k items]|] eqn:Hday; [|discriminate].
    intros H. injection H as <-. now apply filedUnderOwnDay_prune.
  - rewrite updateTodoInCollection_spec.
    destruct (locateDay todoId c) as [[k items]|] eqn:Hday; [|discriminate].
    destruct (find _ items) as [e|]; [|discriminate].
    destruct (updateTodo now (VObj e) updates) as [u|]; [|discriminate].
    destruct (notIterable _ _); [discriminate|].
    intros H. injection H as <-. unfold moved. cbv zeta.
    pose proof (@filedUnderOwnDay_prune todoId k items c Hc Hday) as Hp.
    destruct (hasOwn (toString (get u "dateKey")) (prune todoId k items c)).
    + apply forallb_assign; auto.
      apply ownDay_append; auto. now apply ownDay_bucket.
    + unfold filedUnderOwnDay in *. apply forallb_create; auto.
      unfold ownDay. cbn [fst snd forallb]. now rewrite String.eqb_refl.
Qed.

Lemma filedUnderOwnDay_runOps : forall (ops : list Op) (c : Collection),
    filedUnderOwnDay c = true -> filedUnderOwnDay (runOps c ops) = true.
Proof.
  induction ops as [|op ops IH]; intros c Hc; cbn [runOps]; auto.
  destruct (applyOp c op) as [c'|e] eqn:E; auto.
  apply IH. eapply filedUnderOwnDay_applyOp; eauto.
Qed.

(** X23.  Starting from a collection in which every todo is filed under
    the day key that its own [dateKey] prints as, this stays so after any
    history of insertions, removals and updates (moves to another day
    among them): the todos that [getTodosForDate] returns for a day all
    carry the key of that day. *)
Theorem filed_under_own_day : forall (c : Collection) (ops : list Op),
    filedUnderOwnDay c = true ->
    let c' := runOps c ops in
    filedUnderOwnDay c' = true
    /\ forall date todo,
         In todo (getTodosForDate c' date) ->
         toString (get todo "dateKey") = dayKeyOf date.
Proof.
  intros c ops Hc c'.
  assert (filedUnderOwnDay c' = true) as Hc' by now apply filedUnderOwnDay_runOps.
  split; [exact Hc'|].
  intros date todo Hin. unfold getTodosForDate in Hin. fold (dayKeyOf date) in Hin.
  pose proof (@ownDay_bucket c' (dayKeyOf date) Hc') as H.
  unfold ownDay in H. cbn [fst snd] in H.
  apply String.eqb_eq. exact (proj1 (forallb_forall _ _) H todo Hin).
Qed.

Lemma filed_under_own_day_witness :
  let c' := runOps todosCollection
              [Update "2024-01-15T12:00:00.000Z" "test-id-2" moveToJan20;
               Insert secondTodo; Remove "test-id-1"] in
  filedUnderOwnDay c' = true
  /\ forall date todo,
       In todo (getTodosForDate c' date) ->
       toString (get todo "dateKey") = dayKeyOf date.
Proof.
  exact (@filed_under_own_day todosCollection
           [Update "2024-01-15T12:00:00.000Z" "test-id-2" moveToJan20;
            Insert secondTodo; Remove "test-id-1"] eq_refl).
Defined.

(* ------------------------------------------------------------------ *)
(** ** Updating and toggling, as the caller sees them *)

Lemma find_app_first : forall (A : Type) (p : A -> bool) (l1 l2 : list A),
    find p (l1 ++ l2) = match find p l1 with
                        | Some x => Some x
                        | None => find p l2
                        end.
Proof.
  induction l1 as [|x l1 IH]; intros l2; cbn; auto.
  destruct (p x); auto.
Qed.

Lemma find_none_existsb : forall (A : Type) (p : A -> bool) (l : list A),
    existsb p l = false -> find p l = None.
Proof.
  induction l as [|x l IH]; cbn; auto.
  destruct (p x); cbn; [discriminate | exact IH].
Qed.

Lemma getTodoById_locate : forall (c : Collection) todoId,
    getTodoById c todoId
    = match locate todoId c with
      | Some (_, existingTodo) => Some existingTodo
      | None => None
      end.
Proof.
  intros c todoId. unfold getTodoById, locate, getAllTodos. cbv zeta.
  induction c as [|[k items] c IH]; [reflexivity|].
  cbn [flat_map snd locateDay]. rewrite find_app_first.
  destruct (existsb (hasId (JStr todoId)) items) eqn:E.
  - destruct (find_existsb _ _ E) as (x & Hf & _). now rewrite Hf.
  - now rewrite (find_none_existsb _ _ E).
Qed.

Lemma find_unique : forall (A : Type) (p : A -> bool) (l : list A) (x : A),
    List.length (filter p l) <= 1 -> In x l -> p x = true -> find p l = Some x.
Proof.
  induction l as [|y l IH]; intros x Hle Hin Hp; [inversion Hin|].
  cbn in *. destruct (p y) eqn:Ey.
  - destruct Hin as [->|Hin]; auto.
    assert (In x (filter p l)) as Hf by (apply filter_In; auto).
    destruct (filter p l); [inversion Hf | cbn in Hle; lia].
  - destruct Hin as [->|Hin]; [congruence|]. now apply IH.
Qed.

Lemma In_bucket_getAllTodos : forall (c : Collection) k (t : Obj),
    In t (bucket c k) -> In t (getAllTodos c).
Proof.
  intros c k t. unfold bucket, getAllTodos.
  induction c as [|[k0 items] c IH]; cbn [lookup flat_map snd]; [intros []|].
  destruct (String.eqb k0 k); intros H; apply in_or_app; [now left|].
  right. now apply IH.
Qed.

Lemma getTodoById_moved : forall todoId k items existingTodo now updates u (c : Collection),
    NoDup (keys c) -> uniqueIds c ->
    locateDay todoId c = Some (k, items) ->
    find (hasId (JStr todoId)) items = Some existingTodo ->
    updateTodo now (VObj existingTodo) updates = Ret u ->
    inheritedName (toString (get u "dateKey")) = false ->
    getTodoById (moved todoId k items u c) todoId = Some u.
Proof.
  intros todoId k items e now updates u c Hnd Hu Hday Hfind Hupd Hname.
  assert (updateTodoInCollection now c todoId updates = Ret (moved todoId k items u c))
    as Hop.
  { rewrite updateTodoInCollection_spec, Hday, Hfind, Hupd.
    now rewrite (@notIterable_not_inherited (toString (get u "dateKey")) _ Hname). }
  destruct (@uniqueIds_applyOp c (moved todoId k items u c) (Update now todoId updates)
              (distinct_of_NoDup Hnd) Hu eq_refl Hop) as [_ Hu'].
  destruct (locateDay_bucket _ _ Hnd Hday) as [_ Hb].
  destruct (locateDay_found _ _ Hday) as [_ (x & Hfx & Hidx)].
  assert (x = e) by congruence. subst x.
  destruct (updateTodo_Ret_fields _ _ _ Hupd) as [Hsame _].
  unfold getTodoById. cbv zeta. apply find_unique.
  - exact (Hu' todoId).
  - apply In_bucket_getAllTodos with (k := toString (get u "dateKey")).
    rewrite (@bucket_moved todoId k items u c Hb). apply in_or_app. right. now left.
  - unfold hasId in *. now rewrite Hsame.
Qed.

Lemma updateTodo_completed_only : forall now (existing : Obj) (b : bool),
    truthyPrim (get existing "id") = true ->
    updateTodo now (VObj existing)
      {| upd_title := undef; upd_description := undef;
         upd_completed := VPrim (JBool b); upd_date := undef |}
    = Ret (assign "updatedAt" (JStr now) (assign "completed" (JBool b) existing)).
Proof.
  intros now existing b Hid. unfold updateTodo.
  cbn [truthy typeof ownProps JsType_eqb negb orb
       upd_title upd_date upd_completed upd_description undef isUndefined].
  rewrite Hid. reflexivity.
Qed.

Lemma hasId_truthy : forall todoId (t : Obj),
    todoId <> "" -> hasId (JStr todoId) t = true -> truthyPrim (get t "id") = true.
Proof.
  intros todoId t Hne H. unfold hasId in H.
  destruct (get t "id") as [ | | b | [z|] | s]; cbn in H; try discriminate.
  apply String.eqb_eq in H. subst s. cbn. destruct todoId; [congruence | reflexivity].
Qed.

(** X24.  [updateTodoById] on a collection with distinct keys in which no
    id is carried twice, for an id that is found and an update that
    [updateTodo] accepts, in a browser whose storage accepts the write,
    when the [dateKey] of the updated todo is not the name of a member of
    [Object.prototype] (for such a name that the collection does not own
    the call is rejected, see [updateTodoInCollection_toString_day]): the
    call resolves to the updated todo, which is then the todo that
    [getTodoById] finds and the last todo of its day. *)
Theorem updateTodoById_returns_updated :
  forall (host : Host) (w : World host) todoId updates dateKey existingTodo u,
    let r := updateTodoById todoId updates w in
    let c' := storedValue (snd r) in
    distinctKeys (storedValue w) = true ->
    uniqueIds (storedValue w) ->
    locate todoId (storedValue w) = Some (dateKey, existingTodo) ->
    updateTodo (toISOString host (instant w)) (VObj existingTodo) updates = Ret u ->
    inheritedName (toString (get u "dateKey")) = false ->
    writeAccepted w "todos" ->
    fst r = Ret (Some u)
    /\ getTodoById c' todoId = Some u
    /\ last (getTodosForDate c' (DayString (toString (get u "dateKey")))) [] = u
    /\ distinctKeys c' = true.
Proof.
  intros host w todoId updates k e u r c' Hd Hu Hloc Hupd Hname Hacc.
  apply distinct_NoDup in Hd.
  destruct (locate_locateDay _ _ Hloc) as (items & Hday & Hfind & Hid).
  destruct (locateDay_bucket _ _ Hd Hday) as [_ Hb].
  set (v' := moved todoId k items u (storedValue w)).
  assert (updateTodoInCollection (toISOString host (instant w)) (storedValue w) todoId updates
          = Ret v') as Hop.
  { rewrite updateTodoInCollection_spec, Hday, Hfind, Hupd.
    now rewrite (@notIterable_not_inherited (toString (get u "dateKey")) _ Hname). }
  set (w1 := {| storedValue := storedValue w; status := status w;
                localStorage := localStorage w; instant := S (instant w) |}).
  assert (writeAccepted w1 "todos") as Hacc1 by exact Hacc.
  destruct (@setTodos_accepted host w1 v' Hacc1) as (Hret & Hstored & _).
  pose proof (@getTodoById_moved todoId k items e _ updates u (storedValue w)
                Hd Hu Hday Hfind Hupd Hname) as Hget.
  fold v' in Hget.
  assert (r = (Ret (Some u), snd (setTodos v' w1))) as Hr.
  { subst r. unfold updateTodoById, tryCatch, bind, currentTodos, liftR.
    cbn [tick fst snd instant]. rewrite Hop. fold w1.
    destruct (setTodos v' w1) as [[b|e'] w2]; cbn [fst snd] in *; [|discriminate Hret].
    unfold ret. unfold getTodoById in Hget. cbv zeta in Hget. now rewrite Hget. }
  subst c'. rewrite Hr. cbn [fst snd]. rewrite Hstored.
  repeat split; auto.
  - unfold getTodosForDate. subst v'.
    rewrite (@bucket_moved todoId k items u (storedValue w) Hb). apply last_last.
  - apply distinct_of_NoDup. now apply NoDup_keys_moved.
Qed.

Lemma updateTodoById_returns_updated_witness :
  let w := mounted workingStorage "{...}" in
  let r := updateTodoById "test-id-1" moveToJan20 w in
  let c' := storedValue (snd r) in
  exists u,
    updateTodo "2024-01-15T12:00:00.000Z" (VObj sampleTodo) moveToJan20 = Ret u
    /\ fst r = Ret (Some u)
    /\ getTodoById c' "test-id-1" = Some u
    /\ last (getTodosForDate c' (DayString "2024-01-20")) [] = u
    /\ distinctKeys c' = true.
Proof.
  eexists. split; [reflexivity|].
  refine (@updateTodoById_returns_updated workingStorage (mounted workingStorage "{...}")
            "test-id-1" moveToJan20 "2024-01-15" sampleTodo _
            eq_refl (uniqueIds_of_check todosCollection eq_refl) eq_refl eq_refl eq_refl _).
  intros v. exists v. reflexivity.
Defined.

(** X25.  [toggleTodoComplete] of the hook, for an id that is not empty
    and that one todo carries, on a collection with distinct keys and in
    a browser whose storage accepts the write, when the [dateKey] that
    the todo carries is not the name of a member of [Object.prototype].
    The call resolves to the
    todo found with [completed] set to the opposite of its truthiness and
    [updatedAt] set to the instant of the toggle; every other field is as
    it was.  The todo that is stored, and that [getTodoById] finds
    afterwards, is not that object: it is updated a second time and
    carries the later instant as its [updatedAt]. *)
Theorem toggleTodoCompleteById_flips :
  forall (host : Host) (w : World host) todoId dateKey existingTodo,
    let r := toggleTodoCompleteById todoId w in
    let c' := storedValue (snd r) in
    let toggled :=
      assign "updatedAt" (JStr (toISOString host (instant w)))
        (assign "completed" (JBool (negb (truthyPrim (get existingTodo "completed"))))
           existingTodo) in
    todoId <> "" ->
    distinctKeys (storedValue w) = true ->
    uniqueIds (storedValue w) ->
    locate todoId (storedValue w) = Some (dateKey, existingTodo) ->
    inheritedName (toString (get existingTodo "dateKey")) = false ->
    writeAccepted w "todos" ->
    fst r = Ret toggled
    /\ getTodoById c' todoId
       = Some (assign "updatedAt" (JStr (toISOString host (S (instant w)))) toggled)
    /\ get toggled "completed" = JBool (negb (truthyPrim (get existingTodo "completed")))
    /\ (forall field, field <> "completed" -> field <> "updatedAt" ->
          get toggled field = get existingTodo field).
Proof.
  intros host w todoId k e r c' toggled Hne Hd Hu Hloc Hname Hacc.
  apply distinct_NoDup in Hd.
  destruct (locate_locateDay _ _ Hloc) as (items & Hday & Hfind & Hid).
  pose proof (hasId_truthy _ Hne Hid) as Htruthy.
  assert (find (hasId (JStr todoId)) (getAllTodos (storedValue w)) = Some e) as Hcur.
  { pose proof (getTodoById_locate (storedValue w) todoId) as H.
    rewrite Hloc in H. exact H. }
  pose proof (@updateTodo_completed_only (toISOString host (instant w)) e
                (negb (truthyPrim (get e "completed"))) Htruthy) as Htog.
  fold toggled in Htog.
  assert (get toggled "completed" = JBool (negb (truthyPrim (get e "completed")))) as Hco.
  { subst toggled. rewrite get_assign_other by (intro; discriminate).
    apply get_assign_same. }
  set (stored := assign "updatedAt" (JStr (toISOString host (S (instant w)))) toggled).
  assert (updateTodo (toISOString host (S (instant w))) (VObj e)
            {| upd_title := undef; upd_description := undef;
               upd_completed := VPrim (get toggled "completed"); upd_date := undef |}
          = Ret stored) as Hupd.
  { rewrite Hco, updateTodo_completed_only by exact Htruthy.
    subst stored toggled. now rewrite assign_assign. }
  assert (inheritedName (toString (get stored "dateKey")) = false) as Hname'.
  { subst stored toggled. rewrite !get_assign_other by (intro; discriminate). exact Hname. }
  set (v' := moved todoId k items stored (storedValue w)).
  set (w2 := {| storedValue := storedValue w; status := status w;
                localStorage := localStorage w; instant := S (S (instant w)) |}).
  assert (writeAccepted w2 "todos") as Hacc2 by exact Hacc.
  destruct (@setTodos_accepted host w2 v' Hacc2) as (Hret & Hstored & _).
  assert (r = (Ret toggled, snd (setTodos v' w2))) as Hr.
  { subst r. unfold toggleTodoCompleteById, tryCatch, bind, currentTodos, liftR.
    cbn [fst snd]. rewrite Hcur. unfold toggleTodoComplete.
    cbn [tick fst snd instant]. rewrite Htog.
    rewrite updateTodoInCollection_spec, Hday, Hfind, Hupd.
    rewrite (@notIterable_not_inherited (toString (get stored "dateKey")) _ Hname').
    fold v'.
    cbn [storedValue status localStorage instant]. fold w2.
    destruct (setTodos v' w2) as [[b|e'] w3]; cbn [fst snd] in *; [|discriminate Hret].
    reflexivity. }
  subst c'. rewrite Hr. cbn [fst snd]. rewrite Hstored.
  split; [reflexivity|]. split; [|split; [exact Hco|]].
  - subst v'. eapply getTodoById_moved; eauto.
  - intros field H1 H2. subst toggled. now rewrite !get_assign_other.
Qed.

Lemma toggleTodoCompleteById_flips_witness :
  let w := mounted workingStorage "{...}" in
  let r := toggleTodoCompleteById "test-id-1" w in
  let c' := storedValue (snd r) in
  let toggled :=
    assign "updatedAt" (JStr "2024-01-15T12:00:00.000Z")
      (assign "completed" (JBool true) sampleTodo) in
  fst r = Ret toggled
  /\ getTodoById c' "test-id-1"
     = Some (assign "updatedAt" (JStr "2024-01-15T12:00:00.000Z") toggled)
  /\ get toggled "completed" = JBool true
  /\ (forall field, field <> "completed" -> field <> "updatedAt" ->
        get toggled field = get sampleTodo field).
Proof.
  refine (@toggleTodoCompleteById_flips workingStorage (mounted workingStorage "{...}")
            "test-id-1" "2024-01-15" sampleTodo _ eq_refl
            (uniqueIds_of_check todosCollection eq_refl) eq_refl eq_refl _).
  - discriminate.
  - intros v. exists v. reflexivity.
Defined.

(* ------------------------------------------------------------------ *)
(** ** The setter of useLocalStorage *)


(* ------------------------------------------------------------------ *)
(** ** What a search returns of the todos stored *)

Lemma assign_own_dateKey : forall (todo : Obj) k,
    strictEq (get todo "dateKey") (JStr k) = true ->
    assign "dateKey" (JStr k) todo = todo.
Proof.
  intros todo k H. apply assign_same_value. unfold get in H.
  destruct (lookup "dateKey" todo) as [[ | | b | [z|] | s]|]; cbn in H; try discriminate.
  apply String.eqb_eq in H. now subst.
Qed.

Lemma map_assign_own_dateKey : forall (items : list Obj) k,
    forallb (fun todo => strictEq (get todo "dateKey") (JStr k)) items = true ->
    map (assign "dateKey" (JStr k)) items = items.
Proof.
  induction items as [|t items IH]; intros k H; [reflexivity|].
  cbn [forallb] in H. apply andb_true_iff in H. destruct H as [Ht Hi].
  cbn [map]. now rewrite (assign_own_dateKey _ _ Ht), (IH _ Hi).
Qed.

Lemma forallb_filter : forall (A : Type) (p q : A -> bool) (l : list A),
    forallb p l = true -> forallb p (filter q l) = true.
Proof.
  intros A p q l H. apply forallb_forall. intros x Hin.
  apply filter_In in Hin. destruct Hin as [Hin _].
  exact (proj1 (forallb_forall _ _) H x Hin).
Qed.

(** X27.  On a collection in which the [dateKey] of every todo is the key
    of its day and whose titles and descriptions are strings, the search
    with a non-empty string adds nothing to the todos it returns: the
    result is the list of all todos, in order, filtered by the term. *)
Theorem searchTodos_returns_stored : forall (c : Collection) (searchTerm : string),
    searchTerm <> "" ->
    forallb hasStringTexts (getAllTodos c) = true ->
    keyedByOwnDay c = true ->
    searchTodos c (VPrim (JStr searchTerm))
    = Ret (filter (mentions (trim (toLowerCase searchTerm))) (getAllTodos c)).
Proof.
  intros c searchTerm Hne Htexts Hkeyed. unfold searchTodos.
  cbn [truthy truthyPrim typeof typeofPrim JsType_eqb strOf strOfPrim].
  destruct searchTerm as [|ch s]; [congruence|].
  cbn [String.length Nat.eqb negb orb].
  rewrite searchLoop_mentions by exact Htexts. cbn [app]. f_equal.
  rewrite tagged_keepTodos. clear Htexts Hne.
  remember (mentions (trim (toLowerCase (String ch s)))) as p eqn:Ep. clear Ep.
  unfold keyedByOwnDay, getAllTodos in *.
  induction c as [|[k items] c IH]; [reflexivity|].
  cbn [forallb fst snd] in Hkeyed. apply andb_true_iff in Hkeyed.
  destruct Hkeyed as [Hk Hc].
  cbn [flat_map fst snd]. rewrite filter_app, (IH Hc). f_equal.
  apply map_assign_own_dateKey. now apply forallb_filter.
Qed.

Lemma searchTodos_returns_stored_witness :
  searchTodos twoOnOneDay (VPrim (JStr "Second")) = Ret [secondTodo].
Proof.
  refine (@searchTodos_returns_stored twoOnOneDay "Second" _ eq_refl eq_refl).
  discriminate.
Defined.
